(** * USPTO monitor: incremental processing core

    A shallow embedding of the novelty filter, the document source adapters,
    the per-matter processing functions and the batch entry points of

    - [lib/unified-uspto-monitor.js]   (module [Monitor] below),
    - [Googlecron.js]                  (module [Googlecron] below),
    - [automation-controller.js]       (module [Controller] below),

    of the run over all matters of the controller and the routes of
    [routes/automation.js] (module [Automation]), of the routes on the
    matter registry of the Express server in [api/health.js] (module
    [Server]), of the rows of the report of latest dates (module [Report])
    and of the handler of [api/monitor.js] (module [MonitorApi]), followed
    by the properties established about them.

    Conventions of the embedding.
    - A JavaScript [Date] is its time value, an integer number of
      milliseconds since the epoch; the invalid date is [None].
    - Strings are compared as JavaScript compares them, code unit by code
      unit; on the ASCII strings handled here this is [String.compare].
    - An [async] function is a computation in the monad [JS]: it threads the
      mutable store and ends normally or by a thrown exception.  Awaited
      timers only wait and are left out.
    - What the outside world answers (registries, mail, drive, CRM, browser,
      clock) is read from an environment [Env]; every call that reaches the
      outside world is appended to the store's [trace], and so are the
      announcement of a matter's processing and every status update.
    - The two JSON files are part of the store; reading and writing them is
      taken to succeed.
    - Where the code takes a value of any JSON type as it comes (the
      [officialDate] of a patent item, the fields of a request to the
      matter routes), the value is a [Json] and the code's conversions and
      comparisons are written out on it. *)

From Stdlib Require Import ZArith QArith Qcanon String Ascii List Lia Sorted.
From stdpp Require Import base option numbers list strings gmap.

Local Open Scope string_scope.
Local Open Scope list_scope.
Local Open Scope Z_scope.

(** ** Dates *)

Module JsDate.

(** [msPerDay] of ECMA-262. *)
Definition msPerDay : Z := 86400000.

(** [Day(t) = floor(t / msPerDay)]. *)
Definition Day (t : Z) : Z := t / msPerDay.

(** Civil date (year, month, day of month) of a day number counted from
    1970-01-01, in the proleptic Gregorian calendar that [toISOString]
    prints. *)
Definition civil (day : Z) : Z * Z * Z :=
  let z := day + 719468 in
  let era := z / 146097 in
  let doe := z - era * 146097 in
  let yoe := (doe - doe / 1460 + doe / 36524 - doe / 146096) / 365 in
  let doy := doe - (365 * yoe + yoe / 4 - yoe / 100) in
  let mp := (5 * doy + 2) / 153 in
  let d := doy - (153 * mp + 2) / 5 + 1 in
  let m := if mp <? 10 then mp + 3 else mp - 9 in
  let y := yoe + era * 400 + (if m <=? 2 then 1 else 0) in
  (y, m, d).

Definition digit (n : Z) : ascii :=
  ascii_of_N (48 + Z.to_N (n mod 10)).

(** The last [width] decimal digits of [n], most significant first. *)
Fixpoint digits (width : nat) (n : Z) : string :=
  match width with
  | O => EmptyString
  | S w => digits w (n / 10) +:+ String (digit n) EmptyString
  end.

(** The year as [toISOString] prints it: four digits from 0 to 9999, a
    sign and six digits otherwise. *)
Definition isoYear (y : Z) : string :=
  if (0 <=? y) && (y <=? 9999) then digits 4 y
  else if y <? 0 then "-" +:+ digits 6 (- y)
  else "+" +:+ digits 6 y.

(** [t.toISOString().split('T')[0]] for a valid time value [t]. *)
Definition toISODate (t : Z) : string :=
  let '(y, m, d) := civil (Day t) in
  isoYear y +:+ "-" +:+ digits 2 m +:+ "-" +:+ digits 2 d.

End JsDate.

Export JsDate.

(** ** Novelty filter *)

(** JavaScript truthiness of a value read out of the processed-state object:
    [undefined] (the key is missing) and the empty string are falsy. *)
Definition truthy (v : option string) : bool :=
  match v with
  | Some s => negb (String.eqb s "")
  | None => false
  end.

(** [a > b] and [a >= b] on strings. *)
Definition str_gt (a b : string) : bool := String.ltb b a.
Definition str_ge (a b : string) : bool := String.leb b a.

(** [isNewDocument(docDate, lastProcessedDate, todayDate)], the same text in
    [lib/unified-uspto-monitor.js] and in [Googlecron.js]. *)
Definition isNewDocument (docDate : Z) (lastProcessedDate : option string)
    (todayDate : string) : bool :=
  let docDateStr := toISODate docDate in
  if truthy lastProcessedDate
  then str_gt docDateStr (default "" lastProcessedDate)
  else str_ge docDateStr todayDate.

(** ** Data model *)

(** A parsed registry document.  [documentCode] and [category] exist on
    patent documents only; [driveLink] and [fileType] are added by a
    successful upload. *)
Record Document := mkDocument {
  date : Z;
  description : string;
  documentCode : option string;
  category : option string;
  link : string;
  driveLink : option string;
  fileType : option string
}.

(** An entry of [map.json]; [lastUpdated] holds the time whose ISO text the
    file stores. *)
Record Matter := mkMatter {
  applicationNumber : string;
  lawmaticsID : string;
  type : string;
  status : option string;
  lastUpdated : option Z
}.

(** *** What the registries answer *)

(** A child element as [xml2js] hands it over: its text, or an object when
    the element carries attributes or children. *)
Inductive XmlValue :=
| XText (s : string)
| XNode.

(** A [Document] element of the trademark bundle; each field is the first
    item of the corresponding array, when there is one. *)
Record TsdrDocument := mkTsdrDocument {
  MailRoomDate : option XmlValue;
  ScanDateTime : option XmlValue;
  DocumentTypeDescriptionText : option string;
  UrlPath : option string
}.

(** The body of a 2xx answer of the trademark registry: text that
    [parseStringPromise] rejects, or a parsed tree with or without
    [DocumentList.Document]. *)
Inductive TsdrBody :=
| XmlMalformed (message : string)
| XmlParsed (documents : option (list TsdrDocument)).

(** [axios.get] rejects on a timeout, a network error and a non-2xx status;
    otherwise it resolves with the body. *)
Inductive Reply (Body : Type) :=
| Rejected (message : string)
| Resolved (data : Body).
Arguments Rejected {Body} message.
Arguments Resolved {Body} data.

(** A value as [JSON.parse] hands it over.  [JUndefined] stands for a
    property the object lacks.  A number is its mathematical value; a
    literal beyond the range of doubles is read as an infinity.  An array or
    an object is known by the text that [String(value)] gives, and is equal
    to no value but itself. *)
Inductive Json :=
| JUndefined
| JNull
| JBoolean (b : bool)
| JNumber (n : Qc)
| JInfinity (negative : bool)
| JString (s : string)
| JCompound (text : string).

(** An item of the patent [documentBag].  [officialDate] is handed to
    [new Date] as it comes; the other fields are strings when present. *)
Record OdpDocument := mkOdpDocument {
  officialDate : Json;
  documentCodeDescriptionText : option string;
  odpDocumentCode : option string;
  directionCategory : option string;
  downloadUrl : option string
}.

(** [data?.documentBag]: missing (also when the body is not JSON), an array,
    or some other truthy value, which has no [map] method. *)
Inductive DocumentBag :=
| BagMissing
| BagArray (items : list OdpDocument)
| BagNotArray.

(** How a run of the browser automation goes. *)
Inductive FormOutcome :=
| FormSubmitted
| FormLaunchFailed
| FormStepFailed
| FormCloseFailed.

(** *** Environment *)

Record Env := mkEnv {
  (** [new Date()], as a time value *)
  now : Z;
  (** [new Date(text)]: the time value, or [None] for an invalid date *)
  Date_parse : string → option Z;
  (** the trademark and patent registries, by application number *)
  tsdr : string → Reply TsdrBody;
  odp : string → Reply DocumentBag;
  (** download and [uploadToDrive]: the [webViewLink], or a failure *)
  drive : string → Document → option string;
  (** does the mail service accept the new-document notification *)
  mailer : string → Document → bool;
  (** does the mail service accept the confirmation or summary mail *)
  report_mailer : bool;
  (** does the CRM accept the [PUT] of the prospect *)
  crm_put : string → Document → bool;
  (** does the CRM return the prospect's attributes *)
  crm_get : string → bool;
  (** the browser automation, by CRM identifier and document *)
  browser : string → Document → FormOutcome
}.

(** *** Trace of calls to the outside world

    - [EProcessing]: the line [processMatter] logs on entry;
    - [EFetch]: the request to a registry;
    - [EUpload]: the download of a document and its upload to the drive;
    - [EMail]: the new-document notification handed to the mail service;
    - [ECrmPut], [ECrmGet]: the update and the read of the CRM prospect;
    - [EForm]: a run of the browser automation;
    - [EStatus]: a call of [updateMatterStatus], with whether an entry of
      [map.json] was found and written;
    - [EConfirmation], [ESummary]: the report mails of a batch and a sweep. *)

Inductive Event :=
| EProcessing (applicationNumber : string)
| EFetch (type applicationNumber : string)
| EUpload (applicationNumber : string) (doc : Document)
| EMail (applicationNumber : string) (doc : Document)
| ECrmPut (lawmaticsID applicationNumber : string) (doc : Document)
| ECrmGet (lawmaticsID : string)
| EForm (lawmaticsID applicationNumber : string) (doc : Document)
| EStatus (lawmaticsId status : string) (written : bool)
| EConfirmation (processedCount totalCount : nat)
| ESummary (updated totalMatters totalDocuments : nat).

(** *** Store *)

(** The mutable state the functions share: the two JSON files, the
    processed-state object that [processMatter] receives by reference and
    updates in place, and the fields of the controller. *)
Record Store := mkStore {
  stateFile : option (gmap string string);
  lastProcessedState : gmap string string;
  mapFile : list Matter;
  currentlyProcessing : gset string;
  statusFile : option (gset string);
  lastRun : option Z;
  trace : list Event
}.

(** ** Computations *)

Inductive completion (A : Type) :=
| Normal (value : A)
| Throw (message : string).
Arguments Normal {A} value.
Arguments Throw {A} message.

Definition JS (A : Type) : Type := Store → completion A * Store.

Definition ret {A} (a : A) : JS A := λ s, (Normal a, s).

Definition throw {A} (message : string) : JS A := λ s, (Throw message, s).

Definition bind {A B} (m : JS A) (k : A → JS B) : JS B :=
  λ s, match m s with
       | (Normal a, s') => k a s'
       | (Throw e, s') => (Throw e, s')
       end.

Notation "'let*' x ':=' m 'in' k" := (bind m (λ x, k))
  (at level 10, x binder, m at level 100, k at level 200,
   format "'[v' 'let*'  x  :=  m  'in'  '/' k ']'").
Notation "m >> k" := (bind m (λ _, k))
  (at level 100, k at level 200, right associativity,
   format "'[v' m  >>  '/' k ']'").

Definition gets {A} (f : Store → A) : JS A := λ s, (Normal (f s), s).

Definition modify (f : Store → Store) : JS unit := λ s, (Normal tt, f s).

(** [try { body } catch (error) { handler(error.message) }] *)
Definition try_catch {A} (body : JS A) (handler : string → JS A) : JS A :=
  λ s, match body s with
       | (Normal a, s') => (Normal a, s')
       | (Throw e, s') => handler e s'
       end.

(** [try { body } finally { final }]: [final] always runs; when it throws,
    its exception replaces the completion of [body]. *)
Definition try_finally {A} (body : JS A) (final : JS unit) : JS A :=
  λ s, match body s with
       | (c, s') =>
           match final s' with
           | (Normal _, s'') => (c, s'')
           | (Throw e, s'') => (Throw e, s'')
           end
       end.

(** The store after the calls [events] have been made. *)
Definition log (events : list Event) (s : Store) : Store :=
  mkStore (stateFile s) (lastProcessedState s) (mapFile s)
          (currentlyProcessing s) (statusFile s) (lastRun s)
          (trace s ++ events).

Definition emit (e : Event) : JS unit := modify (log [e]).

(** [for (const x of xs) acc = body(acc, x)], with the variables the loop
    updates passed along as [acc]. *)
Fixpoint for_of {A B} (body : B → A → JS B) (acc : B) (xs : list A) : JS B :=
  match xs with
  | [] => ret acc
  | x :: rest => let* acc' := body acc x in for_of body acc' rest
  end.

(** [xs.map(f)] for a callback that may throw. *)
Fixpoint map_js {A B} (f : A → JS B) (xs : list A) : JS (list B) :=
  match xs with
  | [] => ret []
  | x :: rest =>
      let* y := f x in
      let* ys := map_js f rest in
      ret (y :: ys)
  end.

(** ** Store accessors *)

Definition set_lastProcessedState (f : gmap string string → gmap string string)
    (s : Store) : Store :=
  mkStore (stateFile s) (f (lastProcessedState s)) (mapFile s)
          (currentlyProcessing s) (statusFile s) (lastRun s) (trace s).

Definition set_stateFile (v : option (gmap string string)) (s : Store) : Store :=
  mkStore v (lastProcessedState s) (mapFile s)
          (currentlyProcessing s) (statusFile s) (lastRun s) (trace s).

Definition set_mapFile (v : list Matter) (s : Store) : Store :=
  mkStore (stateFile s) (lastProcessedState s) v
          (currentlyProcessing s) (statusFile s) (lastRun s) (trace s).

Definition set_currentlyProcessing (f : gset string → gset string)
    (s : Store) : Store :=
  mkStore (stateFile s) (lastProcessedState s) (mapFile s)
          (f (currentlyProcessing s)) (statusFile s) (lastRun s) (trace s).

Definition set_statusFile (v : option (gset string)) (s : Store) : Store :=
  mkStore (stateFile s) (lastProcessedState s) (mapFile s)
          (currentlyProcessing s) v (lastRun s) (trace s).

Definition set_lastRun (v : option Z) (s : Store) : Store :=
  mkStore (stateFile s) (lastProcessedState s) (mapFile s)
          (currentlyProcessing s) (statusFile s) v (trace s).

(** ** State file and clock: the same text in both monitor files *)

(** [loadLastProcessedState()]: the parsed file, or [{}] when the file is
    missing or unreadable.  The object it returns is the store's
    [lastProcessedState] from then on. *)
Definition loadLastProcessedState : JS unit :=
  modify (λ s, set_lastProcessedState (λ _, default ∅ (stateFile s)) s).

(** [saveLastProcessedState(state)] *)
Definition saveLastProcessedState : JS unit :=
  modify (λ s, set_stateFile (Some (lastProcessedState s)) s).

(** [getTodayDateKey()] *)
Definition getTodayDateKey (E : Env) : string := toISODate (now E).

(** [loadMatterMap()] *)
Definition loadMatterMap : JS (list Matter) := gets mapFile.

(** ** Source adapters: shared parts *)

(** [axios.get(url, ...)] *)
Definition axios_get {Body} (reply : Reply Body) : JS Body :=
  match reply with
  | Rejected message => throw message
  | Resolved data => ret data
  end.

(** [parseStringPromise(data)], followed by [result?.DocumentList?.Document]. *)
Definition parseStringPromise (data : TsdrBody) : JS (option (list TsdrDocument)) :=
  match data with
  | XmlMalformed message => throw message
  | XmlParsed documents => ret documents
  end.

Definition is_digit (c : ascii) : bool :=
  ((48 <=? N_of_ascii c) && (N_of_ascii c <=? 57))%N.

(** Does the text match [-\d{2}:\d{2}] as a whole. *)
Definition is_offset (t : string) : bool :=
  match list_ascii_of_string t with
  | [m; h1; h2; c; m1; m2] =>
      Ascii.eqb m "-" && is_digit h1 && is_digit h2 && Ascii.eqb c ":"
      && is_digit m1 && is_digit m2
  | _ => false
  end.

(** [rawDate.replace(/-\d{2}:\d{2}$/, "")] *)
Definition strip_offset (rawDate : string) : string :=
  let n := String.length rawDate in
  if (6 <=? n)%nat && is_offset (substring (n - 6) 6 rawDate)
  then substring 0 (n - 6) rawDate
  else rawDate.

(** [v || fallback] on an optional string. *)
Definition or_else (v : option string) (fallback : string) : string :=
  if truthy v then default fallback v else fallback.

(** [ToIntegerOrInfinity] on a finite number: the fraction is cut off. *)
Definition truncate (n : Qc) : Z := Z.quot (Qnum n) (Z.pos (Qden n)).

(** [TimeClip]: a time value lies within 8.64e15 ms of the epoch. *)
Definition TimeClip (n : Qc) : option Z :=
  if bool_decide (Qc_of_Z (-8640000000000000) ≤ n)%Qc
     && bool_decide (n ≤ Qc_of_Z 8640000000000000)%Qc
  then Some (truncate n) else None.

(** [new Date(value)] on a JSON value: the time value, or [None] for an
    invalid date.  [undefined] gives an invalid date; [null], a boolean and
    a number are converted to a number, [null] and [false] to 0, which is
    the first of January 1970; a string is parsed, and so is the text of an
    array or an object. *)
Definition new_Date (E : Env) (value : Json) : option Z :=
  match value with
  | JUndefined => None
  | JNull => Some 0
  | JBoolean b => Some (if b then 1 else 0)
  | JNumber n => TimeClip n
  | JInfinity _ => None
  | JString s => Date_parse E s
  | JCompound text => Date_parse E text
  end.

Definition xml_truthy (v : option XmlValue) : bool :=
  match v with
  | Some (XText t) => negb (String.eqb t "")
  | Some XNode => true
  | None => false
  end.

(** The callback of [docs.map] in the trademark adapter.  The outcome is
    [None] for the object whose [date] is [null], which the [filter] that
    follows removes. *)
Definition parseTsdrDocument (E : Env) (doc : TsdrDocument) : JS (option Document) :=
  let rawDate :=
    if xml_truthy (MailRoomDate doc) then MailRoomDate doc
    else if xml_truthy (ScanDateTime doc) then ScanDateTime doc
    else Some (XText "") in
  match rawDate with
  | Some (XText raw) =>
      let cleanedDate := strip_offset raw in
      ret (match Date_parse E cleanedDate with
           | None => None
           | Some dateObj =>
               Some (mkDocument dateObj
                       (or_else (DocumentTypeDescriptionText doc) "Unknown")
                       None None
                       (or_else (UrlPath doc) "N/A")
                       None None)
           end)
  | _ => throw "rawDate.replace is not a function"
  end.

(** The callback of [docs.map] in the patent adapter, with the [filter] on
    [isNaN(doc.date)] that follows: [None] for an invalid date. *)
Definition parseOdpDocument (E : Env) (doc : OdpDocument) : option Document :=
  match new_Date E (officialDate doc) with
  | None => None
  | Some dateObj =>
      Some (mkDocument dateObj
              (or_else (documentCodeDescriptionText doc) "Unknown")
              (Some (or_else (odpDocumentCode doc) "N/A"))
              (Some (or_else (directionCategory doc) "N/A"))
              (or_else (downloadUrl doc) "N/A")
              None None)
  end.

(** [.sort((a, b) => b.date - a.date)]: a stable sort, latest first. *)
Fixpoint insert_desc (d : Document) (sorted : list Document) : list Document :=
  match sorted with
  | [] => [d]
  | x :: rest =>
      if date x <=? date d then d :: sorted else x :: insert_desc d rest
  end.

Definition sort_desc (docs : list Document) : list Document :=
  foldr insert_desc [] docs.

(** The [try] body of the trademark adapter, up to [parsedDocs]. *)
Definition trademarkDocs (E : Env) (applicationNumber : string) : JS (list Document) :=
  emit (EFetch "Trademark" applicationNumber) >>
  let* data := axios_get (tsdr E applicationNumber) in
  let* result := parseStringPromise data in
  let docs := default [] result in
  if (length docs =? 0)%nat then ret []
  else
    let* mapped := map_js (parseTsdrDocument E) docs in
    ret (sort_desc (omap id mapped)).

(** The [try] body of the patent adapter, up to [parsedDocs]. *)
Definition patentDocs (E : Env) (applicationNumber : string) : JS (list Document) :=
  emit (EFetch "Patent" applicationNumber) >>
  let* data := axios_get (odp E applicationNumber) in
  match data with
  | BagMissing => ret []
  | BagArray docs =>
      if (length docs =? 0)%nat then ret []
      else ret (sort_desc (omap (parseOdpDocument E) docs))
  | BagNotArray => throw "docs.map is not a function"
  end.

(** ** Side effects: the same text in both monitor files *)

(** [getProspect(lawmaticsID)]: [true] stands for the attributes. *)
Definition getProspect (E : Env) (lawmaticsID : string) : JS bool :=
  emit (ECrmGet lawmaticsID) >>
  ret (crm_get E lawmaticsID).

(** [updateLawmaticsProspect(lawmaticsID, applicationNumber, latestDoc, type)]:
    a rejected [PUT] is caught and logged. *)
Definition updateLawmaticsProspect (E : Env) (lawmaticsID applicationNumber : string)
    (latestDoc : Document) : JS unit :=
  try_catch
    (emit (ECrmPut lawmaticsID applicationNumber latestDoc) >>
     if crm_put E applicationNumber latestDoc then ret tt
     else throw "Request failed")
    (λ _, ret tt).

(** [s.includes(t)] *)
Definition includes (s t : string) : bool :=
  match index 0 t s with Some _ => true | None => false end.

(** ** [lib/unified-uspto-monitor.js] *)

Module Monitor.

(** [fetchAllTrademarkDocs(applicationNumber)] *)
Definition fetchAllTrademarkDocs (E : Env) (applicationNumber : string)
    : JS (list Document) :=
  try_catch (trademarkDocs E applicationNumber) (λ _, ret []).

(** [fetchAllPatentDocs(applicationNumber)] *)
Definition fetchAllPatentDocs (E : Env) (applicationNumber : string)
    : JS (list Document) :=
  try_catch (patentDocs E applicationNumber) (λ _, ret []).

(** The part of [mimeType] after the slash. *)
Definition mimeSubtype (latestDoc : Document) (type : string) : string :=
  if String.eqb type "Patent" then "pdf"
  else if includes (link latestDoc) "/webcontent" then "pdf"
  else if includes (link latestDoc) ".xml" then "xml"
  else "pdf".

(** [downloadAndUploadToDrive(applicationNumber, latestDoc, type)] *)
Definition downloadAndUploadToDrive (E : Env) (applicationNumber : string)
    (latestDoc : Document) (type : string) : JS Document :=
  if String.eqb (link latestDoc) "" || String.eqb (link latestDoc) "N/A"
  then ret latestDoc
  else
    try_catch
      (emit (EUpload applicationNumber latestDoc) >>
       match drive E applicationNumber latestDoc with
       | None => throw "Drive upload failed"
       | Some webViewLink =>
           ret (mkDocument (date latestDoc) (description latestDoc)
                  (documentCode latestDoc) (category latestDoc)
                  (link latestDoc) (Some webViewLink)
                  (Some (mimeSubtype latestDoc type)))
       end)
      (λ _, ret latestDoc).

(** [submitFormWithPuppeteer(...)]: the browser is closed in [finally]
    only when it was launched. *)
Definition submitFormWithPuppeteer (E : Env) (matterId applicationNumber : string)
    (latestDoc : Document) : JS unit :=
  let outcome := browser E matterId latestDoc in
  try_finally
    (try_catch
       (emit (EForm matterId applicationNumber latestDoc) >>
        match outcome with
        | FormLaunchFailed => throw "Failed to launch the browser process"
        | FormStepFailed => throw "Waiting for selector failed"
        | FormSubmitted | FormCloseFailed => ret tt
        end)
       (λ _, ret tt))
    (match outcome with
     | FormLaunchFailed => ret tt
     | FormCloseFailed => throw "Protocol error: Target closed"
     | FormSubmitted | FormStepFailed => ret tt
     end).

(** [sendEmailNotification(applicationNumber, latestDoc, type)]: the
    rejection of [transporter.sendMail] is not caught here. *)
Definition sendEmailNotification (E : Env) (applicationNumber : string)
    (latestDoc : Document) : JS unit :=
  emit (EMail applicationNumber latestDoc) >>
  if mailer E applicationNumber latestDoc then ret tt
  else throw "sendMail failed".

(** [sendSummaryEmail(updatedMatters, totalMatters, totalDocuments)] *)
Definition sendSummaryEmail (E : Env) (updated totalMatters totalDocuments : nat)
    : JS unit :=
  emit (ESummary updated totalMatters totalDocuments) >>
  if report_mailer E then ret tt else throw "sendMail failed".

(** [processSingleDocument(matter, document, type)]; its result is not
    used by the caller. *)
Definition processSingleDocument (E : Env) (matter : Matter)
    (document : Document) (type : string) : JS unit :=
  let* processedDoc :=
    downloadAndUploadToDrive E (applicationNumber matter) document type in
  sendEmailNotification E (applicationNumber matter) processedDoc >>
  updateLawmaticsProspect E (lawmaticsID matter) (applicationNumber matter)
    processedDoc >>
  let* prospectData := getProspect E (lawmaticsID matter) in
  if prospectData
  then submitFormWithPuppeteer E (lawmaticsID matter)
         (applicationNumber matter) processedDoc
  else ret tt.

(** What [processMatter] returns; a field the object lacks is [None]. *)
Record Result := mkResult {
  processed : bool;
  reason : option string;
  docCount : nat;
  resApplicationNumber : string;
  resType : string;
  resDescription : string;
  latestDocDate : option string;
  multiDoc : option bool
}.

(** The documents [processMatter] fetches: [None] for an unknown type. *)
Definition fetchByType (E : Env) (matter : Matter) : JS (option (list Document)) :=
  if String.eqb (type matter) "Patent" then
    let* allDocs := fetchAllPatentDocs E (applicationNumber matter) in
    ret (Some allDocs)
  else if String.eqb (type matter) "Trademark" then
    let* allDocs := fetchAllTrademarkDocs E (applicationNumber matter) in
    ret (Some allDocs)
  else ret None.

(** [allDocs.filter(doc => isNewDocument(doc.date, lastProcessedDate, todayDate))] *)
Definition newDocsOf (lastProcessedDate : option string) (todayDate : string)
    (allDocs : list Document) : list Document :=
  List.filter (λ doc, isNewDocument (date doc) lastProcessedDate todayDate) allDocs.

(** [newDocs.filter(doc => doc.date.toISOString().split('T')[0] === latestDate)] *)
Definition latestDateDocsOf (latestDate : string) (newDocs : list Document)
    : list Document :=
  List.filter (λ doc, String.eqb (toISODate (date doc)) latestDate) newDocs.

(** [processMatter(matter, lastProcessedState, todayDate)]; the
    processed-state object is the store's [lastProcessedState]. *)
Definition processMatter (E : Env) (matter : Matter) (todayDate : string)
    : JS Result :=
  let applicationNumber := applicationNumber matter in
  let type := type matter in
  emit (EProcessing applicationNumber) >>
  let* fetched := fetchByType E matter in
  match fetched with
  | None =>
      ret (mkResult false (Some "unknown_type") 0 applicationNumber type
             "Unknown type" None None)
  | Some allDocs =>
      if (length allDocs =? 0)%nat then
        ret (mkResult false (Some "no_documents") 0 applicationNumber type
               "No documents" None None)
      else
        let* lastProcessedDate :=
          gets (λ s, lastProcessedState s !! applicationNumber) in
        let newDocs := newDocsOf lastProcessedDate todayDate allDocs in
        match newDocs with
        | [] =>
            ret (mkResult false (Some "not_new") 0 applicationNumber type
                   "No new documents"
                   (toISODate ∘ date <$> head allDocs) None)
        | newest :: _ =>
            let latestDate := toISODate (date newest) in
            let latestDateDocs := latestDateDocsOf latestDate newDocs in
            let* totalProcessed :=
              for_of (λ totalProcessed document,
                        processSingleDocument E matter document type >>
                        ret (S totalProcessed))
                     0%nat latestDateDocs in
            modify (set_lastProcessedState (<[applicationNumber := latestDate]>)) >>
            ret (mkResult (0 <? totalProcessed)%nat None totalProcessed
                   applicationNumber type
                   (or_else (description <$> head latestDateDocs) "Unknown")
                   (Some latestDate)
                   (Some (1 <? length latestDateDocs)%nat))
        end
  end.

(** What [processAllMatters] returns; the counts are 0 where the object has
    no such field. *)
Record SweepResult := mkSweepResult {
  success : bool;
  error : option string;
  totalMatters : nat;
  updatedMatters : nat;
  totalDocuments : nat
}.

(** The body of the [for (const matter of matters)] loop. *)
Definition sweepStep (E : Env) (todayDate : string)
    (acc : list Result * nat) (matter : Matter) : JS (list Result * nat) :=
  let* result := processMatter E matter todayDate in
  ret (if processed result
       then ((acc.1 ++ [result])%list, (acc.2 + docCount result)%nat)
       else acc).

(** [processAllMatters()] *)
Definition processAllMatters (E : Env) : JS SweepResult :=
  try_catch
    (let* matters := loadMatterMap in
     loadLastProcessedState >>
     let todayDate := getTodayDateKey E in
     if (length matters =? 0)%nat then
       ret (mkSweepResult false (Some "No matters found") 0 0 0)
     else
       let* acc := for_of (sweepStep E todayDate) ([], 0%nat) matters in
       saveLastProcessedState >>
       sendSummaryEmail E (length acc.1) (length matters) acc.2 >>
       ret (mkSweepResult true None (length matters) (length acc.1) acc.2))
    (λ message, ret (mkSweepResult false (Some message) 0 0 0)).

End Monitor.

(** ** [Googlecron.js] *)

Module Googlecron.

(** [fetchTrademarkDoc(applicationNumber)]: [parsedDocs[0]], or [null]. *)
Definition fetchTrademarkDoc (E : Env) (applicationNumber : string)
    : JS (option Document) :=
  try_catch
    (let* parsedDocs := trademarkDocs E applicationNumber in
     ret (head parsedDocs))
    (λ _, ret None).

(** [fetchPatentDoc(applicationNumber)]: [sortedDocs[0]], or [null]. *)
Definition fetchPatentDoc (E : Env) (applicationNumber : string)
    : JS (option Document) :=
  try_catch
    (let* sortedDocs := patentDocs E applicationNumber in
     ret (head sortedDocs))
    (λ _, ret None).

(** [downloadAndUploadToDrive(applicationNumber, latestDoc, type)] *)
Definition downloadAndUploadToDrive (E : Env) (applicationNumber : string)
    (latestDoc : Document) : JS Document :=
  if String.eqb (link latestDoc) "" || String.eqb (link latestDoc) "N/A"
  then ret latestDoc
  else
    try_catch
      (emit (EUpload applicationNumber latestDoc) >>
       match drive E applicationNumber latestDoc with
       | None => throw "Drive upload failed"
       | Some webViewLink =>
           ret (mkDocument (date latestDoc) (description latestDoc)
                  (documentCode latestDoc) (category latestDoc)
                  (link latestDoc) (Some webViewLink) (fileType latestDoc))
       end)
      (λ _, ret latestDoc).

(** [submitFormWithPuppeteer(...)]: [finally { await browser.close() }]
    with [browser] still [null] when the launch failed. *)
Definition submitFormWithPuppeteer (E : Env) (matterId applicationNumber : string)
    (latestDoc : Document) : JS unit :=
  let outcome := browser E matterId latestDoc in
  try_finally
    (try_catch
       (emit (EForm matterId applicationNumber latestDoc) >>
        match outcome with
        | FormLaunchFailed => throw "Failed to launch the browser process"
        | FormStepFailed => throw "Waiting for selector failed"
        | FormSubmitted | FormCloseFailed => ret tt
        end)
       (λ _, ret tt))
    (match outcome with
     | FormLaunchFailed => throw "Cannot read properties of null (reading 'close')"
     | FormCloseFailed => throw "Protocol error: Target closed"
     | FormSubmitted | FormStepFailed => ret tt
     end).

(** [sendEmailNotification(applicationNumber, latestDoc, type)] *)
Definition sendEmailNotification (E : Env) (applicationNumber : string)
    (latestDoc : Document) : JS unit :=
  try_catch
    (emit (EMail applicationNumber latestDoc) >>
     if mailer E applicationNumber latestDoc then ret tt
     else throw "send failed")
    (λ _, ret tt).

(** [sendConfirmationEmail(processedCount, totalCount)] *)
Definition sendConfirmationEmail (E : Env) (processedCount totalCount : nat)
    : JS unit :=
  try_catch
    (emit (EConfirmation processedCount totalCount) >>
     if report_mailer E then ret tt else throw "send failed")
    (λ _, ret tt).

(** What [processMatter] returns; a field the object lacks is [None]. *)
Record Result := mkResult {
  processed : bool;
  reason : option string;
  docDate : option Z
}.

(** The document [processMatter] fetches: [None] for an unknown type. *)
Definition fetchByType (E : Env) (matter : Matter) : JS (option (option Document)) :=
  if String.eqb (type matter) "Patent" then
    let* latestDoc := fetchPatentDoc E (applicationNumber matter) in
    ret (Some latestDoc)
  else if String.eqb (type matter) "Trademark" then
    let* latestDoc := fetchTrademarkDoc E (applicationNumber matter) in
    ret (Some latestDoc)
  else ret None.

(** [processMatter(matter, lastProcessedState, todayDate)]; the
    processed-state object is the store's [lastProcessedState]. *)
Definition processMatter (E : Env) (matter : Matter) (todayDate : string)
    : JS Result :=
  let applicationNumber := applicationNumber matter in
  let lawmaticsID := lawmaticsID matter in
  emit (EProcessing applicationNumber) >>
  let* fetched := fetchByType E matter in
  match fetched with
  | None => ret (mkResult false (Some "unknown_type") None)
  | Some None => ret (mkResult false (Some "no_documents") None)
  | Some (Some latestDoc) =>
      let* lastProcessedDate :=
        gets (λ s, lastProcessedState s !! applicationNumber) in
      let docDateStr := toISODate (date latestDoc) in
      let isNew := isNewDocument (date latestDoc) lastProcessedDate todayDate in
      if negb isNew then
        ret (mkResult false (Some "not_new") (Some (date latestDoc)))
      else
        let* latestDoc := downloadAndUploadToDrive E applicationNumber latestDoc in
        sendEmailNotification E applicationNumber latestDoc >>
        updateLawmaticsProspect E lawmaticsID applicationNumber latestDoc >>
        let* prospectData := getProspect E lawmaticsID in
        (if prospectData
         then submitFormWithPuppeteer E lawmaticsID applicationNumber latestDoc
         else ret tt) >>
        modify (set_lastProcessedState (<[applicationNumber := docDateStr]>)) >>
        ret (mkResult true None (Some (date latestDoc)))
  end.

(** The body of the [for (const matter of matters)] loop; only
    [processedCount] is read after the loop. *)
Definition sweepStep (E : Env) (todayDate : string)
    (processedCount : nat) (matter : Matter) : JS nat :=
  let* result := processMatter E matter todayDate in
  ret (if processed result then S processedCount else processedCount).

(** [processAllMatters()] *)
Definition processAllMatters (E : Env) : JS unit :=
  try_catch
    (let* matters := loadMatterMap in
     loadLastProcessedState >>
     let todayDate := getTodayDateKey E in
     if (length matters =? 0)%nat then ret tt
     else
       let* processedCount := for_of (sweepStep E todayDate) 0%nat matters in
       saveLastProcessedState >>
       if (processedCount =? 0)%nat
       then sendConfirmationEmail E processedCount (length matters)
       else ret tt)
    (λ _, ret tt).

End Googlecron.

(** ** [automation-controller.js] *)

Module Controller.

(** [loadMatters()] *)
Definition loadMatters : JS (list Matter) := gets mapFile.

(** [saveStatus()]: the in-flight identifiers go to the status file. *)
Definition saveStatus : JS unit :=
  modify (λ s, set_statusFile (Some (currentlyProcessing s)) s).

(** [matters[matterIndex].status = status; ... .lastUpdated = ...] *)
Definition withStatus (E : Env) (status : string) (m : Matter) : Matter :=
  mkMatter (applicationNumber m) (lawmaticsID m) (type m) (Some status)
           (Some (now E)).

(** [updateMatterStatus(lawmaticsId, status)] *)
Definition updateMatterStatus (E : Env) (lawmaticsId status : string) : JS bool :=
  let* matters := loadMatters in
  match list_find (λ m, lawmaticsID m = lawmaticsId) matters with
  | Some (matterIndex, _) =>
      modify (set_mapFile (alter (withStatus E status) matterIndex matters)) >>
      emit (EStatus lawmaticsId status true) >>
      ret true
  | None =>
      emit (EStatus lawmaticsId status false) >>
      ret false
  end.

(** [getMattersByIds(lawmaticsIds)] *)
Definition getMattersByIds (lawmaticsIds : list string) : JS (list Matter) :=
  let* allMatters := loadMatters in
  ret (List.filter (λ matter, bool_decide (lawmaticsID matter ∈ lawmaticsIds))
         allMatters).

(** What [processSingleMatter] returns; a field the object lacks is [None]. *)
Record SingleResult := mkSingleResult {
  success : bool;
  message : string;
  matter : option Matter;
  processed : option bool
}.

Definition finalStatus (processed : bool) : string :=
  if processed then "Automation Completed" else "No Updates Found".

(** [processSingleMatter(lawmaticsId)] *)
Definition processSingleMatter (E : Env) (lawmaticsId : string) : JS SingleResult :=
  let* busy := gets (λ s, bool_decide (lawmaticsId ∈ currentlyProcessing s)) in
  if busy then
    ret (mkSingleResult false "Matter is already being processed" None None)
  else
    try_finally
      (try_catch
         (modify (set_currentlyProcessing (λ cp, {[lawmaticsId]} ∪ cp)) >>
          saveStatus >>
          updateMatterStatus E lawmaticsId "Processing..." >>
          let* matters := getMattersByIds [lawmaticsId] in
          match matters with
          | [] =>
              updateMatterStatus E lawmaticsId "Failed - Not Found" >>
              ret (mkSingleResult false "Matter not found" None None)
          | matter :: _ =>
              loadLastProcessedState >>
              let todayDate := getTodayDateKey E in
              let* result := Googlecron.processMatter E matter todayDate in
              saveLastProcessedState >>
              modify (set_lastRun (Some (now E))) >>
              saveStatus >>
              updateMatterStatus E lawmaticsId
                (finalStatus (Googlecron.processed result)) >>
              ret (mkSingleResult true
                     (if Googlecron.processed result
                      then "New document processed"
                      else "No new documents found")
                     (Some matter) (Some (Googlecron.processed result)))
          end)
         (λ error,
            updateMatterStatus E lawmaticsId "Failed" >>
            ret (mkSingleResult false error None None)))
      (modify (set_currentlyProcessing (λ cp, cp ∖ {[lawmaticsId]})) >>
       saveStatus).

(** An element of [results]; a field the object lacks is [None]. *)
Record Entry := mkEntry {
  entryId : string;
  entrySuccess : bool;
  entryProcessed : option bool;
  entryApplicationNumber : option string;
  entryMessage : string
}.

(** What [processMultipleMatters] returns; the refusal carries a message
    only, its counts are 0 and its [results] empty here. *)
Record BatchResult := mkBatchResult {
  batchSuccess : bool;
  batchMessage : option string;
  total : nat;
  successful : nat;
  batchProcessed : nat;
  results : list Entry
}.

(** The body of the second [for (const matter of matters)] loop of
    [processMultipleMatters], on the loop's variables [results] and
    [processedCount].  Nothing in the [try] block can throw after
    [processMatter] has returned, so the [catch] block sees both variables
    as they were when the iteration began. *)
Definition batchStep (E : Env) (todayDate : string)
    (acc : list Entry * nat) (matter : Matter) : JS (list Entry * nat) :=
  let id := lawmaticsID matter in
  let* busy := gets (λ s, bool_decide (id ∈ currentlyProcessing s)) in
  if busy then
    ret ((acc.1 ++ [mkEntry id false None None "Already being processed"])%list,
         acc.2)
  else
    try_finally
      (try_catch
         (modify (set_currentlyProcessing (λ cp, {[id]} ∪ cp)) >>
          saveStatus >>
          let* result := Googlecron.processMatter E matter todayDate in
          let processedCount :=
            if Googlecron.processed result then S acc.2 else acc.2 in
          updateMatterStatus E id (finalStatus (Googlecron.processed result)) >>
          ret ((acc.1 ++
                [mkEntry id true (Some (Googlecron.processed result))
                   (Some (applicationNumber matter))
                   (if Googlecron.processed result
                    then "New document processed"
                    else "No new documents")])%list,
               processedCount))
         (λ error,
            updateMatterStatus E id "Failed" >>
            ret ((acc.1 ++ [mkEntry id false None None error])%list, acc.2)))
      (modify (set_currentlyProcessing (λ cp, cp ∖ {[id]})) >>
       saveStatus).

(** [processMultipleMatters(lawmaticsIds)] *)
Definition processMultipleMatters (E : Env) (lawmaticsIds : list string)
    : JS BatchResult :=
  let* matters := getMattersByIds lawmaticsIds in
  if (length matters =? 0)%nat then
    ret (mkBatchResult false (Some "No valid matters found") 0 0 0 [])
  else
    loadLastProcessedState >>
    let todayDate := getTodayDateKey E in
    for_of (λ _ matter,
              updateMatterStatus E (lawmaticsID matter) "Processing..." >>
              ret tt)
           tt matters >>
    let* acc := for_of (batchStep E todayDate) ([], 0%nat) matters in
    saveLastProcessedState >>
    modify (set_lastRun (Some (now E))) >>
    saveStatus >>
    let successCount := length (List.filter entrySuccess acc.1) in
    (if (acc.2 =? 0)%nat
     then try_catch
            (Googlecron.sendConfirmationEmail E acc.2 (length matters))
            (λ _, ret tt)
     else ret tt) >>
    ret (mkBatchResult true None (length matters) successCount acc.2 acc.1).

End Controller.

(** ** [automation-controller.js]: the run over all matters *)

Module Automation.

(** What [runAutomationOnce] returns: the success object with its counts,
    from which its [message] is built, or [success: false] with a
    message. *)
Inductive RunResult :=
| RunCompleted (processed total : nat)
| RunFailed (message : string).

(** [result.processed] and [result.total] on what
    [automation.processAllMatters()] resolved to.  [processAllMatters] of
    [Googlecron.js] returns no value on any path: [result] is [undefined]
    and reading a property of it throws a [TypeError]. *)
Definition readProperty (name : string) (result : unit) : JS nat :=
  throw ("Cannot read properties of undefined (reading '" +:+ name +:+ "')").

(** [runAutomationOnce()].  The flag [this.isRunning] is passed in and
    handed back with the result; the object written by [saveStatus] is
    kept in the store by its in-flight identifiers. *)
Definition runAutomationOnce (E : Env) (isRunning : bool)
    : JS (RunResult * bool) :=
  if isRunning then
    ret (RunFailed "Automation is already running", isRunning)
  else
    Controller.saveStatus >>
    let* answer :=
      try_finally
        (try_catch
           (let* result := Googlecron.processAllMatters E in
            modify (set_lastRun (Some (now E))) >>
            readProperty "processed" result >>
            readProperty "total" result >>
            Controller.saveStatus >>
            let* processed := readProperty "processed" result in
            let* total := readProperty "total" result in
            ret (RunCompleted processed total))
           (λ message,
              Controller.saveStatus >>
              ret (RunFailed message)))
        Controller.saveStatus in
    ret (answer, false).

(** What a route of [routes/automation.js] answers: the status code and
    either the result of the controller or an error message. *)
Inductive HttpResponse (A : Type) :=
| Json (result : A)
| ErrorJson (statusCode : nat) (message : string).
Arguments Json {A} result.
Arguments ErrorJson {A} statusCode message.

(** [router.post('/run-once', ...)] *)
Definition runOnceRoute (E : Env) (isRunning : bool)
    : JS (HttpResponse RunResult * bool) :=
  try_catch
    (let* answer := runAutomationOnce E isRunning in
     ret (Json answer.1, answer.2))
    (λ message, ret (ErrorJson 500 message, isRunning)).

(** [router.post('/process-single', ...)]; [lawmaticsId] is the field of
    the request body, [None] when it is missing. *)
Definition processSingleRoute (E : Env) (lawmaticsId : option string)
    : JS (HttpResponse Controller.SingleResult) :=
  try_catch
    (if negb (truthy lawmaticsId) then
       ret (ErrorJson 400 "Lawmatics ID is required")
     else
       let* result := Controller.processSingleMatter E (default "" lawmaticsId) in
       ret (Json result))
    (λ message, ret (ErrorJson 500 message)).

(** [router.post('/process-multiple', ...)]; [lawmaticsIds] is the field
    of the request body, [None] when it is missing or not an array. *)
Definition processMultipleRoute (E : Env) (lawmaticsIds : option (list string))
    : JS (HttpResponse Controller.BatchResult) :=
  try_catch
    (match lawmaticsIds with
     | None | Some [] => ret (ErrorJson 400 "Lawmatics IDs array is required")
     | Some ids =>
         let* result := Controller.processMultipleMatters E ids in
         ret (Json result)
     end)
    (λ message, ret (ErrorJson 500 message)).

End Automation.

(** ** [Googlecron.js]: the debug command on the processed state *)

(** [resetApplicationState(applicationNumber)] *)
Definition resetApplicationState (applicationNumber : string) : JS unit :=
  loadLastProcessedState >>
  let* marker := gets (λ s, lastProcessedState s !! applicationNumber) in
  if truthy marker then
    modify (set_lastProcessedState (delete applicationNumber)) >>
    saveLastProcessedState
  else ret tt.

(** ** The Express server of [api/health.js]: the routes on the matter registry

    The routes read and write [map.json] and nothing else: each is a
    function from the content of the file to the answer and the content
    afterwards.  The file holds an array of objects.  [readMapFile] and
    [writeMapFile] catch what the file system throws and nothing else in
    the [try] blocks of the routes throws, so that the [catch] blocks, which
    answer 500, are not reached and are left out. *)

Module Server.

(** Is the value truthy: what [!value] negates. *)
Definition json_truthy (value : Json) : bool :=
  match value with
  | JUndefined | JNull => false
  | JBoolean b => b
  | JNumber n => negb (bool_decide (n = Qc_of_Z 0))
  | JInfinity _ => true
  | JString s => negb (String.eqb s "")
  | JCompound _ => true
  end.

(** [a === b] between values of different entries of the file, or between a
    value of the file and a value of the request: both have the same type
    and the same value.  An array or an object of the one is never that of
    the other. *)
Definition strictEq (a b : Json) : bool :=
  match a, b with
  | JUndefined, JUndefined => true
  | JNull, JNull => true
  | JBoolean x, JBoolean y => Bool.eqb x y
  | JNumber x, JNumber y => bool_decide (x = y)
  | JInfinity x, JInfinity y => Bool.eqb x y
  | JString x, JString y => String.eqb x y
  | _, _ => false
  end.

(** The value read back after [JSON.stringify] has written it: an infinity
    is written as [null]; a property that is [undefined] is left out and
    reads as [undefined].  The text of an array or an object, which no
    route reads, is kept as it is. *)
Definition stringify (value : Json) : Json :=
  match value with
  | JInfinity _ => JNull
  | _ => value
  end.

(** An entry of [map.json] as the routes read it.  The fields hold whatever
    value the file has, [JUndefined] for a missing property; [lastUpdated]
    holds the time whose ISO text the file stores.  [createdAt], which no
    function reads, is not kept. *)
Record Stored := mkStored {
  storedApplicationNumber : Json;
  storedLawmaticsID : Json;
  storedType : Json;
  storedStatus : Json;
  storedLastUpdated : option Z
}.

Definition stringifyStored (entry : Stored) : Stored :=
  mkStored (stringify (storedApplicationNumber entry))
           (stringify (storedLawmaticsID entry))
           (stringify (storedType entry))
           (stringify (storedStatus entry))
           (storedLastUpdated entry).

(** An entry whose fields are strings, which is how the monitor and the
    controller read the registry, as the routes read it. *)
Definition toStored (m : Matter) : Stored :=
  mkStored (JString (applicationNumber m)) (JString (lawmaticsID m))
           (JString (type m))
           (match status m with Some st => JString st | None => JUndefined end)
           (lastUpdated m).

(** What a route answers: the body of a successful answer, or a status
    code and an error message. *)
Inductive Response :=
| Listed (mapData : list Stored)
| Added (matter : Stored)
| Updated (matter : Stored)
| Deleted (deletedCount : nat)
| Failure (statusCode : nat) (error : string).

(** [readMapFile()], on the content of the file; a missing file reads as
    the empty list, which is also what is written in its place. *)
Definition readMapFile (file : list Stored) : list Stored := file.

(** [writeMapFile(data)]: the content of the file afterwards. *)
Definition writeMapFile (data : list Stored) : list Stored :=
  stringifyStored <$> data.

(** [app.get('/api/matters', ...)] *)
Definition getMatters (file : list Stored) : Response * list Stored :=
  let mapData := readMapFile file in
  (Listed mapData, file).

(** The fields of [req.body] that the request to add a matter reads, as
    [bodyParser.json()] parsed them. *)
Record MatterBody := mkMatterBody {
  bodyApplicationNumber : Json;
  bodyLawmaticsID : Json;
  bodyType : Json
}.

(** [app.post('/api/matters', ...)] *)
Definition postMatter (E : Env) (body : MatterBody) (file : list Stored)
    : Response * list Stored :=
  let applicationNumber := bodyApplicationNumber body in
  let lawmaticsID := bodyLawmaticsID body in
  let type := bodyType body in
  if negb (json_truthy applicationNumber) || negb (json_truthy lawmaticsID)
     || negb (json_truthy type) then
    (Failure 400 "Missing required fields: applicationNumber, lawmaticsID, type",
     file)
  else
    let mapData := readMapFile file in
    let existsByAppNumber :=
      List.find (λ item, strictEq (storedApplicationNumber item) applicationNumber)
                mapData in
    let existsByLawmaticsID :=
      List.find (λ item, strictEq (storedLawmaticsID item) lawmaticsID) mapData in
    match existsByAppNumber, existsByLawmaticsID with
    | Some _, _ =>
        (Failure 400 "Matter already exists with this application number", file)
    | None, Some _ =>
        (Failure 400 "Matter already exists with this Lawmatics ID", file)
    | None, None =>
        let newMatter :=
          mkStored applicationNumber lawmaticsID type
                   (JString "Pending Automation") (Some (now E)) in
        (Added newMatter, writeMapFile (mapData ++ [newMatter]))
    end.

(** [app.put('/api/matters/:lawmaticsID', ...)]; [param] is
    [req.params.lawmaticsID], a string, and [status] the field of the
    request body. *)
Definition putMatter (E : Env) (param : string) (status : Json)
    (file : list Stored) : Response * list Stored :=
  let mapData := readMapFile file in
  match list_find (λ item, strictEq (storedLawmaticsID item) (JString param) = true)
                  mapData with
  | Some (index, matter) =>
      let matter :=
        mkStored (storedApplicationNumber matter) (storedLawmaticsID matter)
                 (storedType matter) status (Some (now E)) in
      (Updated matter, writeMapFile (<[index := matter]> mapData))
  | None => (Failure 404 "Matter not found", file)
  end.

(** [app.delete('/api/matters/:lawmaticsID', ...)]; [param] is
    [req.params.lawmaticsID], a string. *)
Definition deleteMatter (param : string) (file : list Stored)
    : Response * list Stored :=
  let mapData := readMapFile file in
  let initialCount := length mapData in
  let filteredData :=
    List.filter (λ item, negb (strictEq (storedLawmaticsID item) (JString param)))
                mapData in
  if (length filteredData =? initialCount)%nat then
    (Failure 404 "Matter not found", file)
  else
    (Deleted (initialCount - length filteredData), writeMapFile filteredData).

End Server.

(** ** [lib/unified-uspto-monitor.js]: the report of latest dates *)

Module Report.

(** A row of the report, after the header. *)
Record Row := mkRow {
  rowLawmaticsID : string;
  rowApplicationNumber : string;
  rowType : string;
  rowLatestDocDate : string;
  rowLastProcessedDate : string;
  rowDescription : string;
  rowStatus : string
}.

(** The body of the [for (const matter of matters)] loop of
    [generateLatestDatesCSV], which adds one row; the processed-state
    object is the store's [lastProcessedState]. *)
Definition reportRow (E : Env) (matter : Matter) : JS Row :=
  let applicationNumber := applicationNumber matter in
  let lawmaticsID := lawmaticsID matter in
  let type := type matter in
  let* latestDoc :=
    if String.eqb type "Patent" then
      let* docs := Monitor.fetchAllPatentDocs E applicationNumber in
      ret (head docs)
    else if String.eqb type "Trademark" then
      let* docs := Monitor.fetchAllTrademarkDocs E applicationNumber in
      ret (head docs)
    else ret None in
  let* marker := gets (λ s, lastProcessedState s !! applicationNumber) in
  let lastProcessedDate := or_else marker "Never" in
  let latestDocDate :=
    match latestDoc with
    | Some doc => toISODate (date doc)
    | None => "No documents"
    end in
  let description :=
    match latestDoc with
    | Some doc => description doc
    | None => "N/A"
    end in
  let status :=
    if String.eqb lastProcessedDate latestDocDate
    then "Up to date" else "Update available" in
  ret (mkRow lawmaticsID applicationNumber type latestDocDate lastProcessedDate
             description status).

(** [generateLatestDatesCSV()] up to the rows under the header: [None]
    when there is no matter. *)
Definition reportRows (E : Env) : JS (option (list Row)) :=
  let* matters := loadMatterMap in
  loadLastProcessedState >>
  if (length matters =? 0)%nat then ret None
  else
    let* csvRows :=
      for_of (λ csvRows matter,
                let* row := reportRow E matter in
                ret (csvRows ++ [row])%list)
             [] matters in
    ret (Some csvRows).

End Report.

(** ** [api/monitor.js]: the trigger of a sweep of the monitor *)

Module MonitorApi.

(** [runJob()] of [lib/unified-uspto-monitor.js] *)
Definition runJob (E : Env) : JS Monitor.SweepResult :=
  let* result := Monitor.processAllMatters E in
  ret result.

(** What the handler answers: [res.status(200).end()], the body
    [{ success: true, data }] with status 200, or [{ success: false, error }]
    with a status code. *)
Inductive ApiResponse :=
| Ended
| Completed (data : Monitor.SweepResult)
| Refused (statusCode : nat) (error : string).

(** [handler(req, res)]: [method] is [req.method], [apiKey] the header
    [x-api-key] ([None] when the request has none) and [API_KEY] the
    variable of the environment ([None] when it is not set). *)
Definition handler (E : Env) (API_KEY : option string) (method : string)
    (apiKey : option string) : JS ApiResponse :=
  if String.eqb method "OPTIONS" then ret Ended
  else if negb (String.eqb method "POST") then
    ret (Refused 405 "Method not allowed. Use POST.")
  else if truthy API_KEY && negb (bool_decide (apiKey = API_KEY)) then
    ret (Refused 401 "Unauthorized. Invalid API key.")
  else
    try_catch
      (let* result := runJob E in
       ret (Completed result))
      (λ message, ret (Refused 500 message)).

End MonitorApi.

(** * Specification vocabulary *)

(** ** Computations that only talk to the outside world

    Most functions of the monitor neither read nor write the store: what
    they return and which calls they make is fixed by the environment.
    [outcome] and [emitted] read both off a run from the blank store, and
    [observer] states that every run agrees with it. *)

Definition blank : Store := mkStore None ∅ [] ∅ None None [].

Definition outcome {A} (m : JS A) : completion A := (m blank).1.

Definition emitted {A} (m : JS A) : list Event := trace (m blank).2.

(** Calls to the registries, the drive, the mail service for one document,
    the CRM and the browser. *)
Definition external (e : Event) : Prop :=
  match e with
  | EProcessing _ | EStatus _ _ _ | EConfirmation _ _ | ESummary _ _ _ => False
  | _ => True
  end.

Definition observer {A} (m : JS A) : Prop :=
  ∃ c events, Forall external events ∧ ∀ s, m s = (c, log events s).

(** ** The footprint of [processMatter]

    [advance app today s s']: from [s] to [s'] the processing of [app] was
    announced and external calls were made, and the processed-state object
    is either as it was or has its entry for [app] set to the date of a
    document that the novelty filter accepts against the old entry. *)
Definition advance (app today : string) (s s' : Store) : Prop :=
  ∃ events, Forall external events ∧
    (s' = log (EProcessing app :: events) s ∨
     ∃ t, isNewDocument t (lastProcessedState s !! app) today = true ∧
          s' = set_lastProcessedState (<[app := toISODate t]>)
                 (log (EProcessing app :: events) s)).

(** ** Order of a fetched sequence *)

(** Latest first: no document is dated after one that precedes it. *)
Definition descending (docs : list Document) : Prop :=
  StronglySorted (λ a b, date b ≤ date a) docs.

(** ** Reading a trace *)

(** The documents for which a new-document notification was handed to the
    mail service, in order. *)
Definition mailed (events : list Event) : list Document :=
  omap (λ e, match e with EMail _ doc => Some doc | _ => None end) events.

(** The matters whose processing was started, by application number. *)
Definition attempted (events : list Event) : list string :=
  omap (λ e, match e with EProcessing app => Some app | _ => None end) events.

(** The number of consolidated confirmation mails handed to the mail
    service. *)
Definition confirmations (events : list Event) : nat :=
  length (List.filter (λ e, match e with EConfirmation _ _ => true | _ => false end)
            events).

(** The status updates requested for a matter, with whether the registry
    file was written. *)
Definition statusUpdates (lawmaticsId : string) (events : list Event)
    : list (string * bool) :=
  omap (λ e, match e with
             | EStatus id status written =>
                 if String.eqb id lawmaticsId then Some (status, written) else None
             | _ => None
             end) events.

(** The novel documents of the latest novel date: those of [allDocs] that
    pass the novelty filter and carry the date string [latestDate]. *)
Definition latestNovel (lastProcessedDate : option string) (todayDate : string)
    (latestDate : string) (allDocs : list Document) : list Document :=
  List.filter (λ doc, isNewDocument (date doc) lastProcessedDate todayDate
                      && String.eqb (toISODate (date doc)) latestDate)
              allDocs.

(** ** Registry answers *)

(** The date element the trademark adapter reads from a [Document] carries
    attributes: [MailRoomDate], or [ScanDateTime] when [MailRoomDate] is
    missing or empty. *)
Definition attributedDate (doc : TsdrDocument) : bool :=
  match MailRoomDate doc with
  | Some XNode => true
  | Some (XText text) =>
      if String.eqb text ""
      then match ScanDateTime doc with Some XNode => true | _ => false end
      else false
  | None => match ScanDateTime doc with Some XNode => true | _ => false end
  end.

(** ** Reading the matter registry *)

(** Is there an entry of [map.json] with this CRM identifier. *)
Definition registered (lawmaticsId : string) (matters : list Matter) : bool :=
  match list_find (λ m, lawmaticsID m = lawmaticsId) matters with
  | Some _ => true
  | None => false
  end.

(** The display status of the first entry with this CRM identifier, the one
    [updateMatterStatus] writes to. *)
Definition displayStatus (lawmaticsId : string) (matters : list Matter)
    : option string :=
  list_find (λ m, lawmaticsID m = lawmaticsId) matters ≫= λ found, status found.2.

(** [map.json] after [updateMatterStatus(lawmaticsId, status)]. *)
Definition setStatus (E : Env) (lawmaticsId status : string)
    (matters : list Matter) : list Matter :=
  match list_find (λ m, lawmaticsID m = lawmaticsId) matters with
  | Some (matterIndex, _) => alter (Controller.withStatus E status) matterIndex matters
  | None => matters
  end.

(** The store at which a targeted attempt for a registered identifier calls
    [processMatter]: the identifier is in flight and saved as such,
    ["Processing..."] is written to the registry and is the one call made so
    far, and the processed state is read from its file. *)
Definition underway (E : Env) (lawmaticsId : string) (s : Store) : Store :=
  mkStore (stateFile s) (default ∅ (stateFile s))
          (setStatus E lawmaticsId "Processing..." (mapFile s))
          ({[lawmaticsId]} ∪ currentlyProcessing s)
          (Some ({[lawmaticsId]} ∪ currentlyProcessing s))
          (lastRun s)
          (trace s ++ [EStatus lawmaticsId "Processing..." true]).

(** The values the controller writes when an attempt ends. *)
Definition terminalStatuses : list string :=
  ["Automation Completed"; "No Updates Found"; "Failed"; "Failed - Not Found"].

(** Did the entry of a batch result report a processed document. *)
Definition processedFlag (entry : Controller.Entry) : bool :=
  match Controller.entryProcessed entry with Some true => true | _ => false end.

(** Is the matter out of the in-flight set of [s]. *)
Definition idle (s : Store) (m : Matter) : bool :=
  negb (bool_decide (lawmaticsID m ∈ currentlyProcessing s)).

(** The entry a batch reports for a matter that is in flight. *)
Definition rejection (m : Matter) : Controller.Entry :=
  Controller.mkEntry (lawmaticsID m) false None None "Already being processed".

(** ** Calendar order *)

(** Time values whose date [toISOString] prints with a four-digit year:
    from 0000-01-01T00:00:00.000Z up to 9999-12-31T23:59:59.999Z. *)
Definition fourDigitYear (t : Z) : Prop :=
  -62167219200000 ≤ t < 253402300800000.

(** A civil date as one number, year first: the calendar order. *)
Definition dateKey (ymd : Z * Z * Z) : Z :=
  (ymd.1.1 * 100 + ymd.1.2) * 100 + ymd.2.

(** Day number of the first day of a year of the 400-year era that starts
    on 1 March 0000. *)
Definition yearStart (yoe : Z) : Z := 365 * yoe + yoe / 4 - yoe / 100.

(** ** The side-effect pipeline of [Googlecron.processMatter] *)

(** The outcomes of the browser with which [submitFormWithPuppeteer] of
    [Googlecron.js] throws: [browser.close()] in [finally] fails. *)
Definition closeThrows (o : FormOutcome) : bool :=
  match o with
  | FormLaunchFailed | FormCloseFailed => true
  | FormSubmitted | FormStepFailed => false
  end.

(** Is the upload skipped: the document has no usable link. *)
Definition noLink (doc : Document) : bool :=
  String.eqb (link doc) "" || String.eqb (link doc) "N/A".

(** ** Reading a trace, continued *)

(** The number of summary mails of a sweep handed to the mail service. *)
Definition summaries (events : list Event) : nat :=
  length (List.filter (λ e, match e with ESummary _ _ _ => true | _ => false end)
            events).

(** ** Markers that only move forward *)

(** Every marker of [old] is still there in [new], with a value that is
    not smaller in the order of strings. *)
Definition extends (old new : gmap string string) : Prop :=
  ∀ k before, old !! k = Some before →
    ∃ after, new !! k = Some after ∧ String.leb before after = true.

(** ** Display statuses of a targeted batch *)

(** The values a batch writes for a matter it has attempted. *)
Definition batchStatuses : list string :=
  ["Automation Completed"; "No Updates Found"; "Failed"].

(** ** Keys of the matter registry *)

(** No two of the values are equal under [===]. *)
Fixpoint distinct (keys : list Json) : Prop :=
  match keys with
  | [] => True
  | key :: rest =>
      Forall (λ other, Server.strictEq key other = false) rest ∧ distinct rest
  end.

(** No two entries of [map.json] share an application number, and no two
    share a CRM identifier. *)
Definition uniqueKeys (file : list Server.Stored) : Prop :=
  distinct (Server.storedApplicationNumber <$> file) ∧
  distinct (Server.storedLawmaticsID <$> file).

(** The file is as [JSON.stringify] writes it: it holds no number beyond
    the range of doubles. *)
Definition asWritten (file : list Server.Stored) : Prop :=
  Forall (λ entry, Server.stringifyStored entry = entry) file.

(** Neither key of the request is a number beyond the range of doubles. *)
Definition finiteKeys (body : Server.MatterBody) : Prop :=
  Server.stringify (Server.bodyApplicationNumber body)
    = Server.bodyApplicationNumber body ∧
  Server.stringify (Server.bodyLawmaticsID body) = Server.bodyLawmaticsID body.

(** ** Sample worlds

    A trademark matter [12345] whose registry lists four documents: one of
    2024-02-15, two of 2024-03-01 and one whose date does not parse; and a
    patent matter [17000001] with one document of 2024-03-02. *)

Definition sampleParse (text : string) : option Z :=
  if String.eqb text "2024-03-01" then Some 1709251200000
  else if String.eqb text "2024-03-01T15:00:00" then Some 1709305200000
  else if String.eqb text "2024-03-02" then Some 1709337600000
  else if String.eqb text "2024-02-15" then Some 1707955200000
  else None.

Definition sampleTsdr (mailRoomDate text : string) : TsdrDocument :=
  mkTsdrDocument (Some (XText mailRoomDate)) None (Some text)
                 (Some "https://tsdr.example/doc.xml").

Definition sampleBundle : list TsdrDocument :=
  [ sampleTsdr "2024-02-15" "Application";
    sampleTsdr "2024-03-01-05:00" "Office Action";
    sampleTsdr "2024-03-01T15:00:00" "Notice";
    sampleTsdr "not a date" "Undated" ].

Definition sampleBag : list OdpDocument :=
  [ mkOdpDocument (JString "2024-03-02") (Some "Non-Final Rejection")
      (Some "CTNF") (Some "OUTGOING") (Some "https://odp.example/doc.pdf") ].

Definition sampleWorld (mail : bool) (form : FormOutcome) : Env :=
  mkEnv 1709290000000 sampleParse
    (λ app, if String.eqb app "12345" then Resolved (XmlParsed (Some sampleBundle))
            else Rejected "timeout of 15000ms exceeded")
    (λ app, if String.eqb app "17000001" then Resolved (BagArray sampleBag)
            else Rejected "Request failed with status code 404")
    (λ _ _, Some "https://drive.example/view")
    (λ _ _, mail) true (λ _ _, true) (λ _, true) (λ _ _, form).

(** Everything answers. *)
Definition sampleEnv : Env := sampleWorld true FormSubmitted.

(** The trademark bundle with one more document, whose [MailRoomDate]
    element carries an attribute. *)
Definition attributedBundle : list TsdrDocument :=
  sampleBundle ++
  [ mkTsdrDocument (Some XNode) None (Some "Registration Certificate")
                   (Some "https://tsdr.example/certificate.xml") ].

(** A patent bag of three items: one whose [officialDate] is [null], one
    without [officialDate] and one of 2024-03-02. *)
Definition nullDateBag : list OdpDocument :=
  [ mkOdpDocument JNull (Some "Filing Receipt") (Some "APP.FILE.REC")
      (Some "OUTGOING") (Some "https://odp.example/receipt.pdf");
    mkOdpDocument JUndefined (Some "Drawings") (Some "DRW")
      (Some "INCOMING") (Some "https://odp.example/drawings.pdf");
    mkOdpDocument (JString "2024-03-02") (Some "Non-Final Rejection")
      (Some "CTNF") (Some "OUTGOING") (Some "https://odp.example/doc.pdf") ].

(** As [sampleEnv], with these answers for the trademark application
    [12346] and the patent application [17000002]. *)
Definition oddDatesEnv : Env :=
  mkEnv (now sampleEnv) (Date_parse sampleEnv)
    (λ app, if String.eqb app "12346"
            then Resolved (XmlParsed (Some attributedBundle))
            else tsdr sampleEnv app)
    (λ app, if String.eqb app "17000002"
            then Resolved (BagArray nullDateBag)
            else odp sampleEnv app)
    (drive sampleEnv) (mailer sampleEnv) (report_mailer sampleEnv)
    (crm_put sampleEnv) (crm_get sampleEnv) (browser sampleEnv).

(** The mail service rejects every new-document notification. *)
Definition mailDownEnv : Env := sampleWorld false FormSubmitted.

(** The browser cannot be launched. *)
Definition noBrowserEnv : Env := sampleWorld true FormLaunchFailed.

Definition trademarkMatter : Matter :=
  mkMatter "12345" "L-1" "Trademark" None None.

Definition patentMatter : Matter :=
  mkMatter "17000001" "L-2" "Patent" None None.

(** Both matters registered, nothing processed yet, nothing in flight. *)
Definition sampleStore : Store :=
  mkStore None ∅ [trademarkMatter; patentMatter] ∅ None None [].

(** The trademark matter was processed up to 2024-02-15. *)
Definition seenStore : Store :=
  mkStore (Some {[ "12345" := "2024-02-15" ]}) {[ "12345" := "2024-02-15" ]}
          [trademarkMatter; patentMatter] ∅ None None [].

(** As [sampleStore], with the trademark matter in flight. *)
Definition busyStore : Store :=
  mkStore None ∅ [trademarkMatter; patentMatter] {[ "L-1" ]} None None [].

(** Both matters were processed up to their latest document. *)
Definition doneStore : Store :=
  mkStore (Some {[ "12345" := "2024-03-01"; "17000001" := "2024-03-02" ]}) ∅
          [trademarkMatter; patentMatter] ∅ None None [].

(** The three dated documents of the trademark bundle, as parsed. *)
Definition noticeDoc : Document :=
  mkDocument 1709305200000 "Notice" None None
             "https://tsdr.example/doc.xml" None None.

Definition actionDoc : Document :=
  mkDocument 1709251200000 "Office Action" None None
             "https://tsdr.example/doc.xml" None None.

Definition applicationDoc : Document :=
  mkDocument 1707955200000 "Application" None None
             "https://tsdr.example/doc.xml" None None.

(** * Properties *)

(** ** Dates, on known values *)

Example toISODate_epoch : toISODate 0 = "1970-01-01".
Proof. reflexivity. Qed.

Example toISODate_2024_03_01 : toISODate 1709251200000 = "2024-03-01".
Proof. vm_compute. reflexivity. Qed.

Example toISODate_leap_day : toISODate 1709251199999 = "2024-02-29".
Proof. vm_compute. reflexivity. Qed.

Example toISODate_before_epoch : toISODate (-1) = "1969-12-31".
Proof. vm_compute. reflexivity. Qed.

Example toISODate_latest : toISODate 8640000000000000 = "+275760-09-13".
Proof. vm_compute. reflexivity. Qed.

Example toISODate_earliest : toISODate (-8640000000000000) = "-271821-04-20".
Proof. vm_compute. reflexivity. Qed.

Example strip_offset_sample :
  strip_offset "2024-03-01-05:00" = "2024-03-01" ∧
  strip_offset "2024-03-01T15:00:00" = "2024-03-01T15:00:00".
Proof. split; reflexivity. Qed.

(** ** Facts about computations *)

Lemma log_nil s : log [] s = s.
Proof. destruct s; unfold log; simpl. by rewrite app_nil_r. Qed.

Lemma log_log a b s : log b (log a s) = log (a ++ b) s.
Proof. unfold log; simpl. by rewrite app_assoc. Qed.

Lemma observer_run {A} (m : JS A) :
  observer m → ∀ s, m s = (outcome m, log (emitted m) s).
Proof.
  intros (c & events & _ & Hrun) s.
  unfold outcome, emitted. rewrite (Hrun blank), (Hrun s). done.
Qed.

Lemma observer_external {A} (m : JS A) :
  observer m → Forall external (emitted m).
Proof.
  intros (c & events & Hext & Hrun).
  unfold emitted. rewrite (Hrun blank). done.
Qed.

Lemma observer_ret {A} (a : A) : observer (ret a).
Proof. exists (Normal a), []. split; [constructor|]. intros s. by rewrite log_nil. Qed.

Lemma observer_throw {A} e : observer (@throw A e).
Proof. exists (Throw e), []. split; [constructor|]. intros s. by rewrite log_nil. Qed.

Lemma observer_emit e : external e → observer (emit e).
Proof. intros He. exists (Normal tt), [e]. split; [by repeat constructor|]. done. Qed.

Lemma observer_bind {A B} (m : JS A) (k : A → JS B) :
  observer m → (∀ a, observer (k a)) → observer (bind m k).
Proof.
  intros (c & ev & Hext & Hm) Hk. destruct c as [a|e].
  - destruct (Hk a) as (c' & ev' & Hext' & Hka).
    exists c', (ev ++ ev'). split; [by apply Forall_app|].
    intros s. unfold bind. by rewrite Hm, Hka, log_log.
  - exists (Throw e), ev. split; [done|].
    intros s. unfold bind. by rewrite Hm.
Qed.

Lemma observer_try_catch {A} (body : JS A) (handler : string → JS A) :
  observer body → (∀ e, observer (handler e)) → observer (try_catch body handler).
Proof.
  intros (c & ev & Hext & Hm) Hh. destruct c as [a|e].
  - exists (Normal a), ev. split; [done|].
    intros s. unfold try_catch. by rewrite Hm.
  - destruct (Hh e) as (c' & ev' & Hext' & Hhe).
    exists c', (ev ++ ev'). split; [by apply Forall_app|].
    intros s. unfold try_catch. by rewrite Hm, Hhe, log_log.
Qed.

Lemma observer_try_finally {A} (body : JS A) (final : JS unit) :
  observer body → observer final → observer (try_finally body final).
Proof.
  intros (c & ev & Hext & Hm) (c' & ev' & Hext' & Hf).
  destruct c' as [[]|e].
  - exists c, (ev ++ ev'). split; [by apply Forall_app|].
    intros s. unfold try_finally. by rewrite Hm, Hf, log_log.
  - exists (Throw e), (ev ++ ev'). split; [by apply Forall_app|].
    intros s. unfold try_finally. by rewrite Hm, Hf, log_log.
Qed.

Lemma observer_map_js {A B} (f : A → JS B) xs :
  (∀ x, observer (f x)) → observer (map_js f xs).
Proof.
  intros Hf. induction xs as [|x xs IH]; simpl.
  - apply observer_ret.
  - apply observer_bind; [done|]. intros y.
    apply observer_bind; [done|]. intros ys. apply observer_ret.
Qed.

Lemma observer_for_of {A B} (body : B → A → JS B) acc xs :
  (∀ b x, observer (body b x)) → observer (for_of body acc xs).
Proof.
  intros Hb. revert acc. induction xs as [|x xs IH]; intros acc; simpl.
  - apply observer_ret.
  - apply observer_bind; [done|]. intros acc'. apply IH.
Qed.

Create HintDb observer.

#[local] Hint Resolve observer_ret observer_throw observer_bind
  observer_try_catch observer_try_finally observer_map_js observer_for_of
  : observer.
#[local] Hint Extern 1 (observer (emit _)) =>
  apply observer_emit; exact I : observer.
#[local] Hint Extern 2 (observer (if ?b then _ else _)) =>
  destruct b : observer.
#[local] Hint Extern 2 (observer (match ?x with _ => _ end)) =>
  destruct x : observer.
#[local] Hint Extern 3 (observer _) => progress intros : observer.



Lemma observer_axios_get {Body} (reply : Reply Body) : observer (axios_get reply).
Proof. destruct reply; simpl; auto with observer. Qed.

Lemma observer_parseStringPromise data : observer (parseStringPromise data).
Proof. destruct data; simpl; auto with observer. Qed.

Lemma observer_parseTsdrDocument E doc : observer (parseTsdrDocument E doc).
Proof. unfold parseTsdrDocument. eauto 10 with observer. Qed.

#[local] Hint Resolve observer_axios_get observer_parseStringPromise
  observer_parseTsdrDocument : observer.

Lemma observer_trademarkDocs E app : observer (trademarkDocs E app).
Proof. unfold trademarkDocs. eauto 12 with observer. Qed.

Lemma observer_patentDocs E app : observer (patentDocs E app).
Proof. unfold patentDocs. eauto 12 with observer. Qed.

Lemma observer_getProspect E id : observer (getProspect E id).
Proof. unfold getProspect. eauto 10 with observer. Qed.

Lemma observer_updateLawmaticsProspect E id app d :
  observer (updateLawmaticsProspect E id app d).
Proof. unfold updateLawmaticsProspect. eauto 10 with observer. Qed.

#[local] Hint Resolve observer_trademarkDocs observer_patentDocs
  observer_getProspect observer_updateLawmaticsProspect : observer.

Module MonitorFacts.
Import Monitor.

Lemma monitor_observer_fetchAllTrademarkDocs E app : observer (fetchAllTrademarkDocs E app).
Proof. unfold fetchAllTrademarkDocs. eauto 10 with observer. Qed.

Lemma monitor_observer_fetchAllPatentDocs E app : observer (fetchAllPatentDocs E app).
Proof. unfold fetchAllPatentDocs. eauto 10 with observer. Qed.

Lemma monitor_observer_downloadAndUploadToDrive E app d ty :
  observer (downloadAndUploadToDrive E app d ty).
Proof. unfold downloadAndUploadToDrive. eauto 10 with observer. Qed.

Lemma monitor_observer_submitFormWithPuppeteer E id app d :
  observer (submitFormWithPuppeteer E id app d).
Proof.
  unfold submitFormWithPuppeteer.
  destruct (browser E id d); eauto 10 with observer.
Qed.

Lemma monitor_observer_sendEmailNotification E app d :
  observer (sendEmailNotification E app d).
Proof. unfold sendEmailNotification. eauto 10 with observer. Qed.

#[local] Hint Resolve monitor_observer_fetchAllTrademarkDocs
  monitor_observer_fetchAllPatentDocs monitor_observer_downloadAndUploadToDrive
  monitor_observer_submitFormWithPuppeteer monitor_observer_sendEmailNotification : observer.

Lemma monitor_observer_processSingleDocument E m d ty :
  observer (processSingleDocument E m d ty).
Proof. unfold processSingleDocument. eauto 12 with observer. Qed.

Lemma monitor_observer_fetchByType E m : observer (fetchByType E m).
Proof. unfold fetchByType. eauto 12 with observer. Qed.

End MonitorFacts.

Module GooglecronFacts.
Import Googlecron.

Lemma googlecron_observer_fetchTrademarkDoc E app : observer (fetchTrademarkDoc E app).
Proof. unfold fetchTrademarkDoc. eauto 10 with observer. Qed.

Lemma googlecron_observer_fetchPatentDoc E app : observer (fetchPatentDoc E app).
Proof. unfold fetchPatentDoc. eauto 10 with observer. Qed.

Lemma googlecron_observer_downloadAndUploadToDrive E app d :
  observer (downloadAndUploadToDrive E app d).
Proof. unfold downloadAndUploadToDrive. eauto 10 with observer. Qed.

Lemma googlecron_observer_submitFormWithPuppeteer E id app d :
  observer (submitFormWithPuppeteer E id app d).
Proof.
  unfold submitFormWithPuppeteer.
  destruct (browser E id d); eauto 10 with observer.
Qed.

Lemma googlecron_observer_sendEmailNotification E app d :
  observer (sendEmailNotification E app d).
Proof. unfold sendEmailNotification. eauto 10 with observer. Qed.

#[local] Hint Resolve googlecron_observer_fetchTrademarkDoc googlecron_observer_fetchPatentDoc
  googlecron_observer_downloadAndUploadToDrive googlecron_observer_submitFormWithPuppeteer
  googlecron_observer_sendEmailNotification : observer.

Lemma googlecron_observer_fetchByType E m : observer (fetchByType E m).
Proof. unfold fetchByType. eauto 12 with observer. Qed.

End GooglecronFacts.

(** ** What [processMatter] does to the store *)

(** Where [newDocs] is not empty, its first document is new. *)
Lemma newDocs_head last today allDocs newest rest :
  Monitor.newDocsOf last today allDocs = newest :: rest →
  isNewDocument (date newest) last today = true.
Proof.
  unfold Monitor.newDocsOf. intros Heq.
  assert (Hin : In newest (List.filter
    (λ doc, isNewDocument (date doc) last today) allDocs))
    by (rewrite Heq; by left).
  apply filter_In in Hin. tauto.
Qed.

Lemma bind_run {A B} (m : JS A) (k : A → JS B) s :
  bind m k s = match m s with
               | (Normal a, s') => k a s'
               | (Throw e, s') => (Throw e, s')
               end.
Proof. reflexivity. Qed.

Lemma Monitor_processMatter_effect E m today s :
  advance (applicationNumber m) today s (Monitor.processMatter E m today s).2.
Proof.
  unfold Monitor.processMatter.
  rewrite bind_run. simpl.
  rewrite bind_run, (observer_run _ (MonitorFacts.monitor_observer_fetchByType E m)).
  pose proof (observer_external _ (MonitorFacts.monitor_observer_fetchByType E m)) as Hext.
  set (fetchEvents := emitted (Monitor.fetchByType E m)) in *.
  rewrite log_log.
  destruct (outcome (Monitor.fetchByType E m)) as [[allDocs|]|e]; simpl;
    try (eexists; split; [exact Hext|by left]).
  destruct (length allDocs =? 0)%nat; simpl;
    try (eexists; split; [exact Hext|by left]).
  rewrite bind_run. unfold gets. simpl.
  destruct (Monitor.newDocsOf _ today allDocs) as [|newest rest] eqn:Hnew; simpl;
    try (eexists; split; [exact Hext|by left]).
  apply newDocs_head in Hnew.
  rewrite bind_run.
  match goal with |- context [for_of ?body ?acc ?xs] =>
    assert (Hloop : observer (for_of body acc xs))
      by (apply observer_for_of; intros;
          eauto using MonitorFacts.monitor_observer_processSingleDocument with observer);
    rewrite (observer_run _ Hloop);
    pose proof (observer_external _ Hloop) as Hext2;
    destruct (outcome (for_of body acc xs)); simpl
  end.
  - rewrite log_log. eexists. split; last first.
    { right. exists (date newest). split; [exact Hnew|reflexivity]. }
    apply Forall_app; split; [exact Hext|exact Hext2].
  - rewrite log_log. eexists. split; last first.
    { left. reflexivity. }
    apply Forall_app; split; [exact Hext|exact Hext2].
Qed.

Ltac run_observer H :=
  rewrite bind_run, (observer_run _ H), ?log_log;
  pose proof (observer_external _ H);
  destruct (outcome _); simpl.

Ltac solve_external :=
  repeat first
    [ assumption
    | apply Forall_nil
    | apply List.Forall_cons; [exact I|]
    | apply Forall_app_2 ].

Ltac unchanged := eexists; split; [|left; reflexivity]; solve_external.

Lemma Googlecron_processMatter_effect E m today s :
  advance (applicationNumber m) today s (Googlecron.processMatter E m today s).2.
Proof.
  unfold Googlecron.processMatter.
  rewrite bind_run. simpl.
  run_observer (GooglecronFacts.googlecron_observer_fetchByType E m); [|unchanged].
  destruct value as [[latestDoc|]|]; [|unchanged..].
  rewrite bind_run. unfold gets. simpl.
  destruct (isNewDocument _ _ today) eqn:Hnew; simpl; [|unchanged].
  run_observer (GooglecronFacts.googlecron_observer_downloadAndUploadToDrive
                  E (applicationNumber m) latestDoc); [|unchanged].
  run_observer (GooglecronFacts.googlecron_observer_sendEmailNotification
                  E (applicationNumber m) value); [|unchanged].
  run_observer (observer_updateLawmaticsProspect
                  E (lawmaticsID m) (applicationNumber m) value); [|unchanged].
  run_observer (observer_getProspect E (lawmaticsID m)); [|unchanged].
  destruct value2.
  - run_observer (GooglecronFacts.googlecron_observer_submitFormWithPuppeteer
                    E (lawmaticsID m) (applicationNumber m) value); [|unchanged].
    eexists. split; last first.
    { right. exists (date latestDoc). split; [exact Hnew|reflexivity]. }
    solve_external.
  - rewrite bind_run. simpl. eexists. split; last first.
    { right. exists (date latestDoc). split; [exact Hnew|reflexivity]. }
    solve_external.
Qed.

(** ** Consequences of [advance] *)

Lemma compare_refl (a : string) : String.compare a a = Eq.
Proof.
  induction a as [|c a IH]; simpl; [done|].
  unfold Ascii.compare. by rewrite N.compare_refl.
Qed.

Lemma leb_refl (a : string) : String.leb a a = true.
Proof. unfold String.leb. by rewrite compare_refl. Qed.

Lemma leb_empty (a : string) : String.leb "" a = true.
Proof. by destruct a. Qed.

Lemma ltb_leb (a b : string) : String.ltb a b = true → String.leb a b = true.
Proof. unfold String.ltb, String.leb. by destruct (String.compare a b). Qed.

(** A document that passes the filter is dated no earlier than the marker. *)
Lemma isNewDocument_not_earlier t old today :
  isNewDocument t (Some old) today = true →
  String.leb old (toISODate t) = true.
Proof.
  unfold isNewDocument, truthy. simpl.
  destruct (String.eqb_spec old "") as [->|_]; simpl; intros Hnew.
  - apply leb_empty.
  - by apply ltb_leb.
Qed.

Lemma advance_other app today s s' k :
  advance app today s s' → k ≠ app →
  lastProcessedState s' !! k = lastProcessedState s !! k.
Proof.
  intros (events & _ & [->|(t & _ & ->)]) Hk; simpl; [done|].
  by rewrite lookup_insert_ne.
Qed.

Lemma advance_monotone app today s s' old :
  advance app today s s' → lastProcessedState s !! app = Some old →
  ∃ new, lastProcessedState s' !! app = Some new ∧ String.leb old new = true.
Proof.
  intros (events & _ & [->|(t & Hnew & ->)]) Hold; simpl.
  - exists old. split; [done|apply leb_refl].
  - exists (toISODate t). rewrite lookup_insert_eq. split; [done|].
    rewrite Hold in Hnew. by apply isNewDocument_not_earlier in Hnew.
Qed.

Lemma advance_fields app today s s' :
  advance app today s s' →
  stateFile s' = stateFile s ∧ mapFile s' = mapFile s ∧
  currentlyProcessing s' = currentlyProcessing s ∧
  statusFile s' = statusFile s ∧ lastRun s' = lastRun s ∧
  ∃ events, trace s' = trace s ++ EProcessing app :: events ∧
            Forall external events.
Proof.
  intros (events & Hext & [->|(t & _ & ->)]); simpl; eauto 10.
Qed.

(** ** The novelty filter *)

(** C1. With a marker present (a non-empty string), [isNewDocument] answers
    true exactly when the document's date string is strictly greater than
    the marker in the lexicographic order; with no marker, exactly when the
    date string is not less than today's. *)
Theorem isNewDocument_spec (docDate : Z) (lastProcessedDate : option string)
    (todayDate : string) :
  match lastProcessedDate with
  | Some marker =>
      marker ≠ "" →
      isNewDocument docDate lastProcessedDate todayDate = true ↔
      String.compare (toISODate docDate) marker = Gt
  | None =>
      isNewDocument docDate lastProcessedDate todayDate = true ↔
      String.compare (toISODate docDate) todayDate ≠ Lt
  end.
Proof.
  unfold isNewDocument, truthy, str_gt, str_ge, String.ltb, String.leb.
  destruct lastProcessedDate as [marker|]; simpl.
  - intros Hne. destruct (String.eqb_spec marker "") as [->|_]; [done|]. simpl.
    rewrite (String.compare_antisym (toISODate docDate) marker).
    destruct (String.compare marker (toISODate docDate)); simpl; split; done.
  - rewrite (String.compare_antisym (toISODate docDate) todayDate).
    destruct (String.compare todayDate (toISODate docDate)); simpl; split; done.
Qed.

Lemma isNewDocument_spec_witness :
  isNewDocument 1709251200000 (Some "2024-02-15") "2024-03-05" = true ↔
  String.compare (toISODate 1709251200000) "2024-02-15" = Gt.
Proof.
  apply (isNewDocument_spec 1709251200000 (Some "2024-02-15") "2024-03-05").
  done.
Defined.

(** The empty string is no marker: JavaScript takes it for false and the
    comparison falls back on today's date. *)
Lemma isNewDocument_empty_marker docDate todayDate :
  isNewDocument docDate (Some "") todayDate = isNewDocument docDate None todayDate.
Proof. reflexivity. Qed.

(** C10. Two calls with the same document date and the same present
    (non-empty) marker give the same answer whatever the two values of
    today's date. *)
Theorem isNewDocument_today_irrelevant (docDate : Z) (marker : string)
    (today1 today2 : string) :
  marker ≠ "" →
  isNewDocument docDate (Some marker) today1 =
  isNewDocument docDate (Some marker) today2.
Proof.
  intros Hne. unfold isNewDocument, truthy.
  by destruct (String.eqb_spec marker "").
Qed.

Lemma isNewDocument_today_irrelevant_witness :
  isNewDocument 1709251200000 (Some "2024-02-15") "2024-03-01" =
  isNewDocument 1709251200000 (Some "2024-02-15") "2031-01-01".
Proof.
  apply (isNewDocument_today_irrelevant 1709251200000 "2024-02-15"
           "2024-03-01" "2031-01-01").
  done.
Defined.

(** Without a marker today's date does decide. *)
Example isNewDocument_today_decides :
  isNewDocument 1709251200000 None "2024-03-01" = true ∧
  isNewDocument 1709251200000 None "2031-01-01" = false.
Proof. split; vm_compute; reflexivity. Qed.

(** ** Processed state across one call of [processMatter] *)

(** C3. Whatever the environment, the store and today's date, a call of
    [processMatter] (either implementation) leaves the matter's entry of the
    processed-state mapping present and not earlier, as a date string, than
    it was before the call. *)
Theorem processMatter_monotone (E : Env) (matter : Matter) (todayDate : string)
    (s : Store) (old : string) :
  lastProcessedState s !! applicationNumber matter = Some old →
  (∃ new,
     lastProcessedState (Monitor.processMatter E matter todayDate s).2
       !! applicationNumber matter = Some new ∧
     String.leb old new = true) ∧
  (∃ new,
     lastProcessedState (Googlecron.processMatter E matter todayDate s).2
       !! applicationNumber matter = Some new ∧
     String.leb old new = true).
Proof.
  intros Hold. split.
  - eapply advance_monotone; [apply Monitor_processMatter_effect|done].
  - eapply advance_monotone; [apply Googlecron_processMatter_effect|done].
Qed.

Lemma processMatter_monotone_witness :
  (∃ new,
     lastProcessedState
       (Monitor.processMatter sampleEnv trademarkMatter "2024-03-01" seenStore).2
       !! "12345" = Some new ∧
     String.leb "2024-02-15" new = true) ∧
  (∃ new,
     lastProcessedState
       (Googlecron.processMatter sampleEnv trademarkMatter "2024-03-01" seenStore).2
       !! "12345" = Some new ∧
     String.leb "2024-02-15" new = true).
Proof.
  apply (processMatter_monotone sampleEnv trademarkMatter "2024-03-01"
           seenStore "2024-02-15").
  vm_compute. reflexivity.
Defined.

(** C9. A call of [processMatter] (either implementation) leaves every key
    of the processed-state mapping other than the matter's application
    number with the value it had. *)
Theorem processMatter_frame (E : Env) (matter : Matter) (todayDate : string)
    (s : Store) (key : string) :
  key ≠ applicationNumber matter →
  lastProcessedState (Monitor.processMatter E matter todayDate s).2 !! key
    = lastProcessedState s !! key ∧
  lastProcessedState (Googlecron.processMatter E matter todayDate s).2 !! key
    = lastProcessedState s !! key.
Proof.
  intros Hkey. split.
  - eapply advance_other; [apply Monitor_processMatter_effect|done].
  - eapply advance_other; [apply Googlecron_processMatter_effect|done].
Qed.

Lemma processMatter_frame_witness :
  lastProcessedState
    (Monitor.processMatter sampleEnv patentMatter "2024-03-01" seenStore).2
    !! "12345" = lastProcessedState seenStore !! "12345" ∧
  lastProcessedState
    (Googlecron.processMatter sampleEnv patentMatter "2024-03-01" seenStore).2
    !! "12345" = lastProcessedState seenStore !! "12345".
Proof.
  apply (processMatter_frame sampleEnv patentMatter "2024-03-01" seenStore "12345").
  vm_compute. discriminate.
Defined.

(** ** Source adapters *)

Lemma insert_desc_perm d docs : insert_desc d docs ≡ₚ d :: docs.
Proof.
  induction docs as [|x docs IH]; simpl; [done|].
  destruct (date x <=? date d); [done|].
  rewrite IH. apply Permutation_swap.
Qed.

Lemma sort_desc_perm docs : sort_desc docs ≡ₚ docs.
Proof.
  induction docs as [|d docs IH]; simpl; [done|].
  rewrite insert_desc_perm. by rewrite IH.
Qed.

Lemma insert_desc_descending d docs :
  descending docs → descending (insert_desc d docs).
Proof.
  unfold descending. induction 1 as [|x docs Hsorted IH Hx]; simpl.
  - repeat constructor.
  - destruct (Z.leb_spec (date x) (date d)) as [Hle|Hgt].
    + constructor; [by constructor|].
      constructor; [done|].
      eapply Forall_impl; [exact Hx|]. simpl. intros y Hy. lia.
    + constructor; [done|].
      rewrite insert_desc_perm. constructor; [lia|done].
Qed.

Lemma sort_desc_descending docs : descending (sort_desc docs).
Proof.
  induction docs as [|d docs IH]; simpl.
  - constructor.
  - by apply insert_desc_descending.
Qed.

(** Equal dates keep the order in which the registry listed them. *)
Example sort_desc_stable :
  description <$> sort_desc
    [ mkDocument 5 "first" None None "N/A" None None;
      mkDocument 9 "latest" None None "N/A" None None;
      mkDocument 5 "second" None None "N/A" None None ]
  = ["latest"; "first"; "second"].
Proof. reflexivity. Qed.

(** A patent item is dropped exactly when [new Date] makes an invalid date
    of its [officialDate]. *)
Lemma parseOdpDocument_undated E doc :
  parseOdpDocument E doc = None ↔ new_Date E (officialDate doc) = None.
Proof.
  unfold parseOdpDocument.
  destruct (new_Date E (officialDate doc)); split; done.
Qed.

Lemma parseOdpDocument_date E doc d :
  parseOdpDocument E doc = Some d →
  new_Date E (officialDate doc) = Some (date d).
Proof.
  unfold parseOdpDocument.
  destruct (new_Date E (officialDate doc)); [|done].
  by intros [= <-].
Qed.

Lemma fetchAllTrademarkDocs_run E applicationNumber s :
  ∃ docs,
    Monitor.fetchAllTrademarkDocs E applicationNumber s
      = (Normal docs, log [EFetch "Trademark" applicationNumber] s) ∧
    descending docs ∧
    match tsdr E applicationNumber with
    | Rejected _ => docs = []
    | Resolved (XmlMalformed _) => docs = []
    | Resolved (XmlParsed None) => docs = []
    | Resolved (XmlParsed (Some listed)) =>
        match outcome (map_js (parseTsdrDocument E) listed) with
        | Normal parsed => docs ≡ₚ omap id parsed
        | Throw _ => docs = []
        end
    end.
Proof.
  unfold Monitor.fetchAllTrademarkDocs, try_catch, trademarkDocs.
  rewrite bind_run. simpl. rewrite bind_run.
  destruct (tsdr E applicationNumber) as [msg|[msg|[listed|]]]; simpl;
    try (exists []; repeat split; constructor).
  rewrite bind_run. simpl.
  destruct listed as [|doc listed]; simpl.
  { exists []. repeat split; constructor. }
  set (all := doc :: listed).
  change (let* y := parseTsdrDocument E doc in
          let* ys := map_js (parseTsdrDocument E) listed in ret (y :: ys))
    with (map_js (parseTsdrDocument E) all).
  assert (Hobs : observer (map_js (parseTsdrDocument E) all))
    by auto with observer.
  assert (Hnone : emitted (map_js (parseTsdrDocument E) all) = []).
  { clearbody all. unfold emitted.
    assert (∀ xs s0, (map_js (parseTsdrDocument E) xs s0).2 = s0) as Hid.
    { induction xs as [|x xs IH]; intros s0; simpl; [done|].
      rewrite bind_run.
      assert ((parseTsdrDocument E x s0).2 = s0) as Hx.
      { unfold parseTsdrDocument.
        repeat (match goal with
                | |- context [match ?v with _ => _ end] => destruct v
                end; simpl; try done). }
      destruct (parseTsdrDocument E x s0) as [[y|e] s1]; simpl in *; subst; [|done].
      rewrite bind_run. specialize (IH s0).
      destruct (map_js (parseTsdrDocument E) xs s0) as [[ys|e] s1];
        simpl in *; by subst. }
    by rewrite Hid. }
  rewrite bind_run, (observer_run _ Hobs), Hnone, log_nil.
  destruct (outcome (map_js (parseTsdrDocument E) all)) as [parsed|e]; simpl.
  - exists (sort_desc (omap id parsed)).
    repeat split; [apply sort_desc_descending|apply sort_desc_perm].
  - exists []. repeat split; constructor.
Qed.

Lemma fetchAllPatentDocs_run E applicationNumber s :
  ∃ docs,
    Monitor.fetchAllPatentDocs E applicationNumber s
      = (Normal docs, log [EFetch "Patent" applicationNumber] s) ∧
    descending docs ∧
    match odp E applicationNumber with
    | Rejected _ => docs = []
    | Resolved BagMissing => docs = []
    | Resolved BagNotArray => docs = []
    | Resolved (BagArray listed) => docs ≡ₚ omap (parseOdpDocument E) listed
    end.
Proof.
  unfold Monitor.fetchAllPatentDocs, try_catch, patentDocs.
  rewrite bind_run. simpl. rewrite bind_run.
  destruct (odp E applicationNumber) as [msg|[|listed|]]; simpl;
    try (exists []; repeat split; constructor).
  destruct listed as [|doc listed]; simpl.
  { exists []. repeat split; constructor. }
  exists (sort_desc (omap (parseOdpDocument E) (doc :: listed))).
  repeat split; [apply sort_desc_descending|apply sort_desc_perm].
Qed.

(** What does hold of the two adapters of the monitor.  They end normally
    whatever the registry answers, having made the one request.  What they
    return is ordered latest first; it is empty when the request is
    rejected (timeout, network error, status outside 2xx), when the body
    cannot be used or lists nothing, and when the callback of [map] throws;
    and otherwise it holds, up to order, the documents of which [new Date]
    makes a valid date. *)
Lemma fetch_contract (E : Env) (applicationNumber : string) (s : Store) :
  (∃ docs,
     Monitor.fetchAllTrademarkDocs E applicationNumber s
       = (Normal docs, log [EFetch "Trademark" applicationNumber] s) ∧
     descending docs ∧
     match tsdr E applicationNumber with
     | Rejected _ => docs = []
     | Resolved (XmlMalformed _) => docs = []
     | Resolved (XmlParsed None) => docs = []
     | Resolved (XmlParsed (Some listed)) =>
         match outcome (map_js (parseTsdrDocument E) listed) with
         | Normal parsed => docs ≡ₚ omap id parsed
         | Throw _ => docs = []
         end
     end) ∧
  (∃ docs,
     Monitor.fetchAllPatentDocs E applicationNumber s
       = (Normal docs, log [EFetch "Patent" applicationNumber] s) ∧
     descending docs ∧
     match odp E applicationNumber with
     | Rejected _ => docs = []
     | Resolved BagMissing => docs = []
     | Resolved BagNotArray => docs = []
     | Resolved (BagArray listed) => docs ≡ₚ omap (parseOdpDocument E) listed
     end).
Proof.
  split.
  - apply fetchAllTrademarkDocs_run.
  - apply fetchAllPatentDocs_run.
Qed.

(** In the sample world the undated document is dropped, the offset is cut
    off before parsing and the latest document comes first. *)
Example fetch_sample :
  outcome (Monitor.fetchAllTrademarkDocs sampleEnv "12345")
    = Normal [noticeDoc; actionDoc; applicationDoc] ∧
  outcome (Monitor.fetchAllTrademarkDocs sampleEnv "99999") = Normal [] ∧
  outcome (Monitor.fetchAllPatentDocs sampleEnv "99999") = Normal [].
Proof. vm_compute. repeat split; reflexivity. Qed.

(** [docs.map] throws as soon as one callback throws. *)
Lemma map_js_throws E (listed : list TsdrDocument) (element : TsdrDocument) :
  element ∈ listed →
  attributedDate element = true →
  ∃ message, outcome (map_js (parseTsdrDocument E) listed) = Throw message.
Proof.
  intros Hin Hattr.
  assert (Hpure : ∀ doc s,
            (∃ parsed, parseTsdrDocument E doc s = (Normal parsed, s))
            ∨ ∃ message, parseTsdrDocument E doc s = (Throw message, s)).
  { intros doc s. unfold parseTsdrDocument.
    destruct (xml_truthy (MailRoomDate doc)).
    - destruct (MailRoomDate doc) as [[text|]|]; [left|right|right]; by eexists.
    - destruct (xml_truthy (ScanDateTime doc)).
      + destruct (ScanDateTime doc) as [[text|]|]; [left|right|right]; by eexists.
      + left. by eexists. }
  assert (Hthrows : ∀ s, ∃ message,
            parseTsdrDocument E element s = (Throw message, s)).
  { intros s. unfold parseTsdrDocument, attributedDate in *.
    destruct (MailRoomDate element) as [[text|]|]; cbn [xml_truthy] in *.
    - destruct (String.eqb text ""); [|done]. cbn [negb].
      destruct (ScanDateTime element) as [[text'|]|]; try done. by eexists.
    - by eexists.
    - destruct (ScanDateTime element) as [[text'|]|]; try done. by eexists. }
  unfold outcome. generalize blank. clear Hattr.
  induction listed as [|doc listed IH]; intros s;
    [by apply elem_of_nil in Hin|].
  cbn [map_js]. rewrite bind_run.
  apply elem_of_cons in Hin as [<-|Hin].
  - destruct (Hthrows s) as [message ->]. by exists message.
  - destruct (Hpure doc s) as [[parsed ->]|[message ->]]; [|by exists message].
    rewrite bind_run. destruct (IH Hin s) as [message Hrest].
    destruct (map_js (parseTsdrDocument E) listed s) as [[ys|e] s1];
      cbn [fst] in Hrest; [done|]. by exists e.
Qed.

(** C6. The adapters of the monitor depart from the contract in two cases,
    whatever else the registry lists and whatever the store.

    - A patent item whose [officialDate] is [null] has no date to parse,
      yet it is not discarded: [new Date(null)] is the valid date of the
      epoch, and the item is returned as a document of 1970-01-01 with the
      description and the link of the item.
    - When the date element of one trademark document carries attributes,
      [xml2js] hands over an object, [rawDate.replace] throws inside [map]
      and the adapter returns the empty list: the documents of the bundle
      whose date parses are lost with it, though the registry has them and
      the call did not fail. *)
Theorem fetch_date_slips (E : Env) (applicationNumber : string) (s : Store) :
  (∀ listed item,
     odp E applicationNumber = Resolved (BagArray listed) →
     item ∈ listed →
     officialDate item = JNull →
     ∃ docs doc,
       Monitor.fetchAllPatentDocs E applicationNumber s
         = (Normal docs, log [EFetch "Patent" applicationNumber] s) ∧
       doc ∈ docs ∧
       toISODate (date doc) = "1970-01-01" ∧
       description doc = or_else (documentCodeDescriptionText item) "Unknown" ∧
       link doc = or_else (downloadUrl item) "N/A") ∧
  (∀ listed element,
     tsdr E applicationNumber = Resolved (XmlParsed (Some listed)) →
     element ∈ listed →
     attributedDate element = true →
     Monitor.fetchAllTrademarkDocs E applicationNumber s
       = (Normal [], log [EFetch "Trademark" applicationNumber] s)).
Proof.
  split.
  - intros listed item Hodp Hin Hnull.
    destruct (fetchAllPatentDocs_run E applicationNumber s)
      as (docs & Hrun & _ & Hdocs).
    rewrite Hodp in Hdocs.
    exists docs,
      (mkDocument 0 (or_else (documentCodeDescriptionText item) "Unknown")
         (Some (or_else (odpDocumentCode item) "N/A"))
         (Some (or_else (directionCategory item) "N/A"))
         (or_else (downloadUrl item) "N/A") None None).
    split; [done|]. split; [|done].
    rewrite Hdocs. apply list_elem_of_omap. exists item. split; [done|].
    unfold parseOdpDocument. by rewrite Hnull.
  - intros listed element Htsdr Hin Hattr.
    destruct (fetchAllTrademarkDocs_run E applicationNumber s)
      as (docs & Hrun & _ & Hdocs).
    rewrite Htsdr in Hdocs.
    destruct (map_js_throws E listed element Hin Hattr) as [message Hthrow].
    rewrite Hthrow in Hdocs. by subst docs.
Qed.

(** The two cases in the sample world: the patent registry lists an item
    dated [null] next to one of 2024-03-02, and the trademark registry the
    three dated documents of the sample bundle and one with an attributed
    date. *)
Lemma fetch_date_slips_witness :
  (∃ docs doc,
     Monitor.fetchAllPatentDocs oddDatesEnv "17000002" sampleStore
       = (Normal docs, log [EFetch "Patent" "17000002"] sampleStore) ∧
     doc ∈ docs ∧
     toISODate (date doc) = "1970-01-01" ∧
     description doc = "Filing Receipt" ∧
     link doc = "https://odp.example/receipt.pdf") ∧
  Monitor.fetchAllTrademarkDocs oddDatesEnv "12346" sampleStore
    = (Normal [], log [EFetch "Trademark" "12346"] sampleStore).
Proof.
  split.
  - apply (proj1 (fetch_date_slips oddDatesEnv "17000002" sampleStore)
             nullDateBag
             (mkOdpDocument JNull (Some "Filing Receipt") (Some "APP.FILE.REC")
                (Some "OUTGOING") (Some "https://odp.example/receipt.pdf"))).
    + reflexivity.
    + apply list_elem_of_here.
    + reflexivity.
  - apply (proj2 (fetch_date_slips oddDatesEnv "12346" sampleStore)
             attributedBundle
             (mkTsdrDocument (Some XNode) None (Some "Registration Certificate")
                (Some "https://tsdr.example/certificate.xml"))).
    + reflexivity.
    + unfold attributedBundle, sampleBundle. cbn [List.app].
      do 4 apply list_elem_of_further. apply list_elem_of_here.
    + reflexivity.
Defined.

(** What the adapters return there, and what they return for the same
    bundle without the attributed element: the item without [officialDate]
    is dropped and the one dated [null] is kept, last in the order; the
    attributed element takes the three dated documents with it. *)
Example fetch_date_slips_sample :
  match outcome (Monitor.fetchAllPatentDocs oddDatesEnv "17000002") with
  | Normal docs => (λ d, (toISODate (date d), description d)) <$> docs
  | Throw _ => []
  end = [("2024-03-02", "Non-Final Rejection"); ("1970-01-01", "Filing Receipt")] ∧
  outcome (Monitor.fetchAllTrademarkDocs oddDatesEnv "12346") = Normal [] ∧
  outcome (Monitor.fetchAllTrademarkDocs oddDatesEnv "12345")
    = Normal [noticeDoc; actionDoc; applicationDoc].
Proof. vm_compute. repeat split; reflexivity. Qed.

(** ** The batch of the latest date *)

Lemma filter_filter {A} (f g : A → bool) (l : list A) :
  List.filter g (List.filter f l) = List.filter (λ x, f x && g x) l.
Proof.
  induction l as [|x l IH]; simpl; [done|].
  destruct (f x); simpl; [|done].
  destruct (g x); by rewrite IH.
Qed.

Lemma latestDateDocs_latestNovel last today latestDate allDocs :
  Monitor.latestDateDocsOf latestDate (Monitor.newDocsOf last today allDocs)
  = latestNovel last today latestDate allDocs.
Proof. apply filter_filter. Qed.

Lemma mailed_app a b : mailed (a ++ b) = mailed a ++ mailed b.
Proof. unfold mailed. apply omap_app. Qed.

(** What the monitor's adapters return is ordered latest first. *)
Lemma fetchByType_descending E m allDocs :
  outcome (Monitor.fetchByType E m) = Normal (Some allDocs) → descending allDocs.
Proof.
  unfold outcome, Monitor.fetchByType.
  destruct (fetchAllTrademarkDocs_run E (applicationNumber m) blank)
    as (tm & Htm & Hdesc1 & _).
  destruct (fetchAllPatentDocs_run E (applicationNumber m) blank)
    as (pt & Hpt & Hdesc2 & _).
  destruct (String.eqb (type m) "Patent").
  - rewrite bind_run, Hpt. simpl. by intros [= <-].
  - destruct (String.eqb (type m) "Trademark"); [|done].
    rewrite bind_run, Htm. simpl. by intros [= <-].
Qed.

Lemma descending_head newest rest :
  descending (newest :: rest) → Forall (λ d, date d ≤ date newest) (newest :: rest).
Proof.
  unfold descending. intros Hs. apply StronglySorted_inv in Hs as [_ Hall].
  constructor; [lia|done].
Qed.

Lemma descending_filter f docs : descending docs → descending (List.filter f docs).
Proof.
  unfold descending. induction 1 as [|x docs Hs IH Hx]; simpl; [constructor|].
  destruct (f x); [|done].
  constructor; [done|].
  apply List.Forall_forall. intros y Hy. apply filter_In in Hy as [Hy _].
  rewrite List.Forall_forall in Hx. by apply Hx.
Qed.

(** The pipeline hands exactly one notification to the mail service, for
    the document it was given (with the drive link when the upload went
    through). *)
Lemma processSingleDocument_mailed E m d ty :
  ∃ d', mailed (emitted (Monitor.processSingleDocument E m d ty)) = [d'] ∧
        date d' = date d ∧ description d' = description d ∧ link d' = link d.
Proof.
  unfold emitted, Monitor.processSingleDocument, Monitor.downloadAndUploadToDrive,
    Monitor.sendEmailNotification, updateLawmaticsProspect, getProspect,
    Monitor.submitFormWithPuppeteer, try_catch, try_finally.
  repeat rewrite bind_run; simpl.
  destruct (String.eqb (link d) "" || String.eqb (link d) "N/A"); simpl.
  - destruct (mailer E (applicationNumber m) d); simpl; [|by eauto].
    destruct (crm_put E (applicationNumber m) d); simpl;
      (destruct (crm_get E (lawmaticsID m)); simpl; [|by eauto]);
      destruct (browser E (lawmaticsID m) d); simpl; by eauto.
  - destruct (drive E (applicationNumber m) d) as [webViewLink|]; simpl.
    + set (d' := mkDocument _ _ _ _ _ _ _).
      destruct (mailer E (applicationNumber m) d'); simpl; [|by eauto].
      destruct (crm_put E (applicationNumber m) d'); simpl;
        (destruct (crm_get E (lawmaticsID m)); simpl; [|by eauto]);
        destruct (browser E (lawmaticsID m) d'); simpl; by eauto.
    + destruct (mailer E (applicationNumber m) d); simpl; [|by eauto].
      destruct (crm_put E (applicationNumber m) d); simpl;
        (destruct (crm_get E (lawmaticsID m)); simpl; [|by eauto]);
        destruct (browser E (lawmaticsID m) d); simpl; by eauto.
Qed.

(** The loop over [latestDateDocs] when no pipeline throws. *)
Lemma for_of_pipeline E m ty docs n s :
  Forall (λ d, outcome (Monitor.processSingleDocument E m d ty) = Normal tt) docs →
  for_of (λ totalProcessed document,
            Monitor.processSingleDocument E m document ty >>
            ret (S totalProcessed)) n docs s
  = (Normal (n + length docs)%nat,
     log (concat ((λ d, emitted (Monitor.processSingleDocument E m d ty)) <$> docs)) s).
Proof.
  intros Hok. revert n s. induction Hok as [|d docs Hd _ IH]; intros n s; simpl.
  - by rewrite log_nil, Nat.add_0_r.
  - rewrite bind_run, bind_run.
    rewrite (observer_run _ (MonitorFacts.monitor_observer_processSingleDocument E m d ty)), Hd.
    simpl. rewrite IH, log_log. do 2 f_equal. lia.
Qed.

Lemma fetchByType_mailed E m : mailed (emitted (Monitor.fetchByType E m)) = [].
Proof.
  unfold emitted, Monitor.fetchByType.
  destruct (fetchAllTrademarkDocs_run E (applicationNumber m) blank)
    as (tm & Htm & _).
  destruct (fetchAllPatentDocs_run E (applicationNumber m) blank)
    as (pt & Hpt & _).
  destruct (String.eqb (type m) "Patent").
  - by rewrite bind_run, Hpt.
  - destruct (String.eqb (type m) "Trademark"); [|done].
    by rewrite bind_run, Htm.
Qed.

Lemma mailed_batch E m ty docs :
  date <$> mailed (concat ((λ d, emitted (Monitor.processSingleDocument E m d ty)) <$> docs))
  = date <$> docs.
Proof.
  induction docs as [|d docs IH]; [done|].
  rewrite fmap_cons, concat_cons, mailed_app, fmap_app, IH.
  destruct (processSingleDocument_mailed E m d ty) as (d' & Hmail & Hdate & _).
  rewrite Hmail. simpl. by rewrite Hdate.
Qed.

(** The batch of the latest date in [Monitor.processMatter].  Let [allDocs]
    be what the monitor's adapter returns for the matter, let the novelty
    filter keep at least one of them, [newest] being the first kept, and let
    no side-effect pipeline of a document of that date throw.  Then no kept document is dated after
    [newest]; [processMatter] ends normally; the calls it makes are the
    request to the registry followed by the whole pipeline of every novel
    document that carries the date string of [newest], one after the other
    in the order fetched, with one notification for each; and the only
    change to the processed-state mapping is that the matter's entry now
    holds that date string, written after the last pipeline. *)
Lemma latest_date_batch (E : Env) (matter : Matter) (todayDate : string)
    (s : Store) (allDocs : list Document) (newest : Document)
    (rest : list Document) :
  let app := applicationNumber matter in
  let last := lastProcessedState s !! app in
  let latestDate := toISODate (date newest) in
  let batch := latestNovel last todayDate latestDate allDocs in
  let pipeline := λ d, Monitor.processSingleDocument E matter d (type matter) in
  outcome (Monitor.fetchByType E matter) = Normal (Some allDocs) →
  Monitor.newDocsOf last todayDate allDocs = newest :: rest →
  Forall (λ d, outcome (pipeline d) = Normal tt) batch →
  Forall (λ d, date d ≤ date newest) (Monitor.newDocsOf last todayDate allDocs) ∧
  ∃ result events,
    Monitor.processMatter E matter todayDate s
      = (Normal result,
         set_lastProcessedState (<[app := latestDate]>) (log events s)) ∧
    events = EProcessing app :: emitted (Monitor.fetchByType E matter)
               ++ concat ((λ d, emitted (pipeline d)) <$> batch) ∧
    date <$> mailed events = date <$> batch ∧
    Monitor.docCount result = length batch ∧
    Monitor.processed result = true ∧
    Monitor.latestDocDate result = Some latestDate.
Proof.
  intros app last latestDate batch pipeline Hfetch Hnew Hok.
  split.
  { rewrite Hnew. apply descending_head. rewrite <- Hnew.
    apply descending_filter. by eapply fetchByType_descending. }
  assert (Hbatch : ∃ more, batch = newest :: more).
  { unfold batch. rewrite <- latestDateDocs_latestNovel, Hnew.
    unfold Monitor.latestDateDocsOf. simpl.
    rewrite String.eqb_refl. eauto. }
  destruct Hbatch as [more Hmore].
  unfold Monitor.processMatter.
  rewrite bind_run. simpl.
  rewrite bind_run, (observer_run _ (MonitorFacts.monitor_observer_fetchByType E matter)).
  rewrite Hfetch, log_log.
  assert (Hlen : (length allDocs =? 0)%nat = false)
    by (clear -Hnew; by destruct allDocs).
  rewrite Hlen.
  rewrite bind_run. unfold gets. cbn [fst snd lastProcessedState log].
  fold app last. rewrite Hnew.
  rewrite bind_run. rewrite <- Hnew, latestDateDocs_latestNovel.
  fold latestDate batch.
  rewrite (for_of_pipeline E matter (type matter) batch 0 _ Hok).
  rewrite log_log, bind_run. simpl.
  eexists _, _. split; [reflexivity|].
  split; [reflexivity|].
  split.
  { change (date <$> mailed ([EProcessing app] ++
              emitted (Monitor.fetchByType E matter)
              ++ concat ((λ d, emitted (pipeline d)) <$> batch)) = date <$> batch).
    rewrite !mailed_app, fetchByType_mailed. simpl.
    apply mailed_batch. }
  simpl. rewrite Hmore. done.
Qed.

(** In the sample world the batch holds two documents and both are mailed. *)
Example latest_date_batch_sample :
  let r := Monitor.processMatter sampleEnv trademarkMatter "2024-03-01" sampleStore in
  latestNovel None "2024-03-01" "2024-03-01" [noticeDoc; actionDoc; applicationDoc]
    = [noticeDoc; actionDoc] ∧
  description <$> mailed (trace r.2) = ["Notice"; "Office Action"] ∧
  Monitor.docCount <$> (match r.1 with Normal v => Some v | Throw _ => None end)
    = Some 2%nat ∧
  lastProcessedState r.2 !! "12345" = Some "2024-03-01".
Proof. vm_compute. repeat split; reflexivity. Qed.

(** [Googlecron.processMatter] on the same input: the trademark registry
    lists two novel documents of the latest novel date 2024-03-01, the
    adapter hands over the first of them only, and one document goes
    through the pipeline, not both. *)
Lemma googlecron_single_document :
  let fetched := [noticeDoc; actionDoc; applicationDoc] in
  let batch := latestNovel None "2024-03-01" "2024-03-01" fetched in
  let s' := (Googlecron.processMatter sampleEnv trademarkMatter "2024-03-01"
               sampleStore).2 in
  outcome (trademarkDocs sampleEnv "12345") = Normal fetched ∧
  batch = [noticeDoc; actionDoc] ∧
  description <$> mailed (trace s') = ["Notice"] ∧
  date <$> mailed (trace s') ≠ date <$> batch.
Proof. vm_compute. repeat split; try reflexivity. discriminate. Qed.

(** When a pipeline throws, [Monitor.processMatter] stops there and the
    entry is not written: here the mail service is down, the first
    document of the batch is the only one tried and the mapping stays
    empty. *)
Example monitor_mail_failure :
  let r := Monitor.processMatter mailDownEnv trademarkMatter "2024-03-01" sampleStore in
  r.1 = Throw "sendMail failed" ∧
  description <$> mailed (trace r.2) = ["Notice"] ∧
  lastProcessedState r.2 !! "12345" = None.
Proof. vm_compute. repeat split; reflexivity. Qed.

(** ** The matter registry under status updates *)

Lemma store_eta s :
  mkStore (stateFile s) (lastProcessedState s) (mapFile s)
          (currentlyProcessing s) (statusFile s) (lastRun s) (trace s) = s.
Proof. by destruct s. Qed.

Lemma updateMatterStatus_run E id st s :
  Controller.updateMatterStatus E id st s
  = (Normal (registered id (mapFile s)),
     log [EStatus id st (registered id (mapFile s))]
         (set_mapFile (setStatus E id st (mapFile s)) s)).
Proof.
  unfold Controller.updateMatterStatus, Controller.loadMatters, setStatus,
    registered, gets.
  rewrite bind_run. cbn [fst snd].
  destruct (list_find _ (mapFile s)) as [[i m]|] eqn:Hfind.
  - reflexivity.
  - unfold set_mapFile. by rewrite store_eta.
Qed.

Lemma list_find_setStatus E id id' st matters :
  list_find (λ m, lawmaticsID m = id') (setStatus E id st matters)
  = prod_map (λ i, i) (λ m, if decide (lawmaticsID m = id)
                            then Controller.withStatus E st m else m)
    <$> list_find (λ m, lawmaticsID m = id') matters.
Proof.
  unfold setStatus.
  destruct (list_find (λ m, lawmaticsID m = id) matters) as [[i x]|] eqn:Hid.
  - apply list_find_Some in Hid as (Hi & Hx & Hbefore).
    destruct (list_find (λ m, lawmaticsID m = id') matters) as [[j y]|] eqn:Hid'.
    + apply list_find_Some in Hid' as (Hj & Hy & Hbefore').
      simpl. apply list_find_Some. destruct (decide (i = j)) as [->|Hij].
      * assert (x = y) as <- by congruence.
        rewrite decide_True by done.
        split; [by rewrite list_lookup_alter_eq, Hi|].
        split; [done|].
        intros k z Hk Hlt. rewrite list_lookup_alter_ne in Hk by lia. eauto.
      * rewrite list_lookup_alter_ne by done.
        assert (lawmaticsID y ≠ id) as Hne.
        { intros Heq. destruct (decide (j < i)%nat); [by eapply Hbefore|].
          assert (i < j)%nat by lia.
          eapply (Hbefore' i x); [done|done|]. congruence. }
        rewrite decide_False by done.
        split; [done|]. split; [done|].
        intros k z Hk Hlt. destruct (decide (i = k)) as [<-|Hik].
        -- rewrite list_lookup_alter_eq, Hi in Hk. simpl in Hk.
           injection Hk as <-. simpl. by eapply Hbefore'.
        -- rewrite list_lookup_alter_ne in Hk by done. eauto.
    + simpl. apply list_find_None. rewrite list_find_None in Hid'.
      apply List.Forall_forall. rewrite List.Forall_forall in Hid'.
      intros z Hz. apply list_elem_of_In, list_elem_of_lookup in Hz as [k Hk].
      destruct (decide (i = k)) as [<-|Hik].
      * rewrite list_lookup_alter_eq, Hi in Hk. simpl in Hk. injection Hk as <-.
        simpl. apply Hid'. apply list_elem_of_In, list_elem_of_lookup. eauto.
      * rewrite list_lookup_alter_ne in Hk by done.
        apply Hid'. apply list_elem_of_In, list_elem_of_lookup. eauto.
  - destruct (list_find (λ m, lawmaticsID m = id') matters) as [[j y]|] eqn:Hid';
      simpl; [|done].
    rewrite decide_False; [done|].
    apply list_find_Some in Hid' as (Hj & _ & _).
    rewrite list_find_None in Hid. rewrite List.Forall_forall in Hid.
    apply Hid. apply list_elem_of_In, list_elem_of_lookup. eauto.
Qed.

Lemma registered_setStatus E id id' st matters :
  registered id' (setStatus E id st matters) = registered id' matters.
Proof.
  unfold registered. rewrite list_find_setStatus.
  by destruct (list_find _ matters).
Qed.

Lemma displayStatus_setStatus E id st matters :
  registered id matters = true →
  displayStatus id (setStatus E id st matters) = Some st.
Proof.
  unfold registered, displayStatus. rewrite list_find_setStatus.
  destruct (list_find _ matters) as [[i m]|] eqn:Hfind; [intros _|done].
  simpl. apply list_find_Some in Hfind as (_ & Hm & _).
  by rewrite decide_True.
Qed.

Lemma setStatus_unregistered E id st matters :
  registered id matters = false → setStatus E id st matters = matters.
Proof.
  unfold registered, setStatus.
  by destruct (list_find _ matters) as [[i m]|].
Qed.

(** [getMattersByIds([id])] finds a matter exactly when [id] is registered,
    and what it finds carries that identifier. *)
Lemma getMattersByIds_one id matters :
  match List.filter (λ m, bool_decide (lawmaticsID m ∈ [id])) matters with
  | [] => registered id matters = false
  | matter :: _ => registered id matters = true ∧ lawmaticsID matter = id
  end.
Proof.
  unfold registered.
  induction matters as [|m matters IH]; simpl; [done|].
  destruct (decide (lawmaticsID m = id)) as [Heq|Hne].
  - rewrite bool_decide_eq_true_2 by (by apply list_elem_of_singleton). done.
  - rewrite bool_decide_eq_false_2 by (by rewrite list_elem_of_singleton).
    destruct (List.filter _ matters) as [|matter rest];
      by destruct (list_find _ matters).
Qed.

(** ** One guarded attempt *)

Lemma statusUpdates_app id a b :
  statusUpdates id (a ++ b) = statusUpdates id a ++ statusUpdates id b.
Proof. unfold statusUpdates. apply omap_app. Qed.

Lemma statusUpdates_external id events :
  Forall external events → statusUpdates id events = [].
Proof.
  induction 1 as [|e events He _ IH]; [done|].
  destruct e; simpl in He; try contradiction; exact IH.
Qed.

Lemma release_restores (id : string) (cp : gset string) :
  id ∉ cp → ({[id]} ∪ cp) ∖ {[id]} = cp.
Proof.
  intros Hid.
  rewrite difference_union_distr_l_L, difference_diag_L, union_empty_l_L.
  by apply difference_disjoint_L, disjoint_singleton_r.
Qed.

Lemma processSingleMatter_attempt E id s :
  id ∉ currentlyProcessing s →
  let written := registered id (mapFile s) in
  ∃ result terminal middle s',
    Controller.processSingleMatter E id s = (Normal result, s') ∧
    currentlyProcessing s' = currentlyProcessing s ∧
    statusFile s' = Some (currentlyProcessing s) ∧
    trace s' = trace s ++ EStatus id "Processing..." written
                 :: middle ++ [EStatus id terminal written] ∧
    statusUpdates id middle = [] ∧
    terminal ∈ terminalStatuses ∧
    (written = false → terminal = "Failed - Not Found") ∧
    mapFile s' = setStatus E id terminal
                   (setStatus E id "Processing..." (mapFile s)).
Proof.
  intros Hidle written.
  unfold Controller.processSingleMatter.
  rewrite bind_run. unfold gets. cbn [fst snd].
  rewrite bool_decide_eq_false_2 by done.
  unfold try_finally, try_catch.
  rewrite bind_run. cbn [modify fst snd].
  rewrite bind_run. unfold Controller.saveStatus at 1. cbn [modify fst snd].
  rewrite bind_run, updateMatterStatus_run. cbn [mapFile set_statusFile set_currentlyProcessing].
  fold written.
  rewrite bind_run. unfold Controller.getMattersByIds, Controller.loadMatters.
  rewrite bind_run. unfold gets. cbn [fst snd ret mapFile log set_mapFile].
  pose proof (getMattersByIds_one id (setStatus E id "Processing..." (mapFile s))) as Hfound.
  rewrite registered_setStatus in Hfound. fold written in Hfound.
  destruct (List.filter _ (setStatus E id "Processing..." (mapFile s)))
    as [|matter others].
  - rewrite bind_run, updateMatterStatus_run.
    cbn [mapFile log set_mapFile]. rewrite registered_setStatus. fold written.
    cbn. eexists _, "Failed - Not Found", [], _.
    split; [reflexivity|]. cbn.
    split; [by apply release_restores|].
    split; [by rewrite release_restores|].
    split; [by rewrite <- app_assoc|].
    split; [done|].
    split; [apply list_elem_of_In; simpl; tauto|done].
  - destruct Hfound as [Hreg Hid].
    rewrite bind_run. cbn [loadLastProcessedState modify fst snd].
    rewrite bind_run.
    match goal with |- context [Googlecron.processMatter E matter ?t ?s3] =>
      pose proof (Googlecron_processMatter_effect E matter t s3) as Hadv;
      destruct (Googlecron.processMatter E matter t s3) as [c s4]
    end.
    apply advance_fields in Hadv
      as (Hsf & Hmf & Hcp & Hstf & Hlr & events & Htr & Hext).
    cbn in Hsf, Hmf, Hcp, Hstf, Hlr, Htr.
    destruct c as [result0|e].
    + rewrite bind_run. cbn [saveLastProcessedState modify fst snd].
      rewrite bind_run. cbn [modify fst snd].
      rewrite bind_run. unfold Controller.saveStatus at 1. cbn [modify fst snd].
      rewrite bind_run, updateMatterStatus_run.
      cbn [mapFile set_statusFile set_lastRun set_stateFile].
      rewrite Hmf, registered_setStatus. fold written.
      eexists _, (Controller.finalStatus (Googlecron.processed result0)),
        (EProcessing (applicationNumber matter) :: events), _.
      split; [reflexivity|]. cbn. rewrite Hcp, Htr.
      split; [by apply release_restores|].
      split; [by rewrite release_restores|].
      split; [by rewrite <- !app_assoc|].
      split; [exact (statusUpdates_external id events Hext)|].
      split.
      { apply list_elem_of_In. destruct (Googlecron.processed result0); simpl; tauto. }
      split; [by rewrite Hreg|done].
    + rewrite bind_run, updateMatterStatus_run.
      rewrite Hmf, registered_setStatus. fold written.
      eexists _, "Failed",
        (EProcessing (applicationNumber matter) :: events), _.
      split; [reflexivity|]. cbn. rewrite Hcp, Htr.
      split; [by apply release_restores|].
      split; [by rewrite release_restores|].
      split; [by rewrite <- !app_assoc|].
      split; [exact (statusUpdates_external id events Hext)|].
      split; [apply list_elem_of_In; simpl; tauto|].
      split; [by rewrite Hreg|done].
Qed.

(** [getMattersByIds([id])] after the first status update: the first entry
    with the identifier, carrying the new status. *)
Lemma getMattersByIds_found E id st matters : ∀ i entry,
  list_find (λ m, lawmaticsID m = id) matters = Some (i, entry) →
  ∃ others,
    List.filter (λ m, bool_decide (lawmaticsID m ∈ [id])) (setStatus E id st matters)
    = Controller.withStatus E st entry :: others.
Proof.
  unfold setStatus.
  induction matters as [|m matters IH]; intros i entry; [done|].
  cbn [list_find].
  destruct (decide (lawmaticsID m = id)) as [Heq|Hne].
  - intros [= <- <-]. cbn [alter list_alter List.filter Controller.withStatus lawmaticsID].
    rewrite bool_decide_eq_true_2 by (by apply list_elem_of_singleton).
    by eexists.
  - destruct (list_find _ matters) as [[j found]|] eqn:Hfind; [|done].
    cbn. intros [= <- <-].
    destruct (IH j found eq_refl) as [others Hothers].
    rewrite bool_decide_eq_false_2 by (by rewrite list_elem_of_singleton).
    by exists others.
Qed.

(** The paths of an attempt that starts, by what [processMatter] does at
    the store [underway]. *)
Lemma processSingleMatter_paths E id s :
  id ∉ currentlyProcessing s →
  match list_find (λ m, lawmaticsID m = id) (mapFile s) with
  | Some (_, entry) =>
      let matter := Controller.withStatus E "Processing..." entry in
      let run :=
        Googlecron.processMatter E matter (getTodayDateKey E) (underway E id s) in
      let terminal :=
        match run.1 with
        | Normal r => if Googlecron.processed r
                      then "Automation Completed" else "No Updates Found"
        | Throw _ => "Failed"
        end in
      ∃ middle s',
        Controller.processSingleMatter E id s
          = (Normal match run.1 with
                    | Normal r =>
                        Controller.mkSingleResult true
                          (if Googlecron.processed r
                           then "New document processed"
                           else "No new documents found")
                          (Some matter) (Some (Googlecron.processed r))
                    | Throw e => Controller.mkSingleResult false e None None
                    end, s') ∧
        trace run.2 = trace (underway E id s) ++ middle ∧
        mapFile run.2 = mapFile (underway E id s) ∧
        statusUpdates id middle = [] ∧
        trace s' = trace s ++ EStatus id "Processing..." true
                     :: middle ++ [EStatus id terminal true] ∧
        mapFile s' = setStatus E id terminal (mapFile (underway E id s))
  | None =>
      ∃ s',
        Controller.processSingleMatter E id s
          = (Normal (Controller.mkSingleResult false "Matter not found" None None),
             s') ∧
        trace s' = trace s ++ [EStatus id "Processing..." false;
                               EStatus id "Failed - Not Found" false] ∧
        mapFile s' = mapFile s
  end.
Proof.
  intros Hidle.
  destruct (list_find (λ m, lawmaticsID m = id) (mapFile s)) as [[i entry]|] eqn:Hfind.
  - destruct (getMattersByIds_found E id "Processing..." _ _ _ Hfind) as [others Hothers].
    assert (registered id (mapFile s) = true) as Hreg by (unfold registered; by rewrite Hfind).
    cbv zeta.
    pose proof (Googlecron_processMatter_effect E
                  (Controller.withStatus E "Processing..." entry)
                  (getTodayDateKey E) (underway E id s)) as Hadv.
    apply advance_fields in Hadv
      as (Hsf & Hmf & Hcp & Hstf & Hlr & events & Htr & Hext).
    exists (EProcessing (applicationNumber (Controller.withStatus E "Processing..." entry))
              :: events).
    unfold Controller.processSingleMatter.
    rewrite bind_run. unfold gets. cbn [fst snd].
    rewrite bool_decide_eq_false_2 by done.
    unfold try_finally, try_catch.
    rewrite bind_run. cbn [modify fst snd].
    rewrite bind_run. unfold Controller.saveStatus at 1. cbn [modify fst snd].
    rewrite bind_run, updateMatterStatus_run.
    cbn [mapFile set_statusFile set_currentlyProcessing]. rewrite Hreg.
    rewrite bind_run. unfold Controller.getMattersByIds, Controller.loadMatters.
    rewrite bind_run. unfold gets. cbn [fst snd ret mapFile log set_mapFile].
    rewrite Hothers.
    rewrite bind_run. cbn [loadLastProcessedState modify fst snd].
    rewrite bind_run.
    match goal with |- context [Googlecron.processMatter E _ _ ?s3] =>
      change s3 with (underway E id s)
    end.
    destruct (Googlecron.processMatter E _ _ (underway E id s)) as [c s4].
    cbn [fst snd] in *.
    destruct c as [result0|e].
    + rewrite bind_run. cbn [saveLastProcessedState modify fst snd].
      rewrite bind_run. cbn [modify fst snd].
      rewrite bind_run. unfold Controller.saveStatus at 1. cbn [modify fst snd].
      rewrite bind_run, updateMatterStatus_run.
      cbn [mapFile set_statusFile set_lastRun set_stateFile].
      rewrite Hmf. cbn [underway mapFile]. rewrite registered_setStatus, Hreg.
      eexists. split; [reflexivity|].
      cbn. rewrite Htr. cbn [underway trace].
      split; [by rewrite <- !app_assoc|].
      split; [done|].
      split; [exact (statusUpdates_external id events Hext)|].
      split; [by rewrite <- !app_assoc|]. done.
    + rewrite bind_run, updateMatterStatus_run.
      rewrite Hmf. cbn [underway mapFile]. rewrite registered_setStatus, Hreg.
      eexists. split; [reflexivity|].
      cbn. rewrite Htr. cbn [underway trace].
      split; [by rewrite <- !app_assoc|].
      split; [done|].
      split; [exact (statusUpdates_external id events Hext)|].
      split; [by rewrite <- !app_assoc|]. done.
  - assert (registered id (mapFile s) = false) as Hreg by (unfold registered; by rewrite Hfind).
    pose proof (getMattersByIds_one id (setStatus E id "Processing..." (mapFile s))) as Hfound.
    rewrite registered_setStatus, Hreg in Hfound.
    unfold Controller.processSingleMatter.
    rewrite bind_run. unfold gets. cbn [fst snd].
    rewrite bool_decide_eq_false_2 by done.
    unfold try_finally, try_catch.
    rewrite bind_run. cbn [modify fst snd].
    rewrite bind_run. unfold Controller.saveStatus at 1. cbn [modify fst snd].
    rewrite bind_run, updateMatterStatus_run.
    cbn [mapFile set_statusFile set_currentlyProcessing]. rewrite Hreg.
    rewrite bind_run. unfold Controller.getMattersByIds, Controller.loadMatters.
    rewrite bind_run. unfold gets. cbn [fst snd ret mapFile log set_mapFile].
    destruct (List.filter _ (setStatus E id "Processing..." (mapFile s)))
      as [|matter others]; [|by destruct Hfound].
    rewrite bind_run, updateMatterStatus_run.
    cbn [mapFile log set_mapFile]. rewrite registered_setStatus, Hreg.
    eexists. split; [reflexivity|]. cbn.
    split; [by rewrite <- app_assoc|].
    rewrite (setStatus_unregistered E id "Processing..."); [|done].
    by apply setStatus_unregistered.
Qed.

Lemma processSingleMatter_rejected E id s :
  id ∈ currentlyProcessing s →
  Controller.processSingleMatter E id s
  = (Normal (Controller.mkSingleResult false "Matter is already being processed"
               None None), s).
Proof.
  intros Hbusy. unfold Controller.processSingleMatter.
  rewrite bind_run. unfold gets. cbn [fst snd].
  by rewrite bool_decide_eq_true_2.
Qed.

(** ** One iteration of the targeted batch *)

Lemma batchStep_rejected E today acc m s :
  lawmaticsID m ∈ currentlyProcessing s →
  Controller.batchStep E today acc m s
  = (Normal (acc.1 ++ [Controller.mkEntry (lawmaticsID m) false None None
                         "Already being processed"], acc.2), s).
Proof.
  intros Hbusy. unfold Controller.batchStep.
  rewrite bind_run. unfold gets. cbn [fst snd].
  by rewrite bool_decide_eq_true_2.
Qed.

Lemma confirmations_app a b :
  confirmations (a ++ b) = (confirmations a + confirmations b)%nat.
Proof. unfold confirmations. by rewrite List.filter_app, length_app. Qed.

Lemma confirmations_external events :
  Forall external events → confirmations events = 0%nat.
Proof.
  induction 1 as [|e events He _ IH]; [done|].
  destruct e; simpl in He; try contradiction; exact IH.
Qed.

Lemma attempted_app a b : attempted (a ++ b) = attempted a ++ attempted b.
Proof. unfold attempted. apply omap_app. Qed.

Lemma attempted_external events :
  Forall external events → attempted events = [].
Proof.
  induction 1 as [|e events He _ IH]; [done|].
  destruct e; simpl in He; try contradiction; exact IH.
Qed.

Lemma batchStep_attempt E today acc m s :
  lawmaticsID m ∉ currentlyProcessing s →
  ∃ entry events s',
    Controller.batchStep E today acc m s
      = (Normal (acc.1 ++ [entry],
                 if processedFlag entry then S acc.2 else acc.2), s') ∧
    Controller.entryId entry = lawmaticsID m ∧
    currentlyProcessing s' = currentlyProcessing s ∧
    statusFile s' = Some (currentlyProcessing s) ∧
    stateFile s' = stateFile s ∧
    trace s' = trace s ++ events ∧
    confirmations events = 0%nat ∧
    attempted events = [applicationNumber m].
Proof.
  intros Hidle. unfold Controller.batchStep.
  rewrite bind_run. unfold gets. cbn [fst snd].
  rewrite bool_decide_eq_false_2 by done.
  unfold try_finally, try_catch.
  rewrite bind_run. cbn [modify fst snd].
  rewrite bind_run. unfold Controller.saveStatus at 1. cbn [modify fst snd].
  rewrite bind_run.
  match goal with |- context [Googlecron.processMatter E m ?t ?s3] =>
    pose proof (Googlecron_processMatter_effect E m t s3) as Hadv;
    destruct (Googlecron.processMatter E m t s3) as [c s4]
  end.
  apply advance_fields in Hadv
    as (Hsf & Hmf & Hcp & Hstf & Hlr & events & Htr & Hext).
  cbn in Hsf, Hmf, Hcp, Hstf, Hlr, Htr.
  destruct c as [result|e].
  - rewrite bind_run, updateMatterStatus_run.
    destruct (Googlecron.processed result);
      [ eexists (Controller.mkEntry _ true (Some true) _ _), _, _
      | eexists (Controller.mkEntry _ true (Some false) _ _), _, _ ];
      (split; [reflexivity|]);
      cbn; rewrite Hcp, Htr, Hsf;
      (split; [done|];
       split; [by apply release_restores|];
       split; [by rewrite release_restores|];
       split; [done|];
       split; [by rewrite <- !app_assoc|];
       split;
       [ rewrite confirmations_app; cbn;
         change (confirmations events + 0 = 0)%nat;
         by rewrite confirmations_external
       | rewrite attempted_app; cbn;
         change (applicationNumber m :: attempted events ++ [] = [applicationNumber m]);
         by rewrite attempted_external ]).
  - rewrite bind_run, updateMatterStatus_run.
    eexists (Controller.mkEntry _ false None None e), _, _.
    split; [reflexivity|].
    cbn. rewrite Hcp, Htr, Hsf.
    split; [done|].
    split; [by apply release_restores|].
    split; [by rewrite release_restores|].
    split; [done|].
    split; [by rewrite <- !app_assoc|].
    split.
    + rewrite confirmations_app. cbn.
      change (confirmations events + 0 = 0)%nat.
      by rewrite confirmations_external.
    + rewrite attempted_app. cbn.
      change (applicationNumber m :: attempted events ++ [] = [applicationNumber m]).
      by rewrite attempted_external.
Qed.

(** ** The targeted batch as a whole *)

Lemma sendConfirmationEmail_run E n total s :
  Googlecron.sendConfirmationEmail E n total s
  = (Normal tt, log [EConfirmation n total] s).
Proof.
  unfold Googlecron.sendConfirmationEmail, try_catch.
  rewrite bind_run. cbn. by destruct (report_mailer E).
Qed.

Lemma status_loop E (matters : list Matter) s :
  ∃ events s',
    for_of (λ _ matter,
              Controller.updateMatterStatus E (lawmaticsID matter) "Processing..." >>
              ret tt) tt matters s = (Normal tt, s') ∧
    currentlyProcessing s' = currentlyProcessing s ∧
    trace s' = trace s ++ events ∧
    confirmations events = 0%nat ∧
    attempted events = [].
Proof.
  revert s. induction matters as [|m matters IH]; intros s; simpl.
  - exists [], s. by rewrite app_nil_r.
  - rewrite bind_run, bind_run, updateMatterStatus_run. cbn [ret].
    match goal with |- context [for_of _ tt matters ?s1] =>
      destruct (IH s1) as (events & s' & -> & Hcp & Htr & Hconf & Hatt)
    end.
    cbn in Hcp, Htr.
    eexists (_ :: events), s'. split; [reflexivity|].
    split; [done|].
    split; [by rewrite Htr, <- app_assoc|].
    split; [exact Hconf|exact Hatt].
Qed.

Lemma batch_loop E today (matters : list Matter) acc s :
  ∃ entries events s',
    for_of (Controller.batchStep E today) acc matters s
      = (Normal (acc.1 ++ entries,
                 (acc.2 + length (List.filter processedFlag entries))%nat), s') ∧
    Controller.entryId <$> entries = lawmaticsID <$> matters ∧
    currentlyProcessing s' = currentlyProcessing s ∧
    trace s' = trace s ++ events ∧
    confirmations events = 0%nat ∧
    attempted events = applicationNumber <$> List.filter (idle s) matters ∧
    Forall2 (λ m entry, idle s m = false → entry = rejection m) matters entries.
Proof.
  revert acc s. induction matters as [|m matters IH]; intros acc s.
  - exists [], [], s. simpl. rewrite !app_nil_r, Nat.add_0_r.
    destruct acc. repeat split; constructor.
  - cbn [for_of List.filter]. rewrite bind_run.
    destruct (decide (lawmaticsID m ∈ currentlyProcessing s)) as [Hbusy|Hidle].
    + assert (Hm : idle s m = false)
        by (unfold idle; by rewrite bool_decide_eq_true_2).
      rewrite Hm, batchStep_rejected by done.
      match goal with |- context [for_of _ ?acc1 matters s] =>
        destruct (IH acc1 s)
          as (entries & events & s' & -> & Hids & Hcp & Htr & Hconf & Hatt & Hrej)
      end.
      exists (rejection m :: entries), events, s'. cbn [fst snd].
      split.
      { rewrite <- app_assoc. cbn. reflexivity. }
      split; [by rewrite !fmap_cons, Hids|].
      split; [done|]. split; [done|]. split; [done|].
      split; [done|].
      constructor; done.
    + assert (Hm : idle s m = true)
        by (unfold idle; by rewrite bool_decide_eq_false_2).
      rewrite Hm.
      destruct (batchStep_attempt E today acc m s Hidle)
        as (entry & ev1 & s1 & -> & Hid & Hcp1 & _ & _ & Htr1 & Hconf1 & Hatt1).
      match goal with |- context [for_of _ ?acc1 matters s1] =>
        destruct (IH acc1 s1)
          as (entries & events & s' & -> & Hids & Hcp & Htr & Hconf & Hatt & Hrej)
      end.
      exists (entry :: entries), (ev1 ++ events), s'. cbn [fst snd].
      assert (Hsame : ∀ x, idle s1 x = idle s x)
        by (intros x; unfold idle; by rewrite Hcp1).
      split.
      { rewrite <- app_assoc. cbn [List.filter app length].
        destruct (processedFlag entry); cbn [length];
          rewrite ?Nat.add_succ_r; reflexivity. }
      split; [by rewrite !fmap_cons, Hids, Hid|].
      split; [congruence|].
      split; [by rewrite Htr, Htr1, <- app_assoc|].
      split; [by rewrite confirmations_app, Hconf1, Hconf|].
      split.
      { rewrite attempted_app, Hatt1, Hatt. cbn.
        f_equal. f_equal. apply List.filter_ext. exact Hsame. }
      constructor.
      * by rewrite Hm.
      * eapply Forall2_impl; [exact Hrej|]. intros x e Hx. by rewrite <- Hsame.
Qed.

Lemma processMultipleMatters_run E ids s :
  let matters :=
    List.filter (λ m, bool_decide (lawmaticsID m ∈ ids)) (mapFile s) in
  matters ≠ [] →
  ∃ result events s',
    Controller.processMultipleMatters E ids s = (Normal result, s') ∧
    Controller.batchSuccess result = true ∧
    Controller.entryId <$> Controller.results result = lawmaticsID <$> matters ∧
    Controller.batchProcessed result
      = length (List.filter processedFlag (Controller.results result)) ∧
    currentlyProcessing s' = currentlyProcessing s ∧
    trace s' = trace s ++ events ∧
    confirmations events
      = (if (Controller.batchProcessed result =? 0)%nat then 1 else 0)%nat ∧
    attempted events = applicationNumber <$> List.filter (idle s) matters ∧
    Forall2 (λ m entry, idle s m = false → entry = rejection m)
            matters (Controller.results result).
Proof.
  intros matters Hsome.
  unfold Controller.processMultipleMatters, Controller.getMattersByIds,
    Controller.loadMatters.
  rewrite bind_run, bind_run. unfold gets. cbn [fst snd ret].
  fold matters.
  assert (Hlen : (length matters =? 0)%nat = false) by (by destruct matters).
  rewrite Hlen.
  rewrite bind_run. cbn [loadLastProcessedState modify fst snd].
  rewrite bind_run.
  match goal with |- context [for_of _ tt matters ?s1] =>
    destruct (status_loop E matters s1)
      as (ev1 & s2 & -> & Hcp2 & Htr2 & Hconf2 & Hatt2)
  end.
  cbn in Hcp2, Htr2.
  rewrite bind_run.
  destruct (batch_loop E (getTodayDateKey E) matters ([], 0%nat) s2)
    as (entries & ev2 & s3 & -> & Hids & Hcp3 & Htr3 & Hconf3 & Hatt3 & Hrej).
  cbn [fst snd app Nat.add].
  assert (Hsame : ∀ x, idle s2 x = idle s x)
    by (intros x; unfold idle; by rewrite Hcp2).
  rewrite bind_run. cbn [saveLastProcessedState modify fst snd].
  rewrite bind_run. cbn [modify fst snd].
  rewrite bind_run. unfold Controller.saveStatus. cbn [modify fst snd].
  rewrite bind_run.
  destruct (length (List.filter processedFlag entries) =? 0)%nat eqn:Hzero.
  - unfold try_catch. rewrite sendConfirmationEmail_run.
    eexists _, (ev1 ++ ev2 ++ [_]), _. split; [reflexivity|]. cbn.
    rewrite Hzero, Hcp3, Hcp2, Htr3, Htr2.
    split; [done|]. split; [done|]. split; [done|]. split; [done|].
    split; [by rewrite <- !app_assoc|].
    split.
    { rewrite !confirmations_app, Hconf2, Hconf3. done. }
    split.
    { rewrite !attempted_app, Hatt2, Hatt3. cbn. rewrite app_nil_r.
      f_equal. apply List.filter_ext. exact Hsame. }
    eapply Forall2_impl; [exact Hrej|]. intros x e Hx. by rewrite <- Hsame.
  - eexists _, (ev1 ++ ev2), _. split; [reflexivity|]. cbn.
    rewrite Hzero, Hcp3, Hcp2, Htr3, Htr2.
    split; [done|]. split; [done|]. split; [done|]. split; [done|].
    split; [by rewrite <- !app_assoc|].
    split.
    { rewrite !confirmations_app, Hconf2, Hconf3. done. }
    split.
    { rewrite !attempted_app, Hatt2, Hatt3. cbn.
      f_equal. apply List.filter_ext. exact Hsame. }
    eapply Forall2_impl; [exact Hrej|]. intros x e Hx. by rewrite <- Hsame.
Qed.

(** ** The in-flight guard *)

(** C5. An attempt on an identifier that is in the in-flight set ends at
    once, normally, with the already-being-processed result, and leaves the
    store as it was: nothing is recorded for later.  An attempt on an
    identifier that is not in the set ends normally whatever happens inside
    (documents processed, nothing new, matter unknown, exception) and the
    identifier is out of the set afterwards, in memory and in the status
    file.  Both hold for [processSingleMatter] and for every iteration of
    [processMultipleMatters], and a whole batch leaves the set as it found
    it, with a rejection entry for every matter that was in flight. *)
Theorem in_flight_guard (E : Env) (s : Store) :
  (∀ id, id ∈ currentlyProcessing s →
     Controller.processSingleMatter E id s
     = (Normal (Controller.mkSingleResult false
                  "Matter is already being processed" None None), s)) ∧
  (∀ id, id ∉ currentlyProcessing s →
     ∃ result s',
       Controller.processSingleMatter E id s = (Normal result, s') ∧
       (id ∉ currentlyProcessing s') ∧
       currentlyProcessing s' = currentlyProcessing s ∧
       statusFile s' = Some (currentlyProcessing s)) ∧
  (∀ today acc m, lawmaticsID m ∈ currentlyProcessing s →
     Controller.batchStep E today acc m s
     = (Normal (acc.1 ++ [rejection m], acc.2), s)) ∧
  (∀ today acc m, lawmaticsID m ∉ currentlyProcessing s →
     ∃ acc' s',
       Controller.batchStep E today acc m s = (Normal acc', s') ∧
       (lawmaticsID m ∉ currentlyProcessing s') ∧
       currentlyProcessing s' = currentlyProcessing s ∧
       statusFile s' = Some (currentlyProcessing s)) ∧
  (∀ ids,
     ∃ result s',
       Controller.processMultipleMatters E ids s = (Normal result, s') ∧
       currentlyProcessing s' = currentlyProcessing s ∧
       Forall2 (λ m entry, lawmaticsID m ∈ currentlyProcessing s →
                           entry = rejection m)
         (List.filter (λ m, bool_decide (lawmaticsID m ∈ ids)) (mapFile s))
         (Controller.results result)).
Proof.
  split; [intros id; apply processSingleMatter_rejected|].
  split.
  { intros id Hidle.
    destruct (processSingleMatter_attempt E id s Hidle)
      as (result & terminal & middle & s' & Hrun & Hcp & Hfile & _).
    exists result, s'. rewrite Hcp. done. }
  split; [intros today acc m; apply batchStep_rejected|].
  split.
  { intros today acc m Hidle.
    destruct (batchStep_attempt E today acc m s Hidle)
      as (entry & events & s' & Hrun & _ & Hcp & Hfile & _).
    eexists _, s'. rewrite Hcp. done. }
  intros ids.
  destruct (List.filter (λ m, bool_decide (lawmaticsID m ∈ ids)) (mapFile s))
    as [|m matters] eqn:Hmatters.
  - unfold Controller.processMultipleMatters, Controller.getMattersByIds,
      Controller.loadMatters.
    rewrite bind_run, bind_run. unfold gets. cbn [fst snd ret].
    rewrite Hmatters. cbn. eexists _, _. split; [reflexivity|].
    split; [done|constructor].
  - destruct (processMultipleMatters_run E ids s)
      as (result & events & s' & Hrun & _ & _ & _ & Hcp & _ & _ & _ & Hrej).
    { by rewrite Hmatters. }
    exists result, s'. split; [done|]. split; [done|].
    rewrite <- Hmatters. eapply Forall2_impl; [exact Hrej|].
    intros x entry Hx Hbusy. apply Hx.
    unfold idle. by rewrite bool_decide_eq_true_2.
Qed.

Lemma in_flight_guard_witness :
  Controller.processSingleMatter sampleEnv "L-1" busyStore
  = (Normal (Controller.mkSingleResult false
               "Matter is already being processed" None None), busyStore) ∧
  ∃ result s',
    Controller.processSingleMatter sampleEnv "L-1" sampleStore
      = (Normal result, s') ∧
    ("L-1" ∉ currentlyProcessing s') ∧
    currentlyProcessing s' = currentlyProcessing sampleStore ∧
    statusFile s' = Some (currentlyProcessing sampleStore).
Proof.
  split.
  - apply (in_flight_guard sampleEnv busyStore).
    vm_compute. reflexivity.
  - apply (in_flight_guard sampleEnv sampleStore).
    vm_compute. discriminate.
Defined.

(** The guard releases when the pipeline throws: with no browser to launch
    the attempt fails, and the identifier is out of the set. *)
Example guard_released_after_exception :
  let r := Controller.processSingleMatter noBrowserEnv "L-1" sampleStore in
  Controller.message <$> (match r.1 with Normal v => Some v | Throw _ => None end)
    = Some "Cannot read properties of null (reading 'close')" ∧
  elements (currentlyProcessing r.2) = [] ∧
  displayStatus "L-1" (mapFile r.2) = Some "Failed".
Proof. vm_compute. repeat split; reflexivity. Qed.

(** ** Display status of a single attempt *)

(** C7 fails where the claim names the matter-not-found path: for an
    identifier that is not in the registry both status updates are
    requested and neither is written; the registry file is as before and
    shows no status for that identifier. *)
Lemma unknown_matter_status_not_set :
  let r := Controller.processSingleMatter sampleEnv "L-404" sampleStore in
  r.1 = Normal (Controller.mkSingleResult false "Matter not found" None None) ∧
  statusUpdates "L-404" (trace r.2)
    = [("Processing...", false); ("Failed - Not Found", false)] ∧
  mapFile r.2 = mapFile sampleStore ∧
  displayStatus "L-404" (mapFile r.2) = None.
Proof. vm_compute. repeat split; reflexivity. Qed.

(** C7, as the controller implements it.  Take an attempt that starts, the
    identifier not being in flight.

    When the identifier is in the registry, the first thing the attempt
    does to the outside is to write ["Processing..."]: [processMatter] is
    called at the store [underway], where the display status is
    ["Processing..."] and that update is the only call made so far.  The
    display status stays so while [processMatter] runs, and no other status
    of the matter is requested meanwhile.  The last call of the attempt
    writes the terminal value, which the display status shows in the end:
    ["Automation Completed"] when [processMatter] reported a processed
    document (success), ["No Updates Found"] when it reported none (no novel
    documents), ["Failed"] when it threw (exception).  The attempt itself
    ends normally on each of these paths.

    When the identifier is not in the registry, ["Processing..."] and
    ["Failed - Not Found"] are requested and nothing else; neither is
    written and the registry is unchanged. *)
Theorem single_matter_status (E : Env) (id : string) (s : Store) :
  id ∉ currentlyProcessing s →
  match list_find (λ m, lawmaticsID m = id) (mapFile s) with
  | Some (_, entry) =>
      let matter := Controller.withStatus E "Processing..." entry in
      let run :=
        Googlecron.processMatter E matter (getTodayDateKey E) (underway E id s) in
      let terminal :=
        match run.1 with
        | Normal r => if Googlecron.processed r
                      then "Automation Completed" else "No Updates Found"
        | Throw _ => "Failed"
        end in
      ∃ result middle s',
        Controller.processSingleMatter E id s = (Normal result, s') ∧
        Controller.success result
          = match run.1 with Normal _ => true | Throw _ => false end ∧
        displayStatus id (mapFile (underway E id s)) = Some "Processing..." ∧
        trace run.2 = trace (underway E id s) ++ middle ∧
        displayStatus id (mapFile run.2) = Some "Processing..." ∧
        statusUpdates id middle = [] ∧
        trace s' = trace s ++ EStatus id "Processing..." true
                     :: middle ++ [EStatus id terminal true] ∧
        displayStatus id (mapFile s') = Some terminal
  | None =>
      ∃ result s',
        Controller.processSingleMatter E id s = (Normal result, s') ∧
        Controller.success result = false ∧
        Controller.message result = "Matter not found" ∧
        trace s' = trace s ++ [EStatus id "Processing..." false;
                               EStatus id "Failed - Not Found" false] ∧
        mapFile s' = mapFile s ∧
        displayStatus id (mapFile s') = None
  end.
Proof.
  intros Hidle.
  pose proof (processSingleMatter_paths E id s Hidle) as Hpaths.
  destruct (list_find (λ m, lawmaticsID m = id) (mapFile s))
    as [[i entry]|] eqn:Hfind.
  - cbv zeta in *.
    destruct Hpaths as (middle & s' & Hrun & Htr & Hmf & Hmid & Htr' & Hmf').
    assert (registered id (mapFile s) = true) as Hreg
      by (unfold registered; by rewrite Hfind).
    assert (displayStatus id (mapFile (underway E id s)) = Some "Processing...")
      as Hstart by (by apply displayStatus_setStatus).
    eexists _, middle, s'. split; [exact Hrun|].
    split; [by destruct (Googlecron.processMatter _ _ _ _).1|].
    split; [done|]. split; [done|].
    split; [by rewrite Hmf|]. split; [done|]. split; [done|].
    rewrite Hmf'. apply displayStatus_setStatus.
    cbn [underway mapFile]. by rewrite registered_setStatus.
  - destruct Hpaths as (s' & Hrun & Htr & Hmf).
    eexists _, s'. split; [exact Hrun|].
    split; [done|]. split; [done|]. split; [done|]. split; [done|].
    rewrite Hmf. unfold displayStatus. by rewrite Hfind.
Qed.

Lemma single_matter_status_witness :
  let matter := Controller.withStatus sampleEnv "Processing..." trademarkMatter in
  let run :=
    Googlecron.processMatter sampleEnv matter (getTodayDateKey sampleEnv)
      (underway sampleEnv "L-1" sampleStore) in
  let terminal :=
    match run.1 with
    | Normal r => if Googlecron.processed r
                  then "Automation Completed" else "No Updates Found"
    | Throw _ => "Failed"
    end in
  ∃ result middle s',
    Controller.processSingleMatter sampleEnv "L-1" sampleStore
      = (Normal result, s') ∧
    Controller.success result
      = match run.1 with Normal _ => true | Throw _ => false end ∧
    displayStatus "L-1" (mapFile (underway sampleEnv "L-1" sampleStore))
      = Some "Processing..." ∧
    trace run.2 = trace (underway sampleEnv "L-1" sampleStore) ++ middle ∧
    displayStatus "L-1" (mapFile run.2) = Some "Processing..." ∧
    statusUpdates "L-1" middle = [] ∧
    trace s' = trace sampleStore ++ EStatus "L-1" "Processing..." true
                 :: middle ++ [EStatus "L-1" terminal true] ∧
    displayStatus "L-1" (mapFile s') = Some terminal.
Proof.
  apply (single_matter_status sampleEnv "L-1" sampleStore).
  vm_compute. discriminate.
Defined.

(** The four paths in the sample worlds. *)
Example single_matter_paths :
  displayStatus "L-1"
    (mapFile (Controller.processSingleMatter sampleEnv "L-1" sampleStore).2)
    = Some "Automation Completed" ∧
  displayStatus "L-1"
    (mapFile (Controller.processSingleMatter
                (sampleWorld true FormSubmitted) "L-1"
                (set_stateFile (Some {[ "12345" := "2024-03-01" ]}) sampleStore)).2)
    = Some "No Updates Found" ∧
  displayStatus "L-1"
    (mapFile (Controller.processSingleMatter noBrowserEnv "L-1" sampleStore).2)
    = Some "Failed" ∧
  displayStatus "L-404"
    (mapFile (Controller.processSingleMatter sampleEnv "L-404" sampleStore).2)
    = None.
Proof. vm_compute. repeat split; reflexivity. Qed.

(** ** The consolidated notification of a targeted batch *)

Lemma existsb_filter {A} (f : A → bool) (l : list A) :
  existsb f l = negb (length (List.filter f l) =? 0)%nat.
Proof.
  induction l as [|x l IH]; simpl; [done|].
  destruct (f x); simpl; [done|exact IH].
Qed.

(** When none of the given identifiers is in the registry the batch is
    refused beforehand: no matter has a document processed, and no
    notification is sent either. *)
Lemma no_notification_for_unknown_matters :
  let r := Controller.processMultipleMatters sampleEnv ["L-404"] sampleStore in
  r.1 = Normal (Controller.mkBatchResult false (Some "No valid matters found")
                  0 0 0 []) ∧
  mailed (trace r.2) = [] ∧
  confirmations (trace r.2) = 0%nat.
Proof. vm_compute. repeat split; reflexivity. Qed.

(** What decides on the notification is the count of the results that
    report a processed document.  A targeted batch that finds at least one
    of the given identifiers in the registry ends normally and hands the
    consolidated notification to the mail service exactly once when no
    entry of its result reports a processed document, and not at all when
    some entry does. *)
Lemma consolidated_notification (E : Env) (ids : list string) (s : Store) :
  List.filter (λ m, bool_decide (lawmaticsID m ∈ ids)) (mapFile s) ≠ [] →
  ∃ result events s',
    Controller.processMultipleMatters E ids s = (Normal result, s') ∧
    trace s' = trace s ++ events ∧
    Controller.batchProcessed result
      = length (List.filter processedFlag (Controller.results result)) ∧
    confirmations events
      = (if existsb processedFlag (Controller.results result) then 0 else 1)%nat.
Proof.
  intros Hsome.
  destruct (processMultipleMatters_run E ids s Hsome)
    as (result & events & s' & Hrun & _ & _ & Hcount & _ & Htr & Hconf & _).
  exists result, events, s'. split; [done|]. split; [done|]. split; [done|].
  rewrite Hconf, existsb_filter, Hcount.
  by destruct (length _ =? 0)%nat.
Qed.

Lemma consolidated_notification_witness :
  ∃ result events s',
    Controller.processMultipleMatters sampleEnv ["L-1"; "L-2"] doneStore
      = (Normal result, s') ∧
    trace s' = trace doneStore ++ events ∧
    Controller.batchProcessed result
      = length (List.filter processedFlag (Controller.results result)) ∧
    confirmations events
      = (if existsb processedFlag (Controller.results result) then 0 else 1)%nat.
Proof.
  apply (consolidated_notification sampleEnv ["L-1"; "L-2"] doneStore).
  vm_compute. discriminate.
Defined.

(** Two matters with nothing new: one notification, not two; and none once
    a matter has a new document. *)
Example consolidated_notification_sample :
  confirmations
    (trace (Controller.processMultipleMatters sampleEnv ["L-1"; "L-2"] doneStore).2)
    = 1%nat ∧
  confirmations
    (trace (Controller.processMultipleMatters sampleEnv ["L-1"; "L-2"] sampleStore).2)
    = 0%nat.
Proof. vm_compute. split; reflexivity. Qed.

(** C8. The consolidated notification goes out although a novel document
    was processed.  With no browser to launch, a targeted batch for the
    trademark matter finds the document of 2024-03-01 new, uploads it,
    sends its notification and updates the prospect; then
    [submitFormWithPuppeteer] calls [browser.close()] on [null] and
    [processMatter] throws.  The matter is entered as failed,
    [processedCount] stays 0, and the batch sends the one notification
    that says that no new documents were found. *)
Theorem notification_after_processed_document :
  let r := Controller.processMultipleMatters noBrowserEnv ["L-1"] sampleStore in
  let uploaded :=
    mkDocument (date noticeDoc) "Notice" None None (link noticeDoc)
               (Some "https://drive.example/view") None in
  isNewDocument (date noticeDoc) (default ∅ (stateFile sampleStore) !! "12345")
    (getTodayDateKey noBrowserEnv) = true ∧
  trace r.2
    = [ EStatus "L-1" "Processing..." true;
        EProcessing "12345";
        EFetch "Trademark" "12345";
        EUpload "12345" noticeDoc;
        EMail "12345" uploaded;
        ECrmPut "L-1" "12345" uploaded;
        ECrmGet "L-1";
        EForm "L-1" "12345" uploaded;
        EStatus "L-1" "Failed" true;
        EConfirmation 0 1 ] ∧
  mailed (trace r.2) = [uploaded] ∧
  confirmations (trace r.2) = 1%nat ∧
  r.1 = Normal (Controller.mkBatchResult true None 1 0 0
                  [Controller.mkEntry "L-1" false None None
                     "Cannot read properties of null (reading 'close')"]).
Proof. vm_compute. repeat split; reflexivity. Qed.

(** ** Fault isolation *)

(** A targeted batch starts the processing of every matter it found that is
    not in flight, in order, whatever the environment does to the others. *)
Lemma targeted_batch_attempts_all (E : Env) (ids : list string) (s : Store) :
  List.filter (λ m, bool_decide (lawmaticsID m ∈ ids)) (mapFile s) ≠ [] →
  ∃ result events s',
    Controller.processMultipleMatters E ids s = (Normal result, s') ∧
    trace s' = trace s ++ events ∧
    attempted events
      = applicationNumber <$>
          List.filter (idle s)
            (List.filter (λ m, bool_decide (lawmaticsID m ∈ ids)) (mapFile s)) ∧
    length (Controller.results result)
      = length (List.filter (λ m, bool_decide (lawmaticsID m ∈ ids)) (mapFile s)).
Proof.
  intros Hsome.
  destruct (processMultipleMatters_run E ids s Hsome)
    as (result & events & s' & Hrun & _ & Hids & _ & _ & Htr & _ & Hatt & _).
  exists result, events, s'. repeat split; try done.
  by rewrite <- (length_fmap Controller.entryId), Hids, length_fmap.
Qed.

(** C4 fails for the sweep.  With every service up, the sweep of either
    monitor file attempts both matters.  With the mail service down, the
    monitor's [processMatter] throws on the first matter; with no browser
    to launch, so does the one of [Googlecron.js].  In both cases the loop
    of [processAllMatters] is left, the second matter is never attempted
    and the processed state is not saved.  The targeted batch, in the same
    world, attempts both. *)
Lemma sweep_stops_at_exception :
  let good := Monitor.processAllMatters sampleEnv sampleStore in
  let bad := Monitor.processAllMatters mailDownEnv sampleStore in
  let good' := Googlecron.processAllMatters sampleEnv sampleStore in
  let bad' := Googlecron.processAllMatters noBrowserEnv sampleStore in
  let batch := Controller.processMultipleMatters noBrowserEnv ["L-1"; "L-2"]
                 sampleStore in
  attempted (trace good.2) = ["12345"; "17000001"] ∧
  attempted (trace bad.2) = ["12345"] ∧
  bad.1 = Normal (Monitor.mkSweepResult false (Some "sendMail failed") 0 0 0) ∧
  stateFile bad.2 = None ∧
  attempted (trace good'.2) = ["12345"; "17000001"] ∧
  attempted (trace bad'.2) = ["12345"] ∧
  stateFile bad'.2 = None ∧
  attempted (trace batch.2) = ["12345"; "17000001"].
Proof. vm_compute. repeat split; reflexivity. Qed.


(** * Further properties *)

(** ** ISO date strings and the calendar *)

Lemma append_cons (x : ascii) (a b : string) :
  String x a +:+ b = String x (a +:+ b).
Proof. reflexivity. Qed.

Lemma append_nil_l (a : string) : "" +:+ a = a.
Proof. reflexivity. Qed.

Lemma append_assoc (a b c : string) : (a +:+ b) +:+ c = a +:+ (b +:+ c).
Proof.
  induction a as [|x a IH]; [done|].
  by rewrite !append_cons, IH.
Qed.

Lemma append_nil_r (a : string) : a +:+ "" = a.
Proof.
  induction a as [|x a IH]; [done|].
  by rewrite append_cons, IH.
Qed.

Lemma compare_digit (a b : Z) :
  Ascii.compare (digit a) (digit b) = (a mod 10 ?= b mod 10).
Proof.
  unfold Ascii.compare, digit.
  assert (0 ≤ a mod 10 < 10) by (apply Z.mod_pos_bound; lia).
  assert (0 ≤ b mod 10 < 10) by (apply Z.mod_pos_bound; lia).
  rewrite !N_ascii_embedding by lia.
  rewrite <- N2Z.inj_compare, !N2Z.inj_add, !Z2N.id by lia.
  apply Z.add_compare_mono_l.
Qed.

Lemma compare_lex (q1 r1 q2 r2 : Z) :
  0 ≤ r1 < 10 → 0 ≤ r2 < 10 →
  (10 * q1 + r1 ?= 10 * q2 + r2)
  = match q1 ?= q2 with Eq => r1 ?= r2 | c => c end.
Proof.
  intros H1 H2.
  destruct (Z.compare_spec q1 q2) as [->|Hlt|Hgt].
  - destruct (Z.compare_spec r1 r2); [subst; apply Z.compare_refl| |];
      [apply Z.compare_lt_iff|apply Z.compare_gt_iff]; lia.
  - apply Z.compare_lt_iff. lia.
  - apply Z.compare_gt_iff. lia.
Qed.

(** Fixed-width decimal numerals compare as the numbers they print, and the
    comparison goes on with what follows them. *)
Lemma compare_digits (w : nat) : ∀ (a b : Z) (sa sb : string),
  String.compare (digits w a +:+ sa) (digits w b +:+ sb)
  = match a mod 10 ^ Z.of_nat w ?= b mod 10 ^ Z.of_nat w with
    | Eq => String.compare sa sb
    | c => c
    end.
Proof.
  induction w as [|w IH]; intros a b sa sb.
  - simpl. by rewrite !Z.mod_1_r.
  - cbn [digits]. rewrite !append_assoc, !append_cons, !append_nil_l.
    rewrite IH. cbn [String.compare]. rewrite compare_digit.
    rewrite Nat2Z.inj_succ, Z.pow_succ_r by lia.
    rewrite !(Z.rem_mul_r _ 10 (10 ^ Z.of_nat w)) by lia.
    rewrite (Z.add_comm (a mod 10)), (Z.add_comm (b mod 10)).
    rewrite compare_lex by (apply Z.mod_pos_bound; lia).
    by destruct (_ ?= _).
Qed.
(** The steps of [civil], named: era, year of the era, day of the year
    (counted from 1 March) and month index (March is 0). *)
Lemma civil_steps (day : Z) :
  ∃ era yoe doy mp : Z,
    day + 719468 = era * 146097 + yearStart yoe + doy ∧
    0 ≤ yearStart yoe + doy < 146097 ∧
    0 ≤ yoe ≤ 399 ∧ 0 ≤ doy ≤ 365 ∧
    mp = (5 * doy + 2) / 153 ∧ 0 ≤ mp ≤ 11 ∧
    civil day =
      (yoe + era * 400 + (if mp <? 10 then 0 else 1),
       if mp <? 10 then mp + 3 else mp - 9,
       doy - (153 * mp + 2) / 5 + 1).
Proof.
  unfold civil. cbv zeta.
  set (z := day + 719468). set (era := z / 146097).
  set (doe := z - era * 146097).
  assert (0 ≤ doe < 146097) as Hdoe
    by (subst doe era; Z.div_mod_to_equations; lia).
  set (yoe := (doe - doe / 1460 + doe / 36524 - doe / 146096) / 365).
  assert (0 ≤ yoe ≤ 399 ∧ 0 ≤ doe - yearStart yoe ≤ 365) as [Hyoe Hdoy]
    by (unfold yearStart; subst yoe; clearbody doe; clear z era;
        Z.div_mod_to_equations; lia).
  fold (yearStart yoe). set (doy := doe - yearStart yoe) in *.
  set (mp := (5 * doy + 2) / 153).
  assert (0 ≤ mp ≤ 11) as Hmp
    by (subst mp; clearbody doy; Z.div_mod_to_equations; lia).
  exists era, yoe, doy, mp. repeat split; try lia.
  destruct (mp <? 10) eqn:Hlt.
  - replace (mp + 3 <=? 2) with false by (symmetry; apply Z.leb_gt; lia).
    reflexivity.
  - apply Z.ltb_ge in Hlt.
    replace (mp - 9 <=? 2) with true by (symmetry; apply Z.leb_le; lia).
    reflexivity.
Qed.

(** Months run from 1 to 12 and days of the month from 1 to 31. *)
Lemma civil_bounds (day : Z) :
  1 ≤ (civil day).1.2 ≤ 12 ∧ 1 ≤ (civil day).2 ≤ 31.
Proof.
  destruct (civil_steps day)
    as (era & yoe & doy & mp & _ & _ & _ & Hdoy & Hmp & Hmp' & ->).
  cbn [fst snd]. split; [destruct (mp <? 10) eqn:Hlt; lia|].
  subst mp. Z.div_mod_to_equations. lia.
Qed.

Lemma yearStart_monotone (a b : Z) :
  0 ≤ a → a < b → yearStart a + 365 ≤ yearStart b.
Proof. unfold yearStart. intros. Z.div_mod_to_equations. lia. Qed.

(** A later day has a later civil date. *)
Lemma civil_monotone (day day' : Z) :
  day < day' → dateKey (civil day) < dateKey (civil day').
Proof.
  intros Hlt.
  destruct (civil_steps day)
    as (era & yoe & doy & mp & Hday & Hdoe & Hyoe & Hdoy & Hmp & Hmp' & Hc).
  destruct (civil_steps day')
    as (era' & yoe' & doy' & mp' & Hday' & Hdoe' & Hyoe' & Hdoy' & Hmp1 & Hmp1'
        & Hc').
  pose proof (civil_bounds day) as [Hm Hd].
  pose proof (civil_bounds day') as [Hm' Hd'].
  rewrite Hc in Hm, Hd |- *. rewrite Hc' in Hm', Hd' |- *.
  unfold dateKey. cbn [fst snd] in *.
  set (d := doy - (153 * mp + 2) / 5 + 1) in *.
  set (d' := doy' - (153 * mp' + 2) / 5 + 1) in *.
  assert (era ≤ era') as Hera by lia.
  assert (era = era' → yoe ≤ yoe') as Hy.
  { intros ->. destruct (Z.le_gt_cases yoe yoe') as [|Hgt]; [done|].
    pose proof (yearStart_monotone yoe' yoe). lia. }
  assert (era = era' → yoe = yoe' → mp ≤ mp' ∧ (mp = mp' → d < d')) as Hmd.
  { intros -> ->. assert (doy < doy') by lia.
    subst d d' mp mp'. clear -H Hdoy Hdoy'. Z.div_mod_to_equations. lia. }
  clearbody d d'. clear Hmp Hmp1 Hday Hday' Hdoe Hdoe' Hlt Hc Hc'.
  destruct (mp <? 10) eqn:E1; destruct (mp' <? 10) eqn:E2;
    try apply Z.ltb_lt in E1; try apply Z.ltb_lt in E2;
    try apply Z.ltb_ge in E1; try apply Z.ltb_ge in E2.
  all: destruct (Z.eq_dec era era') as [->|];
    [destruct (Z.eq_dec yoe yoe') as [->|];
       [destruct Hmd as [? ?]; [done|done|];
        destruct (Z.eq_dec mp mp') as [->|]; [lia|lia]
       |specialize (Hy eq_refl); lia]
    |lia].
Qed.

(** The years printed with four digits. *)
Lemma civil_year (t : Z) :
  fourDigitYear t → 0 ≤ (civil (Day t)).1.1 ≤ 9999.
Proof.
  unfold fourDigitYear, Day, msPerDay. intros Ht.
  assert (-719528 ≤ t / 86400000 < 2932897) as Hday
    by (Z.div_mod_to_equations; lia).
  destruct (civil_steps (t / 86400000))
    as (era & yoe & doy & mp & Hd & Hdoe & Hyoe & Hdoy & Hmp & Hmp' & ->).
  cbn [fst snd].
  assert (-1 ≤ era ≤ 24) as Hera by lia.
  assert (era = -1 → yoe = 399 ∧ 10 ≤ mp) as Hlow.
  { intros ->. assert (yoe = 399) as ->.
    { destruct (Z.eq_dec yoe 399); [done|].
      pose proof (yearStart_monotone yoe 399). unfold yearStart in *.
      change (399 / 4) with 99 in *. change (399 / 100) with 3 in *. lia. }
    unfold yearStart in *.
    change (399 / 4) with 99 in *. change (399 / 100) with 3 in *.
    split; [done|]. subst mp. Z.div_mod_to_equations. lia. }
  assert (era = 24 → yoe = 399 → mp < 10) as Hhigh.
  { intros -> ->. unfold yearStart in *.
    change (399 / 4) with 99 in *. change (399 / 100) with 3 in *.
    subst mp. Z.div_mod_to_equations. lia. }
  destruct (mp <? 10) eqn:E; [apply Z.ltb_lt in E|apply Z.ltb_ge in E]; lia.
Qed.
Lemma compare_triple (y m d y' m' d' : Z) :
  0 ≤ m < 100 → 0 ≤ d < 100 → 0 ≤ m' < 100 → 0 ≤ d' < 100 →
  match y ?= y' with
  | Eq => match m ?= m' with Eq => d ?= d' | c => c end
  | c => c
  end = (dateKey (y, m, d) ?= dateKey (y', m', d')).
Proof.
  intros Hm Hd Hm' Hd'. unfold dateKey. cbn [fst snd]. symmetry.
  destruct (Z.compare_spec y y') as [->|?|?];
    [destruct (Z.compare_spec m m') as [->|?|?];
       [destruct (Z.compare_spec d d') as [->|?|?]|..]|..];
    first [apply Z.compare_eq_iff|apply Z.compare_lt_iff|apply Z.compare_gt_iff];
    lia.
Qed.

(** With four-digit years the date strings compare as the civil dates. *)
Lemma toISODate_compare (t1 t2 : Z) :
  fourDigitYear t1 → fourDigitYear t2 →
  String.compare (toISODate t1) (toISODate t2)
  = (dateKey (civil (Day t1)) ?= dateKey (civil (Day t2))).
Proof.
  intros H1 H2. unfold toISODate.
  pose proof (civil_year t1 H1) as Hy1. pose proof (civil_year t2 H2) as Hy2.
  pose proof (civil_bounds (Day t1)) as [Hm1 Hd1].
  pose proof (civil_bounds (Day t2)) as [Hm2 Hd2].
  destruct (civil (Day t1)) as [[y1 m1] d1].
  destruct (civil (Day t2)) as [[y2 m2] d2]. cbn [fst snd] in *.
  unfold isoYear.
  replace ((0 <=? y1) && (y1 <=? 9999)) with true
    by (symmetry; apply andb_true_intro; split; apply Z.leb_le; lia).
  replace ((0 <=? y2) && (y2 <=? 9999)) with true
    by (symmetry; apply andb_true_intro; split; apply Z.leb_le; lia).
  rewrite <- (append_nil_r (digits 2 d1)), <- (append_nil_r (digits 2 d2)).
  rewrite compare_digits, !append_cons, !append_nil_l.
  cbn [String.compare]. rewrite compare_digits.
  cbn [String.compare]. rewrite compare_digits.
  change (Ascii.compare "-" "-") with Eq. cbv iota.
  change (String.compare "" "") with Eq.
  rewrite !Z.mod_small by (change (10 ^ Z.of_nat 4) with 10000;
                           change (10 ^ Z.of_nat 2) with 100; lia).
  rewrite <- (compare_triple y1 m1 d1 y2 m2 d2) by lia.
  by repeat destruct (_ ?= _).
Qed.

Lemma append_nonempty (a b : string) (x : ascii) : a +:+ String x b ≠ "".
Proof. by destruct a. Qed.

(** A date string is never empty, hence truthy as a stored marker. *)
Lemma toISODate_truthy (t : Z) : truthy (Some (toISODate t)) = true.
Proof.
  unfold truthy, toISODate. destruct (civil (Day t)) as [[y m] d].
  apply negb_true_iff, String.eqb_neq.
  change ("-" +:+ digits 2 m +:+ "-" +:+ digits 2 d)
    with (String "-" (digits 2 m +:+ "-" +:+ digits 2 d)).
  apply append_nonempty.
Qed.

Lemma toISODate_days (t1 t2 : Z) :
  fourDigitYear t1 → fourDigitYear t2 →
  String.compare (toISODate t1) (toISODate t2) = (Day t1 ?= Day t2).
Proof.
  intros H1 H2. rewrite toISODate_compare by done.
  destruct (Z.compare_spec (Day t1) (Day t2)) as [->|Hlt|Hgt].
  - apply Z.compare_refl.
  - apply Z.compare_lt_iff. by apply civil_monotone.
  - apply Z.compare_gt_iff. by apply civil_monotone.
Qed.

Lemma isNewDocument_days (docDate other : Z) (todayDate : string) :
  fourDigitYear docDate → fourDigitYear other →
  isNewDocument docDate (Some (toISODate other)) todayDate
    = (Day other <? Day docDate)
  ∧ isNewDocument docDate None (toISODate other)
    = (Day other <=? Day docDate).
Proof.
  intros Hdoc Hother. unfold isNewDocument. rewrite toISODate_truthy.
  cbn [truthy default]. unfold str_gt, str_ge, String.ltb, String.leb.
  unfold default, from_option, id. rewrite !toISODate_days by done.
  unfold Z.ltb, Z.leb. by split.
Qed.

(** X1. For time values from year 0000 to year 9999 the date strings that
    [isNewDocument] and [getTodayDateKey] build compare, code unit by code
    unit, exactly as the UTC days of the time values compare. *)
Theorem toISODate_order (t1 t2 : Z) :
  fourDigitYear t1 → fourDigitYear t2 →
  String.compare (toISODate t1) (toISODate t2) = (Day t1 ?= Day t2).
Proof. apply toISODate_days. Qed.

Lemma toISODate_order_witness :
  String.compare (toISODate 1709251200000) (toISODate 1709337599999)
  = (Day 1709251200000 ?= Day 1709337599999).
Proof.
  apply (toISODate_order 1709251200000 1709337599999);
    unfold fourDigitYear; lia.
Defined.

(** X2. With a stored marker that is the date string of a time value, a
    document is new exactly when its UTC day is after the marker's day; with
    no marker, and today's date taken from the clock, exactly when its UTC
    day is not before today's.  All dates from year 0000 to year 9999. *)
Theorem isNewDocument_calendar (docDate other : Z) (todayDate : string) :
  fourDigitYear docDate → fourDigitYear other →
  isNewDocument docDate (Some (toISODate other)) todayDate
    = (Day other <? Day docDate)
  ∧ isNewDocument docDate None (toISODate other)
    = (Day other <=? Day docDate).
Proof. apply isNewDocument_days. Qed.

Lemma isNewDocument_calendar_witness :
  isNewDocument 1709337599999 (Some (toISODate 1709251200000)) "2024-03-05"
    = (Day 1709251200000 <? Day 1709337599999)
  ∧ isNewDocument 1709337599999 None (toISODate 1709251200000)
    = (Day 1709251200000 <=? Day 1709337599999).
Proof.
  apply (isNewDocument_calendar 1709337599999 1709251200000 "2024-03-05");
    unfold fourDigitYear; lia.
Defined.

(** A document dated in the last millisecond of a day and a marker taken
    in the first millisecond of the same day: not new. *)
Example isNewDocument_same_day :
  isNewDocument 1709337599999 (Some (toISODate 1709251200000)) "2024-03-05" = false.
Proof. vm_compute. reflexivity. Qed.

(** ** The adapters of [Googlecron.js] *)

Lemma head_descending (docs : list Document) (latest : Document) :
  descending docs → head docs = Some latest →
  Forall (λ d, date d ≤ date latest) docs.
Proof.
  destruct docs as [|d docs]; [done|]. intros Hdesc [= <-].
  by apply descending_head.
Qed.

Lemma fetchTrademarkDoc_run E app s :
  ∃ docs,
    Monitor.fetchAllTrademarkDocs E app s
      = (Normal docs, log [EFetch "Trademark" app] s) ∧
    Googlecron.fetchTrademarkDoc E app s
      = (Normal (head docs), log [EFetch "Trademark" app] s) ∧
    descending docs.
Proof.
  destruct (fetchAllTrademarkDocs_run E app s) as (docs & Hrun & Hdesc & _).
  exists docs. split; [done|]. split; [|done].
  revert Hrun. unfold Monitor.fetchAllTrademarkDocs, Googlecron.fetchTrademarkDoc,
    try_catch. rewrite bind_run.
  destruct (trademarkDocs E app s) as [[parsed|e] s1]; simpl.
  - by intros [= -> ->].
  - by intros [= <- ->].
Qed.

Lemma fetchPatentDoc_run E app s :
  ∃ docs,
    Monitor.fetchAllPatentDocs E app s
      = (Normal docs, log [EFetch "Patent" app] s) ∧
    Googlecron.fetchPatentDoc E app s
      = (Normal (head docs), log [EFetch "Patent" app] s) ∧
    descending docs.
Proof.
  destruct (fetchAllPatentDocs_run E app s) as (docs & Hrun & Hdesc & _).
  exists docs. split; [done|]. split; [|done].
  revert Hrun. unfold Monitor.fetchAllPatentDocs, Googlecron.fetchPatentDoc,
    try_catch. rewrite bind_run.
  destruct (patentDocs E app s) as [[parsed|e] s1]; simpl.
  - by intros [= -> ->].
  - by intros [= <- ->].
Qed.

(** X3. The adapters of [Googlecron.js] end normally, having made the one
    request, and hand over the first document of what the adapters of the
    monitor return for the same answer of the registry, [null] when that
    list is empty; no document of the list is dated after the one handed
    over. *)
Theorem googlecron_adapter_latest (E : Env) (applicationNumber : string)
    (s : Store) :
  (∃ docs,
     Monitor.fetchAllTrademarkDocs E applicationNumber s
       = (Normal docs, log [EFetch "Trademark" applicationNumber] s) ∧
     Googlecron.fetchTrademarkDoc E applicationNumber s
       = (Normal (head docs), log [EFetch "Trademark" applicationNumber] s) ∧
     ∀ latest, head docs = Some latest →
       Forall (λ d, date d ≤ date latest) docs) ∧
  (∃ docs,
     Monitor.fetchAllPatentDocs E applicationNumber s
       = (Normal docs, log [EFetch "Patent" applicationNumber] s) ∧
     Googlecron.fetchPatentDoc E applicationNumber s
       = (Normal (head docs), log [EFetch "Patent" applicationNumber] s) ∧
     ∀ latest, head docs = Some latest →
       Forall (λ d, date d ≤ date latest) docs).
Proof.
  split.
  - destruct (fetchTrademarkDoc_run E applicationNumber s)
      as (docs & Hall & Hone & Hdesc).
    exists docs. repeat split; [done..|]. intros latest. by apply head_descending.
  - destruct (fetchPatentDoc_run E applicationNumber s)
      as (docs & Hall & Hone & Hdesc).
    exists docs. repeat split; [done..|]. intros latest. by apply head_descending.
Qed.

(** In the sample world the latest of the three dated documents is handed
    over. *)
Example googlecron_adapter_sample :
  outcome (Googlecron.fetchTrademarkDoc sampleEnv "12345") = Normal (Some noticeDoc) ∧
  outcome (Googlecron.fetchTrademarkDoc sampleEnv "99999") = Normal None.
Proof. vm_compute. split; reflexivity. Qed.

(** ** One run of [Googlecron.processMatter] *)

(** The registry calls of [fetchByType], by the type of the matter. *)
Lemma googlecron_fetchByType_run E m s :
  Googlecron.fetchByType E m s
  = (outcome (Googlecron.fetchByType E m),
     log (emitted (Googlecron.fetchByType E m)) s).
Proof. apply observer_run, GooglecronFacts.googlecron_observer_fetchByType. Qed.

Lemma googlecron_upload_run E app doc s :
  ∃ doc',
    Googlecron.downloadAndUploadToDrive E app doc s
      = (Normal doc', log (if noLink doc then [] else [EUpload app doc]) s) ∧
    date doc' = date doc ∧ description doc' = description doc ∧
    link doc' = link doc ∧
    (driveLink doc' = driveLink doc ∨
     noLink doc = false ∧ driveLink doc' = drive E app doc).
Proof.
  unfold Googlecron.downloadAndUploadToDrive, noLink.
  destruct (String.eqb (link doc) "" || String.eqb (link doc) "N/A").
  - exists doc. rewrite log_nil. unfold ret. repeat split; by left.
  - unfold try_catch. rewrite bind_run. cbn [emit modify fst snd].
    destruct (drive E app doc) as [webViewLink|] eqn:Hdrive.
    + eexists. split; [reflexivity|]. cbn. repeat split; by right.
    + exists doc. split; [reflexivity|]. repeat split; by left.
Qed.

Lemma googlecron_mail_run E app doc s :
  Googlecron.sendEmailNotification E app doc s
  = (Normal tt, log [EMail app doc] s).
Proof.
  unfold Googlecron.sendEmailNotification, try_catch.
  rewrite bind_run. cbn. by destruct (mailer E app doc).
Qed.

Lemma updateLawmaticsProspect_run E id app doc s :
  updateLawmaticsProspect E id app doc s
  = (Normal tt, log [ECrmPut id app doc] s).
Proof.
  unfold updateLawmaticsProspect, try_catch.
  rewrite bind_run. cbn. by destruct (crm_put E app doc).
Qed.

Lemma getProspect_run E id s :
  getProspect E id s = (Normal (crm_get E id), log [ECrmGet id] s).
Proof. reflexivity. Qed.

Lemma googlecron_form_run E id app doc s :
  ∃ c,
    Googlecron.submitFormWithPuppeteer E id app doc s
      = (c, log [EForm id app doc] s) ∧
    if closeThrows (browser E id doc)
    then ∃ e, c = Throw e
    else c = Normal tt.
Proof.
  unfold Googlecron.submitFormWithPuppeteer, try_finally, try_catch.
  rewrite bind_run. cbn [emit modify fst snd].
  destruct (browser E id doc); cbn; eauto.
Qed.

Lemma googlecron_pipeline_run (E : Env) (matter : Matter) (todayDate : string)
    (s : Store) (doc : Document) :
  let app := applicationNumber matter in
  let id := lawmaticsID matter in
  outcome (Googlecron.fetchByType E matter) = Normal (Some (Some doc)) →
  isNewDocument (date doc) (lastProcessedState s !! app) todayDate = true →
  ∃ doc',
    outcome (Googlecron.downloadAndUploadToDrive E app doc) = Normal doc' ∧
    date doc' = date doc ∧ link doc' = link doc ∧
    let events :=
      EProcessing app :: emitted (Googlecron.fetchByType E matter)
        ++ (if noLink doc then [] else [EUpload app doc])
        ++ [EMail app doc'; ECrmPut id app doc'; ECrmGet id]
        ++ (if crm_get E id then [EForm id app doc'] else []) in
    if crm_get E id && closeThrows (browser E id doc')
    then ∃ e, Googlecron.processMatter E matter todayDate s
              = (Throw e, log events s)
    else Googlecron.processMatter E matter todayDate s
         = (Normal (Googlecron.mkResult true None (Some (date doc))),
            set_lastProcessedState (<[app := toISODate (date doc)]>)
              (log events s)).
Proof.
  intros app id Hfetch Hnew.
  destruct (googlecron_upload_run E app doc blank)
    as (doc' & Hup & Hdate & _ & Hlink & _).
  exists doc'. split; [unfold outcome; by rewrite Hup|].
  split; [done|]. split; [done|]. cbv zeta.
  assert (Googlecron.processMatter E matter todayDate s
          = ((if crm_get E id
              then Googlecron.submitFormWithPuppeteer E id app doc'
              else ret tt) >>
             modify (set_lastProcessedState (<[app := toISODate (date doc)]>)) >>
             ret (Googlecron.mkResult true None (Some (date doc))))
              (log (EProcessing app :: emitted (Googlecron.fetchByType E matter)
                      ++ (if noLink doc then [] else [EUpload app doc])
                      ++ [EMail app doc'; ECrmPut id app doc'; ECrmGet id]) s))
    as ->.
  { unfold Googlecron.processMatter. fold app id.
    rewrite bind_run. cbn [emit modify fst snd].
    rewrite bind_run, googlecron_fetchByType_run, Hfetch, log_log.
    rewrite bind_run. unfold gets at 1. cbn [fst snd lastProcessedState log].
    rewrite Hnew. cbn [negb].
    rewrite bind_run.
    rewrite (observer_run _
      (GooglecronFacts.googlecron_observer_downloadAndUploadToDrive E app doc)).
    assert (outcome (Googlecron.downloadAndUploadToDrive E app doc) = Normal doc')
      as Hout by (unfold outcome; by rewrite Hup).
    assert (emitted (Googlecron.downloadAndUploadToDrive E app doc)
            = (if noLink doc then [] else [EUpload app doc])) as Hev
      by (unfold emitted; by rewrite Hup).
    rewrite Hout.
    rewrite Hev, log_log.
    rewrite bind_run, googlecron_mail_run, log_log.
    rewrite bind_run, updateLawmaticsProspect_run, log_log.
    rewrite bind_run, getProspect_run, log_log.
    rewrite Hdate, <- !app_assoc. reflexivity. }
  rewrite bind_run.
  destruct (crm_get E id); cbn [andb].
  - match goal with |- context [Googlecron.submitFormWithPuppeteer E id app doc' ?s1] =>
      destruct (googlecron_form_run E id app doc' s1) as (c & -> & Hc)
    end.
    rewrite log_log. cbn [List.app]. rewrite <- !app_assoc. cbn [List.app].
    destruct (closeThrows (browser E id doc')).
    + destruct Hc as [e ->]. by exists e.
    + subst c. rewrite bind_run. reflexivity.
  - cbn [ret]. rewrite bind_run. cbn [modify fst snd ret].
    rewrite app_nil_r. reflexivity.
Qed.

(** X4. When the document handed over by the adapter is new,
    [Googlecron.processMatter] goes through the whole pipeline in one
    order, whatever the drive, the mail service and the CRM answer: the
    upload (unless the document has no link), one notification, the update
    of the prospect, the reading of the prospect and, when the prospect is
    found, the form.  It throws exactly when the form was started and
    closing the browser failed; then the marker is not written although the
    notification went out.  In every other case it reports a processed
    document and sets the marker to the date string of the document. *)
Theorem googlecron_pipeline (E : Env) (matter : Matter) (todayDate : string)
    (s : Store) (doc : Document) :
  let app := applicationNumber matter in
  let id := lawmaticsID matter in
  outcome (Googlecron.fetchByType E matter) = Normal (Some (Some doc)) →
  isNewDocument (date doc) (lastProcessedState s !! app) todayDate = true →
  ∃ doc',
    outcome (Googlecron.downloadAndUploadToDrive E app doc) = Normal doc' ∧
    date doc' = date doc ∧ link doc' = link doc ∧
    let events :=
      EProcessing app :: emitted (Googlecron.fetchByType E matter)
        ++ (if noLink doc then [] else [EUpload app doc])
        ++ [EMail app doc'; ECrmPut id app doc'; ECrmGet id]
        ++ (if crm_get E id then [EForm id app doc'] else []) in
    if crm_get E id && closeThrows (browser E id doc')
    then ∃ e, Googlecron.processMatter E matter todayDate s
              = (Throw e, log events s)
    else Googlecron.processMatter E matter todayDate s
         = (Normal (Googlecron.mkResult true None (Some (date doc))),
            set_lastProcessedState (<[app := toISODate (date doc)]>)
              (log events s)).
Proof. apply googlecron_pipeline_run. Qed.

Lemma googlecron_pipeline_witness :
  ∃ doc',
    outcome (Googlecron.downloadAndUploadToDrive sampleEnv "12345" noticeDoc)
      = Normal doc' ∧
    date doc' = date noticeDoc ∧ link doc' = link noticeDoc ∧
    let events :=
      EProcessing "12345" :: emitted (Googlecron.fetchByType sampleEnv trademarkMatter)
        ++ (if noLink noticeDoc then [] else [EUpload "12345" noticeDoc])
        ++ [EMail "12345" doc'; ECrmPut "L-1" "12345" doc'; ECrmGet "L-1"]
        ++ (if crm_get sampleEnv "L-1" then [EForm "L-1" "12345" doc'] else []) in
    if crm_get sampleEnv "L-1" && closeThrows (browser sampleEnv "L-1" doc')
    then ∃ e, Googlecron.processMatter sampleEnv trademarkMatter "2024-03-01" sampleStore
              = (Throw e, log events sampleStore)
    else Googlecron.processMatter sampleEnv trademarkMatter "2024-03-01" sampleStore
         = (Normal (Googlecron.mkResult true None (Some (date noticeDoc))),
            set_lastProcessedState (<["12345" := toISODate (date noticeDoc)]>)
              (log events sampleStore)).
Proof.
  apply (googlecron_pipeline sampleEnv trademarkMatter "2024-03-01" sampleStore
           noticeDoc).
  - vm_compute. reflexivity.
  - vm_compute. reflexivity.
Defined.

(** ** The order of strings *)

Lemma ascii_compare_N (x y : ascii) :
  Ascii.compare x y = (N_of_ascii x ?= N_of_ascii y)%N.
Proof. reflexivity. Qed.

Lemma compare_lt_trans (a : string) : ∀ b c : string,
  String.compare a b = Lt → String.compare b c = Lt → String.compare a c = Lt.
Proof.
  induction a as [|x a IH]; intros [|y b] [|z c]; simpl; try done.
  rewrite !ascii_compare_N.
  destruct (N.compare_spec (N_of_ascii x) (N_of_ascii y)) as [Hxy|Hxy|Hxy];
    destruct (N.compare_spec (N_of_ascii y) (N_of_ascii z)) as [Hyz|Hyz|Hyz];
    try done; intros Hab Hbc.
  - rewrite Hxy, Hyz, N.compare_refl in *. by eapply IH.
  - rewrite Hxy. by apply N.compare_lt_iff in Hyz as ->.
  - rewrite <- Hyz. by apply N.compare_lt_iff in Hxy as ->.
  - assert (N_of_ascii x < N_of_ascii z)%N as Hxz by lia.
    by apply N.compare_lt_iff in Hxz as ->.
Qed.

Lemma compare_le_lt_trans (a b c : string) :
  String.compare a b ≠ Gt → String.compare b c = Lt → String.compare a c = Lt.
Proof.
  intros Hab Hbc. destruct (String.compare a b) eqn:Hcmp; [|by eapply compare_lt_trans|done].
  by apply String.compare_eq_iff in Hcmp as ->.
Qed.

Lemma compare_lt_le_trans (a b c : string) :
  String.compare a b = Lt → String.compare b c ≠ Gt → String.compare a c = Lt.
Proof.
  intros Hab Hbc. destruct (String.compare b c) eqn:Hcmp; [|by eapply compare_lt_trans|done].
  by apply String.compare_eq_iff in Hcmp as <-.
Qed.

Lemma leb_trans (a b c : string) :
  String.leb a b = true → String.leb b c = true → String.leb a c = true.
Proof.
  unfold String.leb. intros Hab Hbc.
  destruct (String.compare a b) eqn:H1; [| |done].
  - by apply String.compare_eq_iff in H1 as ->.
  - destruct (String.compare b c) eqn:H2; [| |done].
    + apply String.compare_eq_iff in H2 as <-. by rewrite H1.
    + by rewrite (compare_lt_trans a b c).
Qed.

(** ** Runs that find nothing new *)

Lemma monitor_fetchByType_run E m s :
  Monitor.fetchByType E m s
  = (outcome (Monitor.fetchByType E m), log (emitted (Monitor.fetchByType E m)) s).
Proof. apply observer_run, MonitorFacts.monitor_observer_fetchByType. Qed.

(** The one request of [fetchByType], by the type of the matter. *)
Lemma monitor_fetchByType_emitted E m :
  emitted (Monitor.fetchByType E m)
  = if String.eqb (type m) "Patent" then [EFetch "Patent" (applicationNumber m)]
    else if String.eqb (type m) "Trademark"
         then [EFetch "Trademark" (applicationNumber m)]
         else [].
Proof.
  unfold emitted, Monitor.fetchByType.
  destruct (fetchAllTrademarkDocs_run E (applicationNumber m) blank)
    as (tm & Htm & _).
  destruct (fetchAllPatentDocs_run E (applicationNumber m) blank)
    as (pt & Hpt & _).
  destruct (String.eqb (type m) "Patent").
  - by rewrite bind_run, Hpt.
  - destruct (String.eqb (type m) "Trademark"); [|done].
    by rewrite bind_run, Htm.
Qed.

Lemma googlecron_fetchByType_emitted E m :
  emitted (Googlecron.fetchByType E m)
  = if String.eqb (type m) "Patent" then [EFetch "Patent" (applicationNumber m)]
    else if String.eqb (type m) "Trademark"
         then [EFetch "Trademark" (applicationNumber m)]
         else [].
Proof.
  unfold emitted, Googlecron.fetchByType.
  destruct (fetchTrademarkDoc_run E (applicationNumber m) blank)
    as (tm & _ & Htm & _).
  destruct (fetchPatentDoc_run E (applicationNumber m) blank)
    as (pt & _ & Hpt & _).
  destruct (String.eqb (type m) "Patent").
  - by rewrite bind_run, Hpt.
  - destruct (String.eqb (type m) "Trademark"); [|done].
    by rewrite bind_run, Htm.
Qed.

Lemma googlecron_fetchByType_normal E m :
  ∃ fetched, outcome (Googlecron.fetchByType E m) = Normal fetched.
Proof.
  unfold outcome, Googlecron.fetchByType.
  destruct (fetchTrademarkDoc_run E (applicationNumber m) blank)
    as (tm & _ & Htm & _).
  destruct (fetchPatentDoc_run E (applicationNumber m) blank)
    as (pt & _ & Hpt & _).
  destruct (String.eqb (type m) "Patent").
  - rewrite bind_run, Hpt. by eexists.
  - destruct (String.eqb (type m) "Trademark"); [|by eexists].
    rewrite bind_run, Htm. by eexists.
Qed.

Lemma monitor_fetchByType_normal E m :
  ∃ fetched, outcome (Monitor.fetchByType E m) = Normal fetched.
Proof.
  unfold outcome, Monitor.fetchByType.
  destruct (fetchAllTrademarkDocs_run E (applicationNumber m) blank)
    as (tm & Htm & _).
  destruct (fetchAllPatentDocs_run E (applicationNumber m) blank)
    as (pt & Hpt & _).
  destruct (String.eqb (type m) "Patent").
  - rewrite bind_run, Hpt. by eexists.
  - destruct (String.eqb (type m) "Trademark"); [|by eexists].
    rewrite bind_run, Htm. by eexists.
Qed.

Lemma googlecron_fetchByType_mailed E m :
  mailed (emitted (Googlecron.fetchByType E m)) = [].
Proof.
  rewrite googlecron_fetchByType_emitted.
  by repeat destruct (String.eqb _ _).
Qed.

Lemma newDocsOf_nil last today docs :
  Forall (λ doc, isNewDocument (date doc) last today = false) docs →
  Monitor.newDocsOf last today docs = [].
Proof.
  unfold Monitor.newDocsOf. induction 1 as [|d docs Hd _ IH]; [done|].
  simpl. by rewrite Hd.
Qed.

(** [Monitor.processMatter] when the filter keeps no document. *)
Lemma monitor_processMatter_quiet E m today s fetched :
  outcome (Monitor.fetchByType E m) = Normal fetched →
  match fetched with
  | Some allDocs =>
      Monitor.newDocsOf (lastProcessedState s !! applicationNumber m) today allDocs = []
  | None => True
  end →
  ∃ r,
    Monitor.processMatter E m today s
      = (Normal r,
         log (EProcessing (applicationNumber m) :: emitted (Monitor.fetchByType E m)) s) ∧
    Monitor.processed r = false ∧
    Monitor.docCount r = 0%nat ∧
    Monitor.reason r
      = Some (match fetched with
              | None => "unknown_type"
              | Some [] => "no_documents"
              | Some (_ :: _) => "not_new"
              end).
Proof.
  intros Hfetch Hquiet. unfold Monitor.processMatter.
  rewrite bind_run. cbn [emit modify fst snd].
  rewrite bind_run, monitor_fetchByType_run, Hfetch, log_log.
  destruct fetched as [allDocs|]; [|by eexists].
  destruct allDocs as [|d allDocs]; [by eexists|].
  cbn [length Nat.eqb].
  rewrite bind_run. unfold gets at 1. cbn [fst snd lastProcessedState log].
  rewrite Hquiet. by eexists.
Qed.

(** [Googlecron.processMatter] when there is no new document. *)
Lemma googlecron_processMatter_quiet E m today s fetched :
  outcome (Googlecron.fetchByType E m) = Normal fetched →
  match fetched with
  | Some (Some doc) =>
      isNewDocument (date doc) (lastProcessedState s !! applicationNumber m) today
        = false
  | _ => True
  end →
  Googlecron.processMatter E m today s
  = (Normal (Googlecron.mkResult false
               (Some (match fetched with
                      | None => "unknown_type"
                      | Some None => "no_documents"
                      | Some (Some _) => "not_new"
                      end))
               (match fetched with
                | Some (Some doc) => Some (date doc)
                | _ => None
                end)),
     log (EProcessing (applicationNumber m) :: emitted (Googlecron.fetchByType E m)) s).
Proof.
  intros Hfetch Hquiet. unfold Googlecron.processMatter.
  rewrite bind_run. cbn [emit modify fst snd].
  rewrite bind_run, googlecron_fetchByType_run, Hfetch, log_log.
  destruct fetched as [[doc|]|]; [|done..].
  rewrite bind_run. unfold gets at 1. cbn [fst snd lastProcessedState log].
  by rewrite Hquiet.
Qed.

(** X5. When the registry has nothing new for a matter (unknown type, no
    dated document, or no document that passes the novelty filter), both
    implementations of [processMatter] end normally, report that nothing
    was processed, make no call but the one request to the registry and
    leave the rest of the store, the processed state included, as it
    was. *)
Theorem processMatter_quiet (E : Env) (matter : Matter) (todayDate : string)
    (s : Store) :
  let app := applicationNumber matter in
  let last := lastProcessedState s !! app in
  (∀ fetched,
     outcome (Monitor.fetchByType E matter) = Normal fetched →
     match fetched with
     | Some allDocs =>
         Forall (λ doc, isNewDocument (date doc) last todayDate = false) allDocs
     | None => True
     end →
     ∃ r request,
       Monitor.processMatter E matter todayDate s
         = (Normal r, log (EProcessing app :: request) s) ∧
       Monitor.processed r = false ∧ Monitor.docCount r = 0%nat ∧
       (request = [] ∨ ∃ type, request = [EFetch type app])) ∧
  (∀ fetched,
     outcome (Googlecron.fetchByType E matter) = Normal fetched →
     match fetched with
     | Some (Some doc) => isNewDocument (date doc) last todayDate = false
     | _ => True
     end →
     ∃ r request,
       Googlecron.processMatter E matter todayDate s
         = (Normal r, log (EProcessing app :: request) s) ∧
       Googlecron.processed r = false ∧
       (request = [] ∨ ∃ type, request = [EFetch type app])).
Proof.
  intros app last. split; intros fetched Hfetch Hquiet.
  - destruct (monitor_processMatter_quiet E matter todayDate s fetched Hfetch)
      as (r & Hrun & Hproc & Hcount & _).
    { destruct fetched as [allDocs|]; [|done]. by apply newDocsOf_nil. }
    exists r, (emitted (Monitor.fetchByType E matter)).
    split; [done|]. split; [done|]. split; [done|].
    rewrite monitor_fetchByType_emitted.
    repeat destruct (String.eqb _ _); eauto.
  - eexists _, (emitted (Googlecron.fetchByType E matter)).
    split; [by apply googlecron_processMatter_quiet|].
    split; [done|].
    rewrite googlecron_fetchByType_emitted.
    repeat destruct (String.eqb _ _); eauto.
Qed.

Lemma processMatter_quiet_witness :
  (∃ r request,
     Monitor.processMatter sampleEnv trademarkMatter "2024-03-05" sampleStore
       = (Normal r, log (EProcessing "12345" :: request) sampleStore) ∧
     Monitor.processed r = false ∧ Monitor.docCount r = 0%nat ∧
     (request = [] ∨ ∃ type, request = [EFetch type "12345"])) ∧
  (∃ r request,
     Googlecron.processMatter sampleEnv trademarkMatter "2024-03-05" sampleStore
       = (Normal r, log (EProcessing "12345" :: request) sampleStore) ∧
     Googlecron.processed r = false ∧
     (request = [] ∨ ∃ type, request = [EFetch type "12345"])).
Proof.
  split.
  - apply (proj1 (processMatter_quiet sampleEnv trademarkMatter "2024-03-05"
                    sampleStore)
             (Some [noticeDoc; actionDoc; applicationDoc])).
    + vm_compute. reflexivity.
    + repeat constructor.
  - apply (proj2 (processMatter_quiet sampleEnv trademarkMatter "2024-03-05"
                    sampleStore)
             (Some (Some noticeDoc))).
    + vm_compute. reflexivity.
    + vm_compute. reflexivity.
Defined.

(** ** A processed document is not processed again *)

Lemma googlecron_processMatter_normal E m today s r s' :
  Googlecron.processMatter E m today s = (Normal r, s') →
  Googlecron.processed r = true →
  ∃ doc events,
    outcome (Googlecron.fetchByType E m) = Normal (Some (Some doc)) ∧
    Googlecron.docDate r = Some (date doc) ∧
    s' = set_lastProcessedState (<[applicationNumber m := toISODate (date doc)]>)
           (log events s).
Proof.
  intros Hrun Hproc.
  destruct (googlecron_fetchByType_normal E m) as [fetched Hfetch].
  destruct fetched as [[doc|]|];
    try (rewrite (googlecron_processMatter_quiet E m today s _ Hfetch I) in Hrun;
         injection Hrun as <- _; done).
  destruct (isNewDocument (date doc) (lastProcessedState s !! applicationNumber m) today)
    eqn:Hnew.
  - destruct (googlecron_pipeline_run E m today s doc Hfetch Hnew)
      as (doc' & _ & _ & _ & Hcases).
    cbv zeta in Hcases.
    destruct (crm_get E (lawmaticsID m) && closeThrows (browser E (lawmaticsID m) doc')).
    + destruct Hcases as [e He]. congruence.
    + rewrite Hcases in Hrun. injection Hrun as <- <-. eauto.
  - rewrite (googlecron_processMatter_quiet E m today s _ Hfetch Hnew) in Hrun.
    injection Hrun as <- _. done.
Qed.

Lemma isNewDocument_self (t : Z) (today : string) :
  isNewDocument t (Some (toISODate t)) today = false.
Proof.
  unfold isNewDocument. rewrite toISODate_truthy. cbn [default from_option id].
  unfold str_gt, String.ltb. by rewrite compare_refl.
Qed.

(** X6. After a run of [Googlecron.processMatter] that reported a processed
    document, a further run with the same answers of the outside world
    finds nothing new, whatever the date of that run: it reports "not_new",
    makes the request to the registry and no other call, and sends no
    notification. *)
Theorem googlecron_processed_once (E : Env) (matter : Matter)
    (todayDate laterDate : string) (s s' : Store) (r : Googlecron.Result) :
  Googlecron.processMatter E matter todayDate s = (Normal r, s') →
  Googlecron.processed r = true →
  let events :=
    EProcessing (applicationNumber matter) :: emitted (Googlecron.fetchByType E matter) in
  Googlecron.processMatter E matter laterDate s'
    = (Normal (Googlecron.mkResult false (Some "not_new") (Googlecron.docDate r)),
       log events s') ∧
  mailed events = [].
Proof.
  intros Hrun Hproc events.
  destruct (googlecron_processMatter_normal E matter todayDate s r s' Hrun Hproc)
    as (doc & ev & Hfetch & Hdate & ->).
  split.
  - rewrite (googlecron_processMatter_quiet E matter laterDate _ _ Hfetch).
    + by rewrite Hdate.
    + cbn [lastProcessedState set_lastProcessedState log].
      rewrite lookup_insert_eq. apply isNewDocument_self.
  - unfold events. change (mailed (emitted (Googlecron.fetchByType E matter)) = []).
    apply googlecron_fetchByType_mailed.
Qed.

Lemma googlecron_processed_once_witness :
  let s' := (Googlecron.processMatter sampleEnv trademarkMatter "2024-03-01"
               sampleStore).2 in
  let events :=
    EProcessing "12345" :: emitted (Googlecron.fetchByType sampleEnv trademarkMatter) in
  Googlecron.processMatter sampleEnv trademarkMatter "2024-03-02" s'
    = (Normal (Googlecron.mkResult false (Some "not_new") (Some 1709305200000)),
       log events s') ∧
  mailed events = [].
Proof.
  apply (googlecron_processed_once sampleEnv trademarkMatter "2024-03-01"
           "2024-03-02" sampleStore _
           (Googlecron.mkResult true None (Some 1709305200000))).
  - vm_compute. reflexivity.
  - reflexivity.
Defined.

(** The loop over the documents of the latest date: one notification for
    every pipeline that was started, and the count of those that ended. *)
Lemma pipeline_loop E m ty docs : ∀ n s,
  ∃ c events,
    for_of (λ totalProcessed document,
              Monitor.processSingleDocument E m document ty >>
              ret (S totalProcessed)) n docs s
      = (c, log events s) ∧
    Forall external events ∧
    ∀ n', c = Normal n' →
      n' = (n + length docs)%nat ∧ length (mailed events) = length docs.
Proof.
  induction docs as [|d docs IH]; intros n s.
  - exists (Normal n), []. rewrite log_nil. split; [done|]. split; [constructor|].
    intros n' [= <-]. by rewrite Nat.add_0_r.
  - cbn [for_of]. rewrite bind_run, bind_run.
    pose proof (MonitorFacts.monitor_observer_processSingleDocument E m d ty) as Hobs.
    rewrite (observer_run _ Hobs).
    pose proof (observer_external _ Hobs) as Hext.
    destruct (processSingleDocument_mailed E m d ty) as (d' & Hmail & _).
    destruct (outcome (Monitor.processSingleDocument E m d ty)) as [[]|e].
    + cbn [ret fst snd].
      destruct (IH (S n) (log (emitted (Monitor.processSingleDocument E m d ty)) s))
        as (c & events & -> & Hext' & Hc).
      exists c, (emitted (Monitor.processSingleDocument E m d ty) ++ events).
      rewrite log_log. split; [done|]. split; [by apply Forall_app_2|].
      intros n' Hn'. destruct (Hc n' Hn') as [-> Hlen].
      rewrite mailed_app, length_app, Hmail, Hlen. cbn [length]. split; lia.
    + exists (Throw e), (emitted (Monitor.processSingleDocument E m d ty)).
      split; [done|]. split; [done|]. intros n' [=].
Qed.

(** What [Monitor.processMatter] has done when it reports a processed
    document. *)
Lemma monitor_processMatter_normal E m today s r s' :
  Monitor.processMatter E m today s = (Normal r, s') →
  Monitor.processed r = true →
  ∃ allDocs newest rest events,
    outcome (Monitor.fetchByType E m) = Normal (Some allDocs) ∧
    Monitor.newDocsOf (lastProcessedState s !! applicationNumber m) today allDocs
      = newest :: rest ∧
    s' = set_lastProcessedState (<[applicationNumber m := toISODate (date newest)]>)
           (log events s).
Proof.
  intros Hrun Hproc.
  destruct (monitor_fetchByType_normal E m) as [fetched Hfetch].
  destruct fetched as [allDocs|]; last first.
  { destruct (monitor_processMatter_quiet E m today s None Hfetch I)
      as (r0 & Hrun0 & Hproc0 & _). congruence. }
  destruct (Monitor.newDocsOf (lastProcessedState s !! applicationNumber m) today allDocs)
    as [|newest rest] eqn:Hnew.
  { destruct (monitor_processMatter_quiet E m today s (Some allDocs) Hfetch Hnew)
      as (r0 & Hrun0 & Hproc0 & _). congruence. }
  exists allDocs, newest, rest.
  revert Hrun. unfold Monitor.processMatter.
  rewrite bind_run. cbn [emit modify fst snd].
  rewrite bind_run, monitor_fetchByType_run, Hfetch, log_log.
  assert (Hlen : (length allDocs =? 0)%nat = false)
    by (clear -Hnew; by destruct allDocs).
  rewrite Hlen.
  rewrite bind_run. unfold gets at 1. cbn [fst snd lastProcessedState log].
  rewrite Hnew. rewrite bind_run.
  set (batch := Monitor.latestDateDocsOf _ _).
  match goal with |- context [for_of ?body 0%nat batch ?s1] =>
    destruct (pipeline_loop E m (type m) batch 0%nat s1)
      as (c & events & -> & _ & _)
  end.
  rewrite log_log. destruct c as [n|e]; cbn [fst snd]; [|done].
  rewrite bind_run. cbn [modify fst snd ret].
  intros [= _ <-]. eauto.
Qed.

(** A document that the filter rejected when it kept [newest] is printed
    before [newest]. *)
Lemma isNewDocument_separates (t newest : Z) (last : option string) (today : string) :
  isNewDocument t last today = false →
  isNewDocument newest last today = true →
  String.compare (toISODate t) (toISODate newest) = Lt.
Proof.
  unfold isNewDocument, str_gt, str_ge, String.ltb, String.leb.
  destruct (truthy last).
  - set (marker := default "" last).
    intros Hold Hnew.
    apply (compare_le_lt_trans _ marker).
    + rewrite String.compare_antisym. by destruct (String.compare marker (toISODate t)).
    + by destruct (String.compare marker (toISODate newest)).
  - intros Hold Hnew.
    apply (compare_lt_le_trans _ today).
    + rewrite String.compare_antisym. by destruct (String.compare today (toISODate t)).
    + by destruct (String.compare today (toISODate newest)).
Qed.

Lemma Day_monotone (t1 t2 : Z) : t1 ≤ t2 → Day t1 ≤ Day t2.
Proof. unfold Day, msPerDay. intros. by apply Z.div_le_mono. Qed.

(** X7. After a run of [Monitor.processMatter] that reported processed
    documents, a further run with the same answers of the outside world
    finds nothing new, whatever the date of that run: it reports "not_new",
    makes the request to the registry and no other call, and sends no
    notification.  The documents of the registry are dated from year 0000
    to year 9999. *)
Theorem monitor_processed_once (E : Env) (matter : Matter)
    (todayDate laterDate : string) (s s' : Store) (r : Monitor.Result)
    (allDocs : list Document) :
  outcome (Monitor.fetchByType E matter) = Normal (Some allDocs) →
  Forall (λ doc, fourDigitYear (date doc)) allDocs →
  Monitor.processMatter E matter todayDate s = (Normal r, s') →
  Monitor.processed r = true →
  let events :=
    EProcessing (applicationNumber matter) :: emitted (Monitor.fetchByType E matter) in
  ∃ r',
    Monitor.processMatter E matter laterDate s' = (Normal r', log events s') ∧
    Monitor.processed r' = false ∧
    Monitor.reason r' = Some "not_new" ∧
    mailed events = [].
Proof.
  intros Hfetch Hyears Hrun Hproc events.
  destruct (monitor_processMatter_normal E matter todayDate s r s' Hrun Hproc)
    as (allDocs' & newest & rest & ev & Hfetch' & Hnew & ->).
  assert (allDocs' = allDocs) as -> by congruence.
  set (last := lastProcessedState s !! applicationNumber matter) in *.
  assert (Hin : In newest allDocs ∧ isNewDocument (date newest) last todayDate = true).
  { apply (proj1 (filter_In (λ doc, isNewDocument (date doc) last todayDate)
                      newest allDocs)).
    unfold Monitor.newDocsOf in Hnew. rewrite Hnew. by left. }
  destruct Hin as [Hin Hnewest].
  rewrite List.Forall_forall in Hyears.
  assert (Hsettled : Forall (λ doc, isNewDocument (date doc)
                        (Some (toISODate (date newest))) laterDate = false) allDocs).
  { apply List.Forall_forall. intros d Hd.
    destruct (isNewDocument_days (date d) (date newest) laterDate) as [-> _];
      [by apply Hyears..|].
    apply Z.ltb_ge.
    destruct (isNewDocument (date d) last todayDate) eqn:Hdnew.
    - apply Day_monotone.
      assert (Hall : Forall (λ d, date d ≤ date newest)
                       (Monitor.newDocsOf last todayDate allDocs)).
      { rewrite Hnew. apply descending_head. rewrite <- Hnew.
        apply descending_filter. by eapply fetchByType_descending. }
      rewrite List.Forall_forall in Hall. apply Hall.
      apply (proj2 (filter_In (λ doc, isNewDocument (date doc) last todayDate)
                      d allDocs)). by split.
    - pose proof (isNewDocument_separates _ _ _ _ Hdnew Hnewest) as Hlt.
      rewrite toISODate_days in Hlt by (by apply Hyears).
      apply (proj1 (Z.compare_lt_iff _ _)) in Hlt. lia. }
  destruct (monitor_processMatter_quiet E matter laterDate
              (set_lastProcessedState
                 (<[applicationNumber matter := toISODate (date newest)]>) (log ev s))
              (Some allDocs) Hfetch) as (r' & Hrun' & Hproc' & _ & Hreason).
  { cbn [lastProcessedState set_lastProcessedState log].
    rewrite lookup_insert_eq. by apply newDocsOf_nil. }
  exists r'. split; [exact Hrun'|]. split; [done|]. split.
  - rewrite Hreason. destruct allDocs; [by destruct Hin|done].
  - unfold events. change (mailed (emitted (Monitor.fetchByType E matter)) = []).
    apply fetchByType_mailed.
Qed.

Lemma monitor_processed_once_witness :
  let s' := (Monitor.processMatter sampleEnv trademarkMatter "2024-03-01"
               sampleStore).2 in
  let events :=
    EProcessing "12345" :: emitted (Monitor.fetchByType sampleEnv trademarkMatter) in
  ∃ r',
    Monitor.processMatter sampleEnv trademarkMatter "2024-03-02" s'
      = (Normal r', log events s') ∧
    Monitor.processed r' = false ∧
    Monitor.reason r' = Some "not_new" ∧
    mailed events = [].
Proof.
  apply (monitor_processed_once sampleEnv trademarkMatter "2024-03-01"
           "2024-03-02" sampleStore _
           (Monitor.mkResult true None 2 "12345" "Trademark" "Notice"
              (Some "2024-03-01") (Some true))
           [noticeDoc; actionDoc; applicationDoc]).
  - vm_compute. reflexivity.
  - repeat constructor; unfold fourDigitYear; simpl; lia.
  - vm_compute. reflexivity.
  - reflexivity.
Defined.

(** ** Documents that share the latest date *)

(** Whatever [Googlecron.processMatter] mails passed the novelty filter
    against the marker it found. *)
Lemma googlecron_processMatter_mailed E m today s :
  ∃ events,
    trace (Googlecron.processMatter E m today s).2 = trace s ++ events ∧
    Forall (λ d, isNewDocument (date d)
                   (lastProcessedState s !! applicationNumber m) today = true)
           (mailed events).
Proof.
  destruct (googlecron_fetchByType_normal E m) as [fetched Hfetch].
  assert (Hquiet : mailed (EProcessing (applicationNumber m)
                             :: emitted (Googlecron.fetchByType E m)) = []).
  { change (mailed (emitted (Googlecron.fetchByType E m)) = []).
    apply googlecron_fetchByType_mailed. }
  destruct fetched as [[doc|]|];
    try (rewrite (googlecron_processMatter_quiet E m today s _ Hfetch I);
         eexists; split; [reflexivity|];
         rewrite Hquiet; constructor).
  destruct (isNewDocument (date doc) (lastProcessedState s !! applicationNumber m) today)
    eqn:Hnew.
  - destruct (googlecron_pipeline_run E m today s doc Hfetch Hnew)
      as (doc' & _ & Hdate & _ & Hcases).
    cbv zeta in Hcases.
    assert (Hmailed :
      mailed (EProcessing (applicationNumber m)
                :: emitted (Googlecron.fetchByType E m)
                ++ (if noLink doc then [] else [EUpload (applicationNumber m) doc])
                ++ [EMail (applicationNumber m) doc';
                    ECrmPut (lawmaticsID m) (applicationNumber m) doc';
                    ECrmGet (lawmaticsID m)]
                ++ (if crm_get E (lawmaticsID m)
                    then [EForm (lawmaticsID m) (applicationNumber m) doc'] else []))
      = [doc']).
    { change (mailed (emitted (Googlecron.fetchByType E m)
                ++ (if noLink doc then [] else [EUpload (applicationNumber m) doc])
                ++ [EMail (applicationNumber m) doc';
                    ECrmPut (lawmaticsID m) (applicationNumber m) doc';
                    ECrmGet (lawmaticsID m)]
                ++ (if crm_get E (lawmaticsID m)
                    then [EForm (lawmaticsID m) (applicationNumber m) doc'] else []))
              = [doc']).
      rewrite !mailed_app, googlecron_fetchByType_mailed.
      by destruct (noLink doc), (crm_get E (lawmaticsID m)). }
    destruct (crm_get E (lawmaticsID m) && closeThrows (browser E (lawmaticsID m) doc')).
    + destruct Hcases as [e ->]. eexists. split; [reflexivity|].
      rewrite Hmailed. constructor; [by rewrite Hdate|constructor].
    + rewrite Hcases. eexists. split; [reflexivity|].
      rewrite Hmailed. constructor; [by rewrite Hdate|constructor].
  - rewrite (googlecron_processMatter_quiet E m today s _ Hfetch Hnew).
    eexists. split; [reflexivity|]. rewrite Hquiet. constructor.
Qed.

(** C2. [Googlecron.processMatter] leaves out a document that shares the
    latest novel date.  The trademark registry lists two novel documents of
    2024-03-01, the latest novel date.  [processMatter] of the monitor
    passes both through the pipeline.  [processMatter] of [Googlecron.js]
    gets the first of them from its adapter, passes that one through the
    pipeline, reports a processed document and sets the marker to
    2024-03-01.  From then on the other document is never processed: once
    the marker of the application is at 2024-03-01 or later, no run of
    [Googlecron.processMatter] sends a notification for a document of that
    date, whatever the registry lists, whatever the rest of the world
    answers and whatever the day. *)
Theorem googlecron_drops_same_date_document :
  let listed := [noticeDoc; actionDoc; applicationDoc] in
  let monitor :=
    Monitor.processMatter sampleEnv trademarkMatter "2024-03-01" sampleStore in
  let first :=
    Googlecron.processMatter sampleEnv trademarkMatter "2024-03-01" sampleStore in
  outcome (Monitor.fetchAllTrademarkDocs sampleEnv "12345") = Normal listed ∧
  latestNovel None "2024-03-01" "2024-03-01" listed = [noticeDoc; actionDoc] ∧
  description <$> mailed (trace monitor.2) = ["Notice"; "Office Action"] ∧
  first.1 = Normal (Googlecron.mkResult true None (Some (date noticeDoc))) ∧
  description <$> mailed (trace first.2) = ["Notice"] ∧
  lastProcessedState first.2 !! "12345" = Some "2024-03-01" ∧
  ∀ (E : Env) (laterDate marker : string) (s : Store) (events : list Event),
    lastProcessedState s !! "12345" = Some marker →
    str_ge marker "2024-03-01" = true →
    trace (Googlecron.processMatter E trademarkMatter laterDate s).2
      = trace s ++ events →
    Forall (λ d, toISODate (date d) ≠ toISODate (date actionDoc)) (mailed events).
Proof.
  cbv zeta.
  split; [vm_compute; reflexivity|].
  split; [vm_compute; reflexivity|].
  split; [vm_compute; reflexivity|].
  split; [vm_compute; reflexivity|].
  split; [vm_compute; reflexivity|].
  split; [vm_compute; reflexivity|].
  intros E laterDate marker s events Hmarker Hge Htrace.
  destruct (googlecron_processMatter_mailed E trademarkMatter laterDate s)
    as (events' & Htrace' & Hnovel).
  rewrite Htrace in Htrace'. apply app_inv_head in Htrace' as <-.
  eapply Forall_impl; [exact Hnovel|].
  intros d Hnew Hdate.
  change (applicationNumber trademarkMatter) with "12345" in Hnew.
  rewrite Hmarker in Hnew. unfold isNewDocument in Hnew.
  assert (truthy (Some marker) = true) as Htruthy.
  { destruct marker; [by vm_compute in Hge|done]. }
  rewrite Htruthy in Hnew. cbn [default from_option] in Hnew. unfold id in Hnew.
  rewrite Hdate in Hnew.
  change (toISODate (date actionDoc)) with "2024-03-01" in Hnew.
  unfold str_gt, String.ltb in Hnew. unfold str_ge, String.leb in Hge.
  destruct (String.compare marker "2024-03-01") eqn:Hlt; try done.
  rewrite String.compare_antisym, Hlt in Hge. done.
Qed.

(** ** The sweeps over all matters *)

Lemma summaries_app a b :
  summaries (a ++ b) = (summaries a + summaries b)%nat.
Proof. unfold summaries. by rewrite List.filter_app, length_app. Qed.

Lemma summaries_external events :
  Forall external events → summaries events = 0%nat.
Proof.
  induction 1 as [|e events He _ IH]; [done|].
  destruct e; simpl in He; try contradiction; exact IH.
Qed.

Lemma extends_refl (m : gmap string string) : extends m m.
Proof. intros k before Hk. exists before. split; [done|apply leb_refl]. Qed.

Lemma extends_trans (a b c : gmap string string) :
  extends a b → extends b c → extends a c.
Proof.
  intros Hab Hbc k before Hk.
  destruct (Hab k before Hk) as (mid & Hmid & Hle1).
  destruct (Hbc k mid Hmid) as (after & Hafter & Hle2).
  exists after. split; [done|]. by eapply leb_trans.
Qed.

Lemma advance_extends app today s s' :
  advance app today s s' →
  extends (lastProcessedState s) (lastProcessedState s').
Proof.
  intros Hadv k before Hk. destruct (decide (k = app)) as [->|Hne].
  - by eapply advance_monotone.
  - exists before. split; [|apply leb_refl].
    by rewrite (advance_other _ _ _ _ _ Hadv Hne).
Qed.

(** One call of [Monitor.processMatter], as the sweep sees it. *)
Lemma monitor_processMatter_step E m today s :
  ∃ c s' events,
    Monitor.processMatter E m today s = (c, s') ∧
    advance (applicationNumber m) today s s' ∧
    trace s' = trace s ++ EProcessing (applicationNumber m) :: events ∧
    Forall external events ∧
    ∀ r, c = Normal r →
      Monitor.docCount r = length (mailed events) ∧
      Monitor.processed r = (0 <? Monitor.docCount r)%nat.
Proof.
  pose proof (Monitor_processMatter_effect E m today s) as Hadv.
  destruct (monitor_fetchByType_normal E m) as [fetched Hfetch].
  pose proof (fetchByType_mailed E m) as Hnomail.
  pose proof (observer_external _ (MonitorFacts.monitor_observer_fetchByType E m))
    as Hext.
  destruct (Monitor.processMatter E m today s) as [c0 s0] eqn:Hrun.
  cbn [snd] in Hadv. exists c0, s0.
  assert (Hquiet : ∀ r,
    (c0, s0) = (Normal r, log (EProcessing (applicationNumber m)
                                 :: emitted (Monitor.fetchByType E m)) s) →
    Monitor.processed r = false → Monitor.docCount r = 0%nat →
    ∃ events,
      (c0, s0) = (c0, s0) ∧
      advance (applicationNumber m) today s s0 ∧
      trace s0 = trace s ++ EProcessing (applicationNumber m) :: events ∧
      Forall external events ∧
      ∀ r, c0 = Normal r →
        Monitor.docCount r = length (mailed events) ∧
        Monitor.processed r = (0 <? Monitor.docCount r)%nat).
  { intros r [= -> ->] Hproc Hcount.
    exists (emitted (Monitor.fetchByType E m)).
    split; [done|]. split; [exact Hadv|]. split; [done|]. split; [done|].
    intros r' [= <-]. rewrite Hnomail, Hproc, Hcount. done. }
  destruct fetched as [allDocs|]; last first.
  { destruct (monitor_processMatter_quiet E m today s None Hfetch I)
      as (r & Hrun' & Hproc & Hcount & _). rewrite Hrun in Hrun'. eauto. }
  destruct (Monitor.newDocsOf (lastProcessedState s !! applicationNumber m) today allDocs)
    as [|newest rest] eqn:Hnew.
  { destruct (monitor_processMatter_quiet E m today s (Some allDocs) Hfetch Hnew)
      as (r & Hrun' & Hproc & Hcount & _). rewrite Hrun in Hrun'. eauto. }
  clear Hquiet. revert Hrun. unfold Monitor.processMatter.
  rewrite bind_run. cbn [emit modify fst snd].
  rewrite bind_run, monitor_fetchByType_run, Hfetch, log_log.
  assert (Hlen : (length allDocs =? 0)%nat = false)
    by (clear -Hnew; by destruct allDocs).
  rewrite Hlen.
  rewrite bind_run. unfold gets at 1. cbn [fst snd lastProcessedState log].
  rewrite Hnew. rewrite bind_run.
  set (batch := Monitor.latestDateDocsOf _ _).
  match goal with |- context [for_of ?body 0%nat batch ?s1] =>
    destruct (pipeline_loop E m (type m) batch 0%nat s1)
      as (c & events & -> & Hext' & Hc)
  end.
  rewrite log_log. destruct c as [n|e]; cbn [fst snd].
  - rewrite bind_run. cbn [modify fst snd ret]. intros [= <- <-].
    exists (emitted (Monitor.fetchByType E m) ++ events).
    split; [reflexivity|]. split; [exact Hadv|]. split; [done|].
    split; [by apply Forall_app_2|].
    intros r [= <-]. cbn [Monitor.docCount Monitor.processed].
    destruct (Hc n eq_refl) as [-> Hmails].
    rewrite mailed_app, Hnomail. cbn [List.app]. by rewrite Hmails.
  - intros [= <- <-].
    exists (emitted (Monitor.fetchByType E m) ++ events).
    split; [reflexivity|]. split; [exact Hadv|]. split; [done|].
    split; [by apply Forall_app_2|]. intros r [=].
Qed.

(** One call of [Googlecron.processMatter], as the sweep sees it. *)
Lemma googlecron_processMatter_step E m today s :
  ∃ c s' events,
    Googlecron.processMatter E m today s = (c, s') ∧
    advance (applicationNumber m) today s s' ∧
    trace s' = trace s ++ EProcessing (applicationNumber m) :: events ∧
    Forall external events ∧
    ∀ r, c = Normal r →
      length (mailed events) = (if Googlecron.processed r then 1 else 0)%nat.
Proof.
  pose proof (Googlecron_processMatter_effect E m today s) as Hadv.
  destruct (googlecron_fetchByType_normal E m) as [fetched Hfetch].
  pose proof (googlecron_fetchByType_mailed E m) as Hnomail.
  pose proof (observer_external _ (GooglecronFacts.googlecron_observer_fetchByType E m))
    as Hext.
  assert (Hquiet :
    match fetched with
    | Some (Some doc) =>
        isNewDocument (date doc) (lastProcessedState s !! applicationNumber m) today
          = false
    | _ => True
    end →
    ∃ c s' events,
      Googlecron.processMatter E m today s = (c, s') ∧
      advance (applicationNumber m) today s s' ∧
      trace s' = trace s ++ EProcessing (applicationNumber m) :: events ∧
      Forall external events ∧
      ∀ r, c = Normal r →
        length (mailed events) = (if Googlecron.processed r then 1 else 0)%nat).
  { intros Hq.
    pose proof (googlecron_processMatter_quiet E m today s fetched Hfetch Hq) as Hrun.
    rewrite Hrun in Hadv.
    eexists _, _, (emitted (Googlecron.fetchByType E m)).
    split; [exact Hrun|]. split; [exact Hadv|]. split; [done|]. split; [done|].
    intros r' [= <-]. by rewrite Hnomail. }
  destruct fetched as [[doc|]|]; [|by apply Hquiet..].
  destruct (isNewDocument (date doc) (lastProcessedState s !! applicationNumber m) today)
    eqn:Hnew; [|by apply Hquiet].
  clear Hquiet.
  destruct (googlecron_pipeline_run E m today s doc Hfetch Hnew)
    as (doc' & _ & _ & _ & Hcases).
  cbv zeta in Hcases.
  set (events := emitted (Googlecron.fetchByType E m)
        ++ (if noLink doc then [] else [EUpload (applicationNumber m) doc])
        ++ [EMail (applicationNumber m) doc';
            ECrmPut (lawmaticsID m) (applicationNumber m) doc';
            ECrmGet (lawmaticsID m)]
        ++ (if crm_get E (lawmaticsID m)
            then [EForm (lawmaticsID m) (applicationNumber m) doc'] else [])) in *.
  assert (Hext' : Forall external events).
  { unfold events. apply Forall_app_2; [done|].
    apply Forall_app_2; [destruct (noLink doc); repeat constructor|].
    apply Forall_app_2; [repeat constructor|].
    destruct (crm_get E (lawmaticsID m)); repeat constructor. }
  assert (Hmails : length (mailed events) = 1%nat).
  { unfold events. rewrite !mailed_app, Hnomail.
    destruct (noLink doc); destruct (crm_get E (lawmaticsID m)); done. }
  destruct (crm_get E (lawmaticsID m) && closeThrows (browser E (lawmaticsID m) doc')).
  - destruct Hcases as [e Hrun]. rewrite Hrun in Hadv.
    eexists _, _, events. split; [exact Hrun|]. split; [exact Hadv|].
    split; [done|]. split; [done|]. intros r [=].
  - rewrite Hcases in Hadv.
    eexists _, _, events. split; [exact Hcases|]. split; [exact Hadv|].
    split; [done|]. split; [done|]. by intros r [= <-].
Qed.

(** The loop of a sweep, for either implementation: [proc] is the call of
    [processMatter], [upd] the update of the loop's variables and [measure]
    the count of documents among them. *)
Lemma sweep_loop {R B} (proc : Matter → JS R) (upd : B → R → B)
    (measure : B → nat) (today : string) :
  (∀ m s, ∃ c s' events,
     proc m s = (c, s') ∧
     advance (applicationNumber m) today s s' ∧
     trace s' = trace s ++ EProcessing (applicationNumber m) :: events ∧
     Forall external events ∧
     ∀ r, c = Normal r →
       ∀ acc, measure (upd acc r) = (measure acc + length (mailed events))%nat) →
  ∀ matters acc s, ∃ c s' events,
    for_of (λ acc m, let* r := proc m in ret (upd acc r)) acc matters s = (c, s') ∧
    stateFile s' = stateFile s ∧ mapFile s' = mapFile s ∧
    currentlyProcessing s' = currentlyProcessing s ∧
    statusFile s' = statusFile s ∧ lastRun s' = lastRun s ∧
    trace s' = trace s ++ events ∧
    summaries events = 0%nat ∧ confirmations events = 0%nat ∧
    attempted events `prefix_of` (applicationNumber <$> matters) ∧
    extends (lastProcessedState s) (lastProcessedState s') ∧
    ∀ acc', c = Normal acc' →
      attempted events = applicationNumber <$> matters ∧
      measure acc' = (measure acc + length (mailed events))%nat.
Proof.
  intros Hstep. induction matters as [|m matters IH]; intros acc s.
  - exists (Normal acc), s, []. cbn [for_of ret]. rewrite app_nil_r.
    repeat split; try done.
    + apply extends_refl.
    + by injection H as <-.
  - cbn [for_of]. rewrite bind_run, bind_run.
    destruct (Hstep m s) as (c1 & s1 & ev1 & -> & Hadv & Htr1 & Hext1 & Hc1).
    pose proof (advance_extends _ _ _ _ Hadv) as Hgrow1.
    apply advance_fields in Hadv as (Hsf & Hmf & Hcp & Hstf & Hlr & _).
    destruct c1 as [r|e]; cbn [ret fst snd].
    + destruct (IH (upd acc r) s1)
        as (c & s' & ev & -> & Hsf' & Hmf' & Hcp' & Hstf' & Hlr' & Htr' & Hsum
            & Hconf & Hatt & Hgrow & Hc).
      exists c, s', (EProcessing (applicationNumber m) :: ev1 ++ ev).
      split; [done|].
      split; [congruence|]. split; [congruence|]. split; [congruence|].
      split; [congruence|]. split; [congruence|].
      split; [rewrite Htr', Htr1, <- app_assoc; done|].
      split.
      { change (summaries ([EProcessing (applicationNumber m)] ++ ev1 ++ ev) = 0%nat).
        by rewrite !summaries_app, (summaries_external ev1), Hsum. }
      split.
      { change (confirmations ([EProcessing (applicationNumber m)] ++ ev1 ++ ev) = 0%nat).
        by rewrite !confirmations_app, (confirmations_external ev1), Hconf. }
      assert (Hatt' : attempted (EProcessing (applicationNumber m) :: ev1 ++ ev)
                      = applicationNumber m :: attempted ev).
      { change (attempted ([EProcessing (applicationNumber m)] ++ ev1 ++ ev)
                = applicationNumber m :: attempted ev).
        by rewrite !attempted_app, (attempted_external ev1). }
      split; [rewrite Hatt', fmap_cons; by apply prefix_cons|].
      split; [by eapply extends_trans|].
      intros acc' Hacc'. destruct (Hc acc' Hacc') as [Hall Hm].
      split; [by rewrite Hatt', Hall|].
      rewrite Hm, (Hc1 r eq_refl acc).
      change (mailed (EProcessing (applicationNumber m) :: ev1 ++ ev))
        with (mailed (ev1 ++ ev)).
      rewrite mailed_app, length_app. lia.
    + exists (Throw e), s1, (EProcessing (applicationNumber m) :: ev1).
      split; [done|]. repeat split; try done.
      * change (summaries ([EProcessing (applicationNumber m)] ++ ev1) = 0%nat).
        by rewrite summaries_app, (summaries_external ev1).
      * change (confirmations ([EProcessing (applicationNumber m)] ++ ev1) = 0%nat).
        by rewrite confirmations_app, (confirmations_external ev1).
      * change (attempted ([EProcessing (applicationNumber m)] ++ ev1)
                `prefix_of` applicationNumber <$> m :: matters).
        rewrite attempted_app, (attempted_external ev1) by done.
        rewrite fmap_cons. apply prefix_cons, prefix_nil.
Qed.

Lemma monitor_sweep_loop E today matters acc s :
  ∃ c s' events,
    for_of (Monitor.sweepStep E today) acc matters s = (c, s') ∧
    stateFile s' = stateFile s ∧ mapFile s' = mapFile s ∧
    currentlyProcessing s' = currentlyProcessing s ∧
    statusFile s' = statusFile s ∧ lastRun s' = lastRun s ∧
    trace s' = trace s ++ events ∧
    summaries events = 0%nat ∧ confirmations events = 0%nat ∧
    attempted events `prefix_of` (applicationNumber <$> matters) ∧
    extends (lastProcessedState s) (lastProcessedState s') ∧
    ∀ acc', c = Normal acc' →
      attempted events = applicationNumber <$> matters ∧
      acc'.2 = (acc.2 + length (mailed events))%nat.
Proof.
  apply (sweep_loop (λ m, Monitor.processMatter E m today)
           (λ acc result,
              if Monitor.processed result
              then ((acc.1 ++ [result])%list, (acc.2 + Monitor.docCount result)%nat)
              else acc) snd today).
  intros m s0.
  destruct (monitor_processMatter_step E m today s0)
    as (c & s1 & events & Hrun & Hadv & Htr & Hext & Hc).
  exists c, s1, events. repeat split; try done.
  intros r Hr acc0. destruct (Hc r Hr) as [Hcount Hproc].
  rewrite <- Hcount, Hproc.
  destruct (Monitor.docCount r); cbn; lia.
Qed.

Lemma googlecron_sweep_loop E today matters acc s :
  ∃ c s' events,
    for_of (Googlecron.sweepStep E today) acc matters s = (c, s') ∧
    stateFile s' = stateFile s ∧ mapFile s' = mapFile s ∧
    currentlyProcessing s' = currentlyProcessing s ∧
    statusFile s' = statusFile s ∧ lastRun s' = lastRun s ∧
    trace s' = trace s ++ events ∧
    summaries events = 0%nat ∧ confirmations events = 0%nat ∧
    attempted events `prefix_of` (applicationNumber <$> matters) ∧
    extends (lastProcessedState s) (lastProcessedState s') ∧
    ∀ acc', c = Normal acc' →
      attempted events = applicationNumber <$> matters ∧
      acc' = (acc + length (mailed events))%nat.
Proof.
  apply (sweep_loop (λ m, Googlecron.processMatter E m today)
           (λ processedCount result,
              if Googlecron.processed result then S processedCount
              else processedCount) (λ n, n) today).
  intros m s0.
  destruct (googlecron_processMatter_step E m today s0)
    as (c & s1 & events & Hrun & Hadv & Htr & Hext & Hc).
  exists c, s1, events. repeat split; try done.
  intros r Hr acc0. rewrite (Hc r Hr).
  destruct (Googlecron.processed r); lia.
Qed.

(** One sweep of the monitor, with everything the properties below need. *)
Lemma monitor_sweep_run E s :
  ∃ r s' events,
    Monitor.processAllMatters E s = (Normal r, s') ∧
    trace s' = trace s ++ events ∧
    mapFile s' = mapFile s ∧
    currentlyProcessing s' = currentlyProcessing s ∧
    statusFile s' = statusFile s ∧ lastRun s' = lastRun s ∧
    confirmations events = 0%nat ∧
    attempted events `prefix_of` (applicationNumber <$> mapFile s) ∧
    extends (default ∅ (stateFile s)) (default ∅ (stateFile s')) ∧
    ((mapFile s ≠ [] ∧
      attempted events = applicationNumber <$> mapFile s ∧
      stateFile s' = Some (lastProcessedState s') ∧
      summaries events = 1%nat ∧
      Monitor.success r = report_mailer E ∧
      (Monitor.success r = true →
       Monitor.totalMatters r = length (mapFile s) ∧
       Monitor.totalDocuments r = length (mailed events)))
     ∨ (Monitor.success r = false ∧
        stateFile s' = stateFile s ∧
        summaries events = 0%nat ∧
        (mapFile s = [] → events = []))).
Proof.
  unfold Monitor.processAllMatters, try_catch, loadMatterMap.
  rewrite bind_run. unfold gets at 1. cbn [fst snd].
  rewrite bind_run. cbn [loadLastProcessedState modify fst snd].
  destruct (mapFile s) as [|m0 matters0] eqn:Hmap.
  { cbn [length Nat.eqb ret]. eexists _, _, [].
    split; [reflexivity|]. cbn. rewrite app_nil_r, Hmap.
    repeat split; try done; try apply prefix_nil.
    - apply extends_refl.
    - right. repeat split; done. }
  set (matters := m0 :: matters0) in *.
  assert (Hlen : (length matters =? 0)%nat = false) by done.
  rewrite Hlen. rewrite bind_run.
  set (s1 := set_lastProcessedState _ s).
  destruct (monitor_sweep_loop E (getTodayDateKey E) matters ([], 0%nat) s1)
    as (c & s2 & events & -> & Hsf & Hmf & Hcp & Hstf & Hlr & Htr & Hsum & Hconf
        & Hatt & Hgrow & Hc).
  cbn in Hsf, Hmf, Hcp, Hstf, Hlr, Htr.
  destruct c as [acc|e].
  - destruct (Hc acc eq_refl) as [Hall Hdocs]. cbn in Hdocs.
    rewrite bind_run. cbn [saveLastProcessedState modify fst snd].
    rewrite bind_run. unfold Monitor.sendSummaryEmail.
    rewrite bind_run. cbn [emit modify fst snd].
    destruct (report_mailer E) eqn:Hmailer.
    + cbn [ret fst snd]. eexists _, _, (events ++ [_]).
      split; [reflexivity|]. cbn. rewrite Htr, Hmf, Hcp, Hstf, Hlr, Hmap.
      split; [by rewrite <- app_assoc|].
      split; [done|]. split; [done|]. split; [done|]. split; [done|].
      split; [by rewrite confirmations_app, Hconf|].
      split.
      { rewrite attempted_app. cbn. by rewrite app_nil_r. }
      split; [exact Hgrow|].
      left. split; [done|].
      split; [rewrite attempted_app; cbn; by rewrite app_nil_r|].
      split; [done|].
      split; [by rewrite summaries_app, Hsum|].
      split; [done|]. intros _. split; [done|].
      rewrite mailed_app. cbn. by rewrite app_nil_r.
    + cbn [throw fst snd]. eexists _, _, (events ++ [_]).
      split; [reflexivity|]. cbn. rewrite Htr, Hmf, Hcp, Hstf, Hlr, Hmap.
      split; [by rewrite <- app_assoc|].
      split; [done|]. split; [done|]. split; [done|]. split; [done|].
      split; [by rewrite confirmations_app, Hconf|].
      split.
      { rewrite attempted_app. cbn. by rewrite app_nil_r. }
      split; [exact Hgrow|].
      left. split; [done|].
      split; [rewrite attempted_app; cbn; by rewrite app_nil_r|].
      split; [done|].
      split; [by rewrite summaries_app, Hsum|].
      split; [done|]. done.
  - cbn [ret fst snd]. eexists _, _, events.
    split; [reflexivity|]. cbn. rewrite Hmf, Hcp, Hstf, Hlr, Hsf, Hmap.
    split; [done|].
    split; [done|]. split; [done|]. split; [done|]. split; [done|].
    split; [done|]. split; [done|].
    split; [apply extends_refl|].
    right. repeat split; done.
Qed.

(** X8. A sweep of the monitor never throws.  The matters whose processing
    it starts are the first matters of the registry, in order.  Either all
    of them were started, the processed state was saved with every marker
    the run has set and one summary was handed to the mail service, the
    sweep reporting success exactly when the mail service accepted it, and
    then with the number of matters of the registry and, as its number of
    documents, the number of notifications sent; or the sweep reports a
    failure, the state file is as it was and no summary went out, which is
    what happens with an empty registry, where nothing is called at all. *)
Theorem monitor_sweep_outcome (E : Env) (s : Store) :
  ∃ r s' events,
    Monitor.processAllMatters E s = (Normal r, s') ∧
    trace s' = trace s ++ events ∧
    mapFile s' = mapFile s ∧
    attempted events `prefix_of` (applicationNumber <$> mapFile s) ∧
    ((mapFile s ≠ [] ∧
      attempted events = applicationNumber <$> mapFile s ∧
      stateFile s' = Some (lastProcessedState s') ∧
      summaries events = 1%nat ∧
      Monitor.success r = report_mailer E ∧
      (Monitor.success r = true →
       Monitor.totalMatters r = length (mapFile s) ∧
       Monitor.totalDocuments r = length (mailed events)))
     ∨ (Monitor.success r = false ∧
        stateFile s' = stateFile s ∧
        summaries events = 0%nat ∧
        (mapFile s = [] → events = []))).
Proof.
  destruct (monitor_sweep_run E s)
    as (r & s' & events & Hrun & Htr & Hmf & _ & _ & _ & _ & Hatt & _ & Hcases).
  exists r, s', events. repeat split; done.
Qed.

(** In the sample world both matters are processed, three notifications go
    out and the summary counts them. *)
Example monitor_sweep_sample :
  let run := Monitor.processAllMatters sampleEnv sampleStore in
  (Monitor.success <$> (match run.1 with Normal r => Some r | Throw _ => None end))
    = Some true ∧
  (Monitor.totalDocuments <$> (match run.1 with Normal r => Some r | Throw _ => None end))
    = Some 3%nat ∧
  length (mailed (trace run.2)) = 3%nat ∧
  summaries (trace run.2) = 1%nat ∧
  default ∅ (stateFile run.2) !! "12345" = Some "2024-03-01" ∧
  default ∅ (stateFile run.2) !! "17000001" = Some "2024-03-02".
Proof. vm_compute. repeat split; reflexivity. Qed.

(** One sweep of [Googlecron.js]. *)
Lemma googlecron_sweep_run E s :
  ∃ s' events,
    Googlecron.processAllMatters E s = (Normal tt, s') ∧
    trace s' = trace s ++ events ∧
    mapFile s' = mapFile s ∧
    currentlyProcessing s' = currentlyProcessing s ∧
    statusFile s' = statusFile s ∧ lastRun s' = lastRun s ∧
    summaries events = 0%nat ∧
    attempted events `prefix_of` (applicationNumber <$> mapFile s) ∧
    extends (default ∅ (stateFile s)) (default ∅ (stateFile s')) ∧
    ((mapFile s ≠ [] ∧
      attempted events = applicationNumber <$> mapFile s ∧
      stateFile s' = Some (lastProcessedState s') ∧
      confirmations events
        = (if (length (mailed events) =? 0)%nat then 1 else 0)%nat)
     ∨ (stateFile s' = stateFile s ∧
        confirmations events = 0%nat ∧
        (mapFile s = [] → events = []))).
Proof.
  unfold Googlecron.processAllMatters, try_catch, loadMatterMap.
  rewrite bind_run. unfold gets at 1. cbn [fst snd].
  rewrite bind_run. cbn [loadLastProcessedState modify fst snd].
  destruct (mapFile s) as [|m0 matters0] eqn:Hmap.
  { cbn [length Nat.eqb ret]. eexists _, [].
    split; [reflexivity|]. cbn. rewrite app_nil_r, Hmap.
    repeat split; try done; try apply prefix_nil.
    - apply extends_refl.
    - right. repeat split; done. }
  set (matters := m0 :: matters0) in *.
  assert (Hlen : (length matters =? 0)%nat = false) by done.
  rewrite Hlen. rewrite bind_run.
  set (s1 := set_lastProcessedState _ s).
  destruct (googlecron_sweep_loop E (getTodayDateKey E) matters 0%nat s1)
    as (c & s2 & events & -> & Hsf & Hmf & Hcp & Hstf & Hlr & Htr & Hsum & Hconf
        & Hatt & Hgrow & Hc).
  cbn in Hsf, Hmf, Hcp, Hstf, Hlr, Htr.
  destruct c as [processedCount|e].
  - destruct (Hc processedCount eq_refl) as [Hall Hdocs]. cbn in Hdocs.
    rewrite bind_run. cbn [saveLastProcessedState modify fst snd].
    subst processedCount.
    destruct (length (mailed events) =? 0)%nat eqn:Hzero.
    + rewrite sendConfirmationEmail_run. eexists _, (events ++ [_]).
      split; [reflexivity|]. cbn. rewrite Htr, Hmf, Hcp, Hstf, Hlr, Hmap.
      split; [by rewrite <- app_assoc|].
      split; [done|]. split; [done|]. split; [done|]. split; [done|].
      split; [by rewrite summaries_app, Hsum|].
      split.
      { rewrite attempted_app. cbn. by rewrite app_nil_r. }
      split; [exact Hgrow|].
      left. split; [done|].
      split; [rewrite attempted_app; cbn; by rewrite app_nil_r|].
      split; [done|].
      rewrite confirmations_app, Hconf, mailed_app. cbn.
      rewrite app_nil_r, Hzero. done.
    + cbn [ret fst snd]. eexists _, events.
      split; [reflexivity|]. cbn. rewrite Hmf, Hcp, Hstf, Hlr, Hmap.
      split; [done|].
      split; [done|]. split; [done|]. split; [done|]. split; [done|].
      split; [done|]. split; [done|].
      split; [exact Hgrow|].
      left. split; [done|]. split; [done|]. split; [done|].
      by rewrite Hzero.
  - cbn [ret fst snd]. eexists _, events.
    split; [reflexivity|]. cbn. rewrite Hmf, Hcp, Hstf, Hlr, Hsf, Hmap.
    split; [done|].
    split; [done|]. split; [done|]. split; [done|]. split; [done|].
    split; [done|]. split; [done|].
    split; [apply extends_refl|].
    right. repeat split; done.
Qed.

(** X9. A sweep of [Googlecron.js] never throws and returns nothing.  The
    matters whose processing it starts are the first matters of the
    registry, in order.  Either all of them were started and the processed
    state was saved, and then the confirmation that everything is up to date
    was handed to the mail service exactly when the run sent no
    notification of a new document; or the state file is as it was and no
    confirmation went out, which is what happens with an empty registry,
    where nothing is called at all. *)
Theorem googlecron_sweep_outcome (E : Env) (s : Store) :
  ∃ s' events,
    Googlecron.processAllMatters E s = (Normal tt, s') ∧
    trace s' = trace s ++ events ∧
    mapFile s' = mapFile s ∧
    attempted events `prefix_of` (applicationNumber <$> mapFile s) ∧
    ((mapFile s ≠ [] ∧
      attempted events = applicationNumber <$> mapFile s ∧
      stateFile s' = Some (lastProcessedState s') ∧
      confirmations events
        = (if (length (mailed events) =? 0)%nat then 1 else 0)%nat)
     ∨ (stateFile s' = stateFile s ∧
        confirmations events = 0%nat ∧
        (mapFile s = [] → events = []))).
Proof.
  destruct (googlecron_sweep_run E s)
    as (s' & events & Hrun & Htr & Hmf & _ & _ & _ & _ & Hatt & _ & Hcases).
  exists s', events. repeat split; done.
Qed.

(** X10. Across a sweep of either implementation the state file only moves
    forward: every marker it held before is still there afterwards, with a
    value that is not smaller in the order of strings, whether the sweep
    went through, stopped at an exception or found no matter. *)
Theorem sweep_state_file_monotone (E : Env) (s : Store) :
  extends (default ∅ (stateFile s))
          (default ∅ (stateFile (Monitor.processAllMatters E s).2)) ∧
  extends (default ∅ (stateFile s))
          (default ∅ (stateFile (Googlecron.processAllMatters E s).2)).
Proof.
  split.
  - destruct (monitor_sweep_run E s)
      as (r & s' & events & -> & _ & _ & _ & _ & _ & _ & _ & Hgrow & _). done.
  - destruct (googlecron_sweep_run E s)
      as (s' & events & -> & _ & _ & _ & _ & _ & _ & _ & Hgrow & _). done.
Qed.

(** ** The run over all matters from the controller *)

Lemma runAutomationOnce_run E s :
  let s0 := set_statusFile (Some (currentlyProcessing s)) s in
  let sweep := (Googlecron.processAllMatters E s0).2 in
  ∃ message,
    Automation.runAutomationOnce E false s
    = (Normal (Automation.RunFailed message, false),
       set_statusFile (Some (currentlyProcessing sweep))
         (set_lastRun (Some (now E)) sweep)).
Proof.
  intros s0 sweep. unfold Automation.runAutomationOnce.
  rewrite bind_run. unfold Controller.saveStatus at 1. cbn [modify fst snd].
  fold s0. rewrite bind_run. unfold try_finally, try_catch. rewrite bind_run.
  destruct (googlecron_sweep_run E s0) as (s1 & events & Hrun & _).
  unfold sweep. rewrite Hrun. cbn [fst snd].
  rewrite bind_run. cbn [modify fst snd].
  rewrite bind_run. cbn [Automation.readProperty throw fst snd].
  rewrite bind_run. unfold Controller.saveStatus. cbn [modify fst snd ret].
  eexists. reflexivity.
Qed.

(** X11. [runAutomationOnce] refuses at once, touching nothing, when a run
    is under way.  Otherwise it runs the sweep of [Googlecron.js] once,
    records the time of the run and hands the flag back released; and
    because that sweep returns no value, it never answers with the success
    object: the answer is [success: false] with the message of the
    exception raised when the counts are read, whatever the sweep did. *)
Theorem runAutomationOnce_outcome (E : Env) (s : Store) :
  Automation.runAutomationOnce E true s
    = (Normal (Automation.RunFailed "Automation is already running", true), s) ∧
  ∃ message s',
    Automation.runAutomationOnce E false s
      = (Normal (Automation.RunFailed message, false), s') ∧
    let sweep :=
      (Googlecron.processAllMatters E
         (set_statusFile (Some (currentlyProcessing s)) s)).2 in
    lastRun s' = Some (now E) ∧
    trace s' = trace sweep ∧
    stateFile s' = stateFile sweep ∧
    mapFile s' = mapFile s ∧
    currentlyProcessing s' = currentlyProcessing s ∧
    statusFile s' = Some (currentlyProcessing s).
Proof.
  split; [done|].
  destruct (runAutomationOnce_run E s) as [message Hrun].
  cbv zeta in Hrun. eexists message, _. split; [exact Hrun|].
  cbv zeta.
  destruct (googlecron_sweep_run E (set_statusFile (Some (currentlyProcessing s)) s))
    as (s1 & events & -> & _ & Hmf & Hcp & _).
  cbn in Hmf, Hcp |- *. rewrite Hcp. repeat split; done.
Qed.

(** In the sample world the sweep processes both matters and saves the
    state, and the answer is still a failure. *)
Example runAutomationOnce_sample :
  let run := Automation.runAutomationOnce sampleEnv false sampleStore in
  run.1 = Normal (Automation.RunFailed
                    "Cannot read properties of undefined (reading 'processed')",
                  false) ∧
  length (mailed (trace run.2)) = 2%nat ∧
  default ∅ (stateFile run.2) !! "12345" = Some "2024-03-01" ∧
  default ∅ (stateFile run.2) !! "17000001" = Some "2024-03-02".
Proof. vm_compute. repeat split; reflexivity. Qed.

(** ** The routes of the controller *)

Lemma processSingleMatter_normal E id s :
  ∃ result s', Controller.processSingleMatter E id s = (Normal result, s').
Proof.
  destruct (decide (id ∈ currentlyProcessing s)) as [Hbusy|Hidle].
  - rewrite processSingleMatter_rejected by done. eauto.
  - destruct (processSingleMatter_attempt E id s Hidle)
      as (result & terminal & middle & s' & Hrun & _). eauto.
Qed.

Lemma processMultipleMatters_normal E ids s :
  ∃ result s', Controller.processMultipleMatters E ids s = (Normal result, s').
Proof.
  destruct (List.filter (λ m, bool_decide (lawmaticsID m ∈ ids)) (mapFile s))
    as [|m matters] eqn:Hfound.
  - unfold Controller.processMultipleMatters, Controller.getMattersByIds,
      Controller.loadMatters.
    rewrite bind_run, bind_run. unfold gets. cbn [fst snd ret].
    rewrite Hfound. cbn. eauto.
  - destruct (processMultipleMatters_run E ids s) as (result & events & s' & Hrun & _).
    { by rewrite Hfound. }
    eauto.
Qed.

(** X12. No request to the routes [/run-once], [/process-single] and
    [/process-multiple] is answered with status 500: the controller's
    functions behind them end normally on every input.  A request without
    an identifier, or without a non-empty array of identifiers, is answered
    with status 400 and leaves the store as it was. *)
Theorem automation_routes_answer (E : Env) (s : Store) :
  (∀ isRunning, ∃ answer flag s',
     Automation.runOnceRoute E isRunning s
       = (Normal (Automation.Json answer, flag), s')) ∧
  (∀ lawmaticsId,
     if truthy lawmaticsId
     then ∃ result s',
       Automation.processSingleRoute E lawmaticsId s
         = (Normal (Automation.Json result), s')
     else ∃ message,
       Automation.processSingleRoute E lawmaticsId s
         = (Normal (Automation.ErrorJson 400 message), s)) ∧
  (∀ lawmaticsIds,
     match lawmaticsIds with
     | Some (_ :: _) => ∃ result s',
         Automation.processMultipleRoute E lawmaticsIds s
           = (Normal (Automation.Json result), s')
     | _ => ∃ message,
         Automation.processMultipleRoute E lawmaticsIds s
           = (Normal (Automation.ErrorJson 400 message), s)
     end).
Proof.
  split; [|split].
  - intros [|].
    + by eexists _, _, _.
    + destruct (runAutomationOnce_run E s) as [message Hrun].
      unfold Automation.runOnceRoute, try_catch.
      rewrite bind_run, Hrun. by eexists _, _, _.
  - intros lawmaticsId. unfold Automation.processSingleRoute, try_catch.
    destruct (truthy lawmaticsId); cbn [negb].
    + destruct (processSingleMatter_normal E (default "" lawmaticsId) s)
        as (result & s' & Hrun).
      rewrite bind_run, Hrun. by eexists _, _.
    + by eexists.
  - intros [[|id ids]|]; unfold Automation.processMultipleRoute, try_catch;
      [by eexists| |by eexists].
    destruct (processMultipleMatters_normal E (id :: ids) s) as (result & s' & Hrun).
    rewrite bind_run, Hrun. by eexists _, _.
Qed.

(** ** The state file under the controller *)

Lemma processSingleMatter_state_file E id s :
  extends (default ∅ (stateFile s))
          (default ∅ (stateFile (Controller.processSingleMatter E id s).2)).
Proof.
  destruct (decide (id ∈ currentlyProcessing s)) as [Hbusy|Hidle].
  { rewrite processSingleMatter_rejected by done. apply extends_refl. }
  unfold Controller.processSingleMatter.
  rewrite bind_run. unfold gets. cbn [fst snd].
  rewrite bool_decide_eq_false_2 by done.
  unfold try_finally, try_catch.
  rewrite bind_run. cbn [modify fst snd].
  rewrite bind_run. unfold Controller.saveStatus at 1. cbn [modify fst snd].
  rewrite bind_run, updateMatterStatus_run.
  cbn [mapFile set_statusFile set_currentlyProcessing].
  rewrite bind_run. unfold Controller.getMattersByIds, Controller.loadMatters.
  rewrite bind_run. unfold gets. cbn [fst snd ret mapFile log set_mapFile].
  destruct (List.filter _ (setStatus E id "Processing..." (mapFile s)))
    as [|matter others].
  - rewrite bind_run, updateMatterStatus_run. cbn. apply extends_refl.
  - rewrite bind_run. cbn [loadLastProcessedState modify fst snd].
    rewrite bind_run.
    match goal with |- context [Googlecron.processMatter E matter ?t ?s3] =>
      pose proof (Googlecron_processMatter_effect E matter t s3) as Hadv;
      destruct (Googlecron.processMatter E matter t s3) as [c s4]
    end.
    cbn [snd] in Hadv.
    pose proof (advance_extends _ _ _ _ Hadv) as Hgrow.
    apply advance_fields in Hadv as (Hsf & _).
    cbn in Hsf, Hgrow.
    destruct c as [result0|e].
    + rewrite bind_run. cbn [saveLastProcessedState modify fst snd].
      rewrite bind_run. cbn [modify fst snd].
      rewrite bind_run. unfold Controller.saveStatus at 1. cbn [modify fst snd].
      rewrite bind_run, updateMatterStatus_run. cbn. exact Hgrow.
    + rewrite bind_run, updateMatterStatus_run. cbn. rewrite Hsf.
      apply extends_refl.
Qed.

Lemma elem_of_batchStatuses (processed : bool) :
  Controller.finalStatus processed ∈ batchStatuses.
Proof. apply list_elem_of_In. destruct processed; simpl; tauto. Qed.

(** One iteration of the batch on a matter that is not in flight: the
    registry and the processed state afterwards. *)
Lemma batchStep_effect E today acc m s :
  lawmaticsID m ∉ currentlyProcessing s →
  ∃ st acc' s',
    Controller.batchStep E today acc m s = (Normal acc', s') ∧
    st ∈ batchStatuses ∧
    mapFile s' = setStatus E (lawmaticsID m) st (mapFile s) ∧
    currentlyProcessing s' = currentlyProcessing s ∧
    stateFile s' = stateFile s ∧
    extends (lastProcessedState s) (lastProcessedState s').
Proof.
  intros Hidle. unfold Controller.batchStep.
  rewrite bind_run. unfold gets. cbn [fst snd].
  rewrite bool_decide_eq_false_2 by done.
  unfold try_finally, try_catch.
  rewrite bind_run. cbn [modify fst snd].
  rewrite bind_run. unfold Controller.saveStatus at 1. cbn [modify fst snd].
  rewrite bind_run.
  match goal with |- context [Googlecron.processMatter E m ?t ?s3] =>
    pose proof (Googlecron_processMatter_effect E m t s3) as Hadv;
    destruct (Googlecron.processMatter E m t s3) as [c s4]
  end.
  cbn [snd] in Hadv.
  pose proof (advance_extends _ _ _ _ Hadv) as Hgrow.
  apply advance_fields in Hadv
    as (Hsf & Hmf & Hcp & Hstf & Hlr & events & Htr & Hext).
  cbn in Hsf, Hmf, Hcp, Hstf, Hlr, Htr, Hgrow.
  destruct c as [result|e].
  - rewrite bind_run, updateMatterStatus_run.
    exists (Controller.finalStatus (Googlecron.processed result)).
    eexists _, _. split; [reflexivity|]. cbn. rewrite Hcp, Hsf, Hmf.
    split; [apply elem_of_batchStatuses|].
    split; [done|]. split; [by apply release_restores|]. done.
  - rewrite bind_run, updateMatterStatus_run.
    exists "Failed". eexists _, _. split; [reflexivity|].
    cbn. rewrite Hcp, Hsf, Hmf.
    split; [apply list_elem_of_In; simpl; tauto|].
    split; [done|]. split; [by apply release_restores|]. done.
Qed.

Lemma displayStatus_setStatus_ne E id id' st matters :
  id ≠ id' →
  displayStatus id (setStatus E id' st matters) = displayStatus id matters.
Proof.
  intros Hne. unfold displayStatus. rewrite list_find_setStatus.
  destruct (list_find (λ m, lawmaticsID m = id) matters) as [[i m]|] eqn:Hfind;
    [|done].
  apply list_find_Some in Hfind as (_ & Hm & _). cbn.
  rewrite decide_False; [done|congruence].
Qed.

Lemma registered_elem_of (m : Matter) (matters : list Matter) :
  m ∈ matters → registered (lawmaticsID m) matters = true.
Proof.
  intros Hin. unfold registered.
  destruct (list_find (λ x, lawmaticsID x = lawmaticsID m) matters) eqn:Hfind;
    [done|].
  apply list_find_None in Hfind. rewrite List.Forall_forall in Hfind.
  exfalso. apply (Hfind m); [by apply list_elem_of_In|done].
Qed.

(** The first loop of a batch. *)
Lemma status_loop_effect E (matters : list Matter) : ∀ s,
  ∃ s',
    for_of (λ _ matter,
              Controller.updateMatterStatus E (lawmaticsID matter) "Processing..." >>
              ret tt) tt matters s = (Normal tt, s') ∧
    currentlyProcessing s' = currentlyProcessing s ∧
    stateFile s' = stateFile s ∧
    lastProcessedState s' = lastProcessedState s ∧
    (∀ id, registered id (mapFile s') = registered id (mapFile s)) ∧
    ∀ m, m ∈ matters → registered (lawmaticsID m) (mapFile s) = true →
      displayStatus (lawmaticsID m) (mapFile s') = Some "Processing...".
Proof.
  induction matters as [|m matters IH] using rev_ind; intros s.
  - exists s. cbn. repeat split; try done. intros m Hm. by apply elem_of_nil in Hm.
  - assert (Hsplit : ∀ s0,
      for_of (λ _ matter,
                Controller.updateMatterStatus E (lawmaticsID matter) "Processing..." >>
                ret tt) tt (matters ++ [m]) s0
      = match for_of (λ _ matter,
                        Controller.updateMatterStatus E (lawmaticsID matter)
                          "Processing..." >> ret tt) tt matters s0 with
        | (Normal _, s1) =>
            (Normal tt,
             log [EStatus (lawmaticsID m) "Processing..."
                    (registered (lawmaticsID m) (mapFile s1))]
               (set_mapFile (setStatus E (lawmaticsID m) "Processing..." (mapFile s1)) s1))
        | (Throw e, s1) => (Throw e, s1)
        end).
    { clear IH. induction matters as [|x matters IH']; intros s0.
      - cbn [for_of List.app]. rewrite bind_run, bind_run, updateMatterStatus_run. done.
      - cbn [for_of List.app]. rewrite (bind_run _ _ s0), (bind_run _ _ s0).
        rewrite updateMatterStatus_run, (bind_run _ _ s0), (bind_run _ _ s0).
        rewrite updateMatterStatus_run.
        cbn [ret fst snd]. rewrite IH'. done. }
    rewrite Hsplit.
    destruct (IH s) as (s1 & -> & Hcp & Hsf & Hlps & Hreg & Hdisp).
    eexists. split; [reflexivity|].
    cbn [mapFile log set_mapFile currentlyProcessing stateFile lastProcessedState].
    split; [done|]. split; [done|]. split; [done|].
    split; [intros id; by rewrite registered_setStatus|].
    intros x Hx Hregx. apply elem_of_app in Hx as [Hx|Hx].
    + destruct (decide (lawmaticsID x = lawmaticsID m)) as [Heq|Hne].
      * rewrite Heq. apply displayStatus_setStatus. by rewrite Hreg, <- Heq.
      * rewrite displayStatus_setStatus_ne by done. by apply Hdisp.
    + apply list_elem_of_singleton in Hx as ->.
      apply displayStatus_setStatus. by rewrite Hreg.
Qed.

(** The second loop of a batch. *)
Lemma batch_loop_effect E today (matters : list Matter) : ∀ acc s,
  ∃ acc' s',
    for_of (Controller.batchStep E today) acc matters s = (Normal acc', s') ∧
    currentlyProcessing s' = currentlyProcessing s ∧
    stateFile s' = stateFile s ∧
    extends (lastProcessedState s) (lastProcessedState s') ∧
    (∀ id, registered id (mapFile s') = registered id (mapFile s)) ∧
    (∀ id, id ∈ currentlyProcessing s →
       displayStatus id (mapFile s') = displayStatus id (mapFile s)) ∧
    ∀ m, m ∈ matters → idle s m = true →
      registered (lawmaticsID m) (mapFile s) = true →
      ∃ st, displayStatus (lawmaticsID m) (mapFile s') = Some st ∧
            st ∈ batchStatuses.
Proof.
  induction matters as [|m matters IH] using rev_ind; intros acc s.
  - exists acc, s. cbn. repeat split; try done; [apply extends_refl|].
    intros m Hm. by apply elem_of_nil in Hm.
  - assert (Hsplit : ∀ acc0 s0,
      for_of (Controller.batchStep E today) acc0 (matters ++ [m]) s0
      = match for_of (Controller.batchStep E today) acc0 matters s0 with
        | (Normal acc1, s1) => Controller.batchStep E today acc1 m s1
        | (Throw e, s1) => (Throw e, s1)
        end).
    { clear IH. induction matters as [|x matters IH']; intros acc0 s0.
      - cbn [for_of List.app]. rewrite bind_run. unfold ret.
        destruct (Controller.batchStep E today acc0 m s0) as [[?|?] ?]; reflexivity.
      - cbn [for_of List.app]. rewrite !bind_run.
        destruct (Controller.batchStep E today acc0 x s0) as [[acc1|e] s1]; [|done].
        apply IH'. }
    rewrite Hsplit.
    destruct (IH acc s) as (acc1 & s1 & -> & Hcp & Hsf & Hgrow & Hreg & Hbusy & Hdisp).
    destruct (decide (lawmaticsID m ∈ currentlyProcessing s1)) as [Hin|Hout].
    + rewrite batchStep_rejected by done.
      eexists _, s1. split; [reflexivity|].
      split; [done|]. split; [done|]. split; [done|]. split; [done|].
      split; [done|].
      intros x Hx Hidle Hregx. apply elem_of_app in Hx as [Hx|Hx]; [by apply Hdisp|].
      apply list_elem_of_singleton in Hx as ->.
      unfold idle in Hidle. rewrite <- Hcp, bool_decide_eq_true_2 in Hidle; done.
    + destruct (batchStep_effect E today acc1 m s1 Hout)
        as (st & acc2 & s2 & -> & Hst & Hmf & Hcp2 & Hsf2 & Hgrow2).
      exists acc2, s2. split; [done|].
      split; [congruence|]. split; [congruence|].
      split; [by eapply extends_trans|].
      split; [intros id; by rewrite Hmf, registered_setStatus|].
      split.
      { intros id Hid. rewrite Hmf, displayStatus_setStatus_ne; [by apply Hbusy|].
        intros ->. apply Hout. by rewrite Hcp. }
      intros x Hx Hidle Hregx. apply elem_of_app in Hx as [Hx|Hx].
      * destruct (decide (lawmaticsID x = lawmaticsID m)) as [Heq|Hne].
        -- exists st. split; [|done]. rewrite Hmf, Heq.
           apply displayStatus_setStatus. by rewrite Hreg, <- Heq.
        -- rewrite Hmf, displayStatus_setStatus_ne by done. by apply Hdisp.
      * apply list_elem_of_singleton in Hx as ->.
        exists st. split; [|done]. rewrite Hmf.
        apply displayStatus_setStatus. by rewrite Hreg.
Qed.

(** A targeted batch that finds at least one matter, with everything the
    properties below need. *)
Lemma processMultipleMatters_effect E ids s :
  let matters :=
    List.filter (λ m, bool_decide (lawmaticsID m ∈ ids)) (mapFile s) in
  let s' := (Controller.processMultipleMatters E ids s).2 in
  extends (default ∅ (stateFile s)) (default ∅ (stateFile s')) ∧
  (matters ≠ [] → stateFile s' = Some (lastProcessedState s') ∧
                   lastRun s' = Some (now E)) ∧
  (matters = [] → s' = s) ∧
  ∀ m, m ∈ matters →
    if idle s m
    then ∃ st, displayStatus (lawmaticsID m) (mapFile s') = Some st ∧
               st ∈ batchStatuses
    else displayStatus (lawmaticsID m) (mapFile s') = Some "Processing...".
Proof.
  intros matters s'. subst s'.
  unfold Controller.processMultipleMatters, Controller.getMattersByIds,
    Controller.loadMatters.
  rewrite bind_run, bind_run. unfold gets. cbn [fst snd ret].
  fold matters.
  destruct matters as [|m0 matters0] eqn:Hmatters.
  { cbn. split; [apply extends_refl|]. repeat split; try done.
    intros m Hm. by apply elem_of_nil in Hm. }
  rewrite <- Hmatters.
  assert (Hlen : (length matters =? 0)%nat = false) by (by rewrite Hmatters).
  rewrite Hlen.
  rewrite bind_run. cbn [loadLastProcessedState modify fst snd].
  rewrite bind_run.
  set (s1 := set_lastProcessedState _ s).
  destruct (status_loop_effect E matters s1)
    as (s2 & -> & Hcp2 & Hsf2 & Hlps2 & Hreg2 & Hdisp2).
  rewrite bind_run.
  destruct (batch_loop_effect E (getTodayDateKey E) matters ([], 0%nat) s2)
    as (acc & s3 & -> & Hcp3 & Hsf3 & Hgrow3 & Hreg3 & Hbusy3 & Hdisp3).
  rewrite bind_run. cbn [saveLastProcessedState modify fst snd].
  rewrite bind_run. cbn [modify fst snd].
  rewrite bind_run. unfold Controller.saveStatus. cbn [modify fst snd].
  rewrite bind_run.
  assert (Hregistry : ∀ m, m ∈ matters → registered (lawmaticsID m) (mapFile s) = true).
  { intros m Hm. apply registered_elem_of.
    unfold matters in Hm. apply list_elem_of_In, filter_In in Hm as [Hm _].
    by apply list_elem_of_In. }
  assert (Hfinal :
    extends (default ∅ (stateFile s)) (lastProcessedState s3) ∧
    ∀ m, m ∈ matters →
      if idle s m
      then ∃ st, displayStatus (lawmaticsID m) (mapFile s3) = Some st ∧
                 st ∈ batchStatuses
      else displayStatus (lawmaticsID m) (mapFile s3) = Some "Processing...").
  { split.
    - rewrite Hlps2 in Hgrow3. exact Hgrow3.
    - intros m Hm. pose proof (Hregistry m Hm) as Hregm.
      destruct (idle s m) eqn:Hidle.
      + apply Hdisp3; [done| |by rewrite Hreg2].
        unfold idle in *. by rewrite Hcp2.
      + rewrite Hbusy3.
        * by apply Hdisp2.
        * rewrite Hcp2. cbn. unfold idle in Hidle.
          destruct (decide (lawmaticsID m ∈ currentlyProcessing s)) as [|Hout];
            [done|].
          by rewrite bool_decide_eq_false_2 in Hidle. }
  destruct Hfinal as [Hgrow Hstatuses].
  destruct (acc.2 =? 0)%nat.
  - unfold try_catch. rewrite sendConfirmationEmail_run.
    cbn [fst snd bind ret stateFile lastRun mapFile log set_statusFile set_lastRun
         set_stateFile lastProcessedState default from_option id].
    split; [done|]. split; [done|].
    split; [intros Hnil; by rewrite Hnil in Hlen|]. exact Hstatuses.
  - cbn [fst snd bind ret stateFile lastRun mapFile log set_statusFile set_lastRun
         set_stateFile lastProcessedState default from_option id].
    split; [done|]. split; [done|].
    split; [intros Hnil; by rewrite Hnil in Hlen|]. exact Hstatuses.
Qed.

(** X13. The two targeted entry points of the controller move the state
    file forward only: after [processSingleMatter] and after
    [processMultipleMatters], whatever happened inside (documents
    processed, nothing new, matter unknown or in flight, exception), every
    marker the file held before is still there with a value that is not
    smaller in the order of strings.  A batch that finds a matter writes
    the file with the state it ends with and records the time of the run;
    a batch that finds none changes nothing. *)
Theorem controller_state_file_monotone (E : Env) (s : Store) :
  (∀ id,
     extends (default ∅ (stateFile s))
             (default ∅ (stateFile (Controller.processSingleMatter E id s).2))) ∧
  (∀ ids,
     let s' := (Controller.processMultipleMatters E ids s).2 in
     extends (default ∅ (stateFile s)) (default ∅ (stateFile s')) ∧
     match List.filter (λ m, bool_decide (lawmaticsID m ∈ ids)) (mapFile s) with
     | [] => s' = s
     | _ :: _ => stateFile s' = Some (lastProcessedState s') ∧
                 lastRun s' = Some (now E)
     end).
Proof.
  split.
  - intros id. apply processSingleMatter_state_file.
  - intros ids.
    destruct (processMultipleMatters_effect E ids s) as (Hgrow & Hsome & Hnone & _).
    split; [exact Hgrow|].
    destruct (List.filter _ (mapFile s)) as [|m matters].
    + by apply Hnone.
    + by apply Hsome.
Qed.

(** X14. After a targeted batch, every matter it found has a display
    status: one of the three values that end an attempt when the matter
    was not in flight, whatever happened inside the attempt, and
    "Processing..." when it was in flight, because the batch marks every
    matter it found before it looks at the in-flight set and skips the
    matter afterwards. *)
Theorem batch_display_statuses (E : Env) (ids : list string) (s : Store)
    (m : Matter) :
  let matters :=
    List.filter (λ m, bool_decide (lawmaticsID m ∈ ids)) (mapFile s) in
  let s' := (Controller.processMultipleMatters E ids s).2 in
  m ∈ matters →
  if idle s m
  then ∃ st, displayStatus (lawmaticsID m) (mapFile s') = Some st ∧
             st ∈ batchStatuses
  else displayStatus (lawmaticsID m) (mapFile s') = Some "Processing...".
Proof.
  intros matters s' Hm.
  destruct (processMultipleMatters_effect E ids s) as (_ & _ & _ & Hstatuses).
  by apply Hstatuses.
Qed.

Lemma batch_display_statuses_witness :
  (if idle busyStore trademarkMatter
   then ∃ st,
     displayStatus "L-1"
       (mapFile (Controller.processMultipleMatters sampleEnv ["L-1"; "L-2"]
                   busyStore).2) = Some st ∧
     st ∈ batchStatuses
   else
     displayStatus "L-1"
       (mapFile (Controller.processMultipleMatters sampleEnv ["L-1"; "L-2"]
                   busyStore).2) = Some "Processing...") ∧
  (if idle busyStore patentMatter
   then ∃ st,
     displayStatus "L-2"
       (mapFile (Controller.processMultipleMatters sampleEnv ["L-1"; "L-2"]
                   busyStore).2) = Some st ∧
     st ∈ batchStatuses
   else
     displayStatus "L-2"
       (mapFile (Controller.processMultipleMatters sampleEnv ["L-1"; "L-2"]
                   busyStore).2) = Some "Processing...").
Proof.
  split.
  - apply (batch_display_statuses sampleEnv ["L-1"; "L-2"] busyStore trademarkMatter).
    vm_compute. apply list_elem_of_here.
  - apply (batch_display_statuses sampleEnv ["L-1"; "L-2"] busyStore patentMatter).
    vm_compute. apply list_elem_of_further, list_elem_of_here.
Defined.

(** In the sample world with the trademark matter in flight. *)
Example batch_display_statuses_sample :
  let s' := (Controller.processMultipleMatters sampleEnv ["L-1"; "L-2"] busyStore).2 in
  displayStatus "L-1" (mapFile s') = Some "Processing..." ∧
  displayStatus "L-2" (mapFile s') = Some "Automation Completed".
Proof. vm_compute. split; reflexivity. Qed.

(** ** Forgetting a marker *)

Lemma isNewDocument_falsy t marker today :
  truthy marker = false →
  isNewDocument t marker today = isNewDocument t None today.
Proof. unfold isNewDocument. by intros ->. Qed.

(** X15. [resetApplicationState] makes the next run treat the application
    as never processed: with the marker left in the state file the novelty
    filter answers as it does without a marker.  The markers of the other
    applications are as they were, nothing is called, and the file is not
    written when there was no marker to remove. *)
Theorem resetApplicationState_forgets (applicationNumber : string) (s : Store) :
  let s' := (resetApplicationState applicationNumber s).2 in
  (∀ t today,
     isNewDocument t (default ∅ (stateFile s') !! applicationNumber) today
     = isNewDocument t None today) ∧
  (∀ k, k ≠ applicationNumber →
     default ∅ (stateFile s') !! k = default ∅ (stateFile s) !! k) ∧
  (truthy (default ∅ (stateFile s) !! applicationNumber) = false →
   stateFile s' = stateFile s) ∧
  trace s' = trace s ∧ mapFile s' = mapFile s.
Proof.
  unfold resetApplicationState.
  rewrite bind_run. cbn [loadLastProcessedState modify fst snd].
  rewrite bind_run. unfold gets.
  cbn [fst snd lastProcessedState set_lastProcessedState].
  destruct (truthy (default ∅ (stateFile s) !! applicationNumber)) eqn:Hmarker.
  - rewrite bind_run.
    cbn [modify saveLastProcessedState fst snd stateFile set_stateFile
         lastProcessedState set_lastProcessedState trace mapFile].
    change (default ∅ (Some ?m)) with m.
    split; [intros t today; by rewrite lookup_delete_eq|].
    split; [intros k Hk; by rewrite lookup_delete_ne|]. done.
  - cbn [ret fst snd stateFile set_lastProcessedState trace mapFile].
    split; [intros t today; by apply isNewDocument_falsy|]. done.
Qed.

(** After the reset of a processed matter the document of the first of
    March is new again on that day. *)
Example resetApplicationState_sample :
  let s' := (resetApplicationState "12345" doneStore).2 in
  default ∅ (stateFile s') !! "12345" = None ∧
  default ∅ (stateFile s') !! "17000001" = Some "2024-03-02" ∧
  isNewDocument 1709251200000 (default ∅ (stateFile doneStore) !! "12345") "2024-03-01"
    = false ∧
  isNewDocument 1709251200000 (default ∅ (stateFile s') !! "12345") "2024-03-01"
    = true.
Proof. vm_compute. repeat split; reflexivity. Qed.

(** ** The routes on the matter registry *)

Lemma strictEq_string (a b : string) :
  Server.strictEq (JString a) (JString b) = true ↔ a = b.
Proof. cbn. apply String.eqb_eq. Qed.

Lemma strictEq_not_string (value : Json) (param : string) :
  (∀ text, value ≠ JString text) →
  Server.strictEq (Server.stringify value) (JString param) = false.
Proof. intros Hvalue. destruct value; try done. by destruct (Hvalue s). Qed.

Lemma stringify_idemp (value : Json) :
  Server.stringify (Server.stringify value) = Server.stringify value.
Proof. by destruct value. Qed.

Lemma stringifyStored_idemp (entry : Server.Stored) :
  Server.stringifyStored (Server.stringifyStored entry) = Server.stringifyStored entry.
Proof.
  unfold Server.stringifyStored. cbn. by rewrite !stringify_idemp.
Qed.

(** What [writeMapFile] writes is as [JSON.stringify] writes it, and
    writing such a content changes nothing. *)
Lemma writeMapFile_asWritten (data : list Server.Stored) :
  asWritten (Server.writeMapFile data).
Proof.
  unfold asWritten, Server.writeMapFile. apply Forall_fmap, Forall_true.
  intros entry. apply stringifyStored_idemp.
Qed.

Lemma writeMapFile_same (file : list Server.Stored) :
  asWritten file → Server.writeMapFile file = file.
Proof.
  unfold asWritten, Server.writeMapFile.
  induction 1 as [|entry file Hentry _ IH]; [done|].
  by rewrite fmap_cons, Hentry, IH.
Qed.

Lemma writeMapFile_snoc (file : list Server.Stored) (entry : Server.Stored) :
  asWritten file →
  Server.writeMapFile (file ++ [entry]) = file ++ [Server.stringifyStored entry].
Proof.
  intros Hfile. unfold Server.writeMapFile. rewrite fmap_app.
  change (Server.stringifyStored <$> file) with (Server.writeMapFile file).
  by rewrite writeMapFile_same.
Qed.

Lemma asWritten_filter (f : Server.Stored → bool) (file : list Server.Stored) :
  asWritten file → asWritten (List.filter f file).
Proof.
  unfold asWritten. induction 1 as [|entry file Hentry _ IH]; [constructor|].
  cbn [List.filter]. destruct (f entry); [by constructor|done].
Qed.

Lemma asWritten_toStored (matters : list Matter) :
  asWritten (Server.toStored <$> matters).
Proof.
  unfold asWritten. apply Forall_fmap, Forall_true.
  intros m. unfold Server.toStored, Server.stringifyStored. cbn.
  by destruct (status m).
Qed.

Lemma find_strictEq_None {A} (key : A → Json) (value : Json) (l : list A) :
  List.find (λ item, Server.strictEq (key item) value) l = None
  ↔ Forall (λ item, Server.strictEq (key item) value = false) l.
Proof.
  induction l as [|x l IH]; cbn [List.find].
  - split; [constructor|done].
  - destruct (Server.strictEq (key x) value) eqn:Hx.
    + split; [done|]. intros Hall. apply Forall_cons in Hall as [Hx' _]. congruence.
    + rewrite IH. split; [by constructor|]. intros Hall.
      by apply Forall_cons in Hall as [_ ?].
Qed.

Lemma filter_strictEq_all {A} (key : A → Json) (value : Json) (l : list A) :
  Forall (λ item, Server.strictEq (key item) value = false) l →
  List.filter (λ item, negb (Server.strictEq (key item) value)) l = l.
Proof.
  induction 1 as [|x l Hx _ IH]; [done|].
  cbn [List.filter]. by rewrite Hx, IH.
Qed.

Lemma distinct_snoc (keys : list Json) (key : Json) :
  distinct (keys ++ [key])
  ↔ distinct keys ∧ Forall (λ earlier, Server.strictEq earlier key = false) keys.
Proof.
  induction keys as [|k keys IH]; cbn [distinct List.app].
  - split; [intros _; split; [done|constructor]|intros _; split; [constructor|done]].
  - rewrite IH, Forall_app, Forall_singleton, Forall_cons. tauto.
Qed.

Lemma distinct_fmap_filter {A} (key : A → Json) (f : A → bool) (l : list A) :
  distinct (key <$> l) → distinct (key <$> List.filter f l).
Proof.
  induction l as [|x l IH]; [done|].
  rewrite fmap_cons. cbn [distinct List.filter]. intros [Hx Hl].
  destruct (f x); [|by apply IH].
  rewrite fmap_cons. cbn [distinct]. split; [|by apply IH].
  apply Forall_fmap. apply Forall_fmap in Hx.
  apply Forall_forall. intros y Hy.
  apply (proj1 (Forall_forall _ _) Hx).
  apply list_elem_of_In. apply list_elem_of_In, filter_In in Hy. tauto.
Qed.

Lemma distinct_strings (keys : list string) :
  distinct (JString <$> keys) ↔ NoDup keys.
Proof.
  induction keys as [|k keys IH]; [split; [constructor|done]|].
  rewrite fmap_cons, NoDup_cons. cbn [distinct]. rewrite IH, Forall_fmap.
  split; intros [Hk Hkeys]; (split; [|done]).
  - intros Hin. apply (proj1 (Forall_forall _ _) Hk) in Hin.
    cbn in Hin. by rewrite String.eqb_refl in Hin.
  - apply Forall_forall. intros other Hother. cbn.
    apply String.eqb_neq. by intros ->.
Qed.

(** On a registry whose keys are strings, the keys are unique exactly when
    none occurs twice. *)
Lemma uniqueKeys_toStored (matters : list Matter) :
  uniqueKeys (Server.toStored <$> matters)
  ↔ NoDup (applicationNumber <$> matters) ∧ NoDup (lawmaticsID <$> matters).
Proof.
  unfold uniqueKeys. rewrite <- !list_fmap_compose.
  change (Server.storedApplicationNumber ∘ Server.toStored)
    with (JString ∘ applicationNumber).
  change (Server.storedLawmaticsID ∘ Server.toStored)
    with (JString ∘ lawmaticsID).
  by rewrite !list_fmap_compose, !distinct_strings.
Qed.

(** What [POST /api/matters] does. *)
Lemma postMatter_run E body file :
  let newMatter :=
    Server.mkStored (Server.bodyApplicationNumber body) (Server.bodyLawmaticsID body)
      (Server.bodyType body) (JString "Pending Automation") (Some (now E)) in
  (Server.postMatter E body file
     = (Server.Added newMatter, Server.writeMapFile (file ++ [newMatter])) ∧
   Server.json_truthy (Server.bodyApplicationNumber body) = true ∧
   Server.json_truthy (Server.bodyLawmaticsID body) = true ∧
   Server.json_truthy (Server.bodyType body) = true ∧
   Forall (λ item, Server.strictEq (Server.storedApplicationNumber item)
                     (Server.bodyApplicationNumber body) = false) file ∧
   Forall (λ item, Server.strictEq (Server.storedLawmaticsID item)
                     (Server.bodyLawmaticsID body) = false) file)
  ∨ ∃ error, Server.postMatter E body file = (Server.Failure 400 error, file).
Proof.
  intros newMatter. unfold Server.postMatter, Server.readMapFile.
  destruct (Server.json_truthy (Server.bodyApplicationNumber body)) eqn:Happ;
    cbn [negb orb]; [|right; by eexists].
  destruct (Server.json_truthy (Server.bodyLawmaticsID body)) eqn:Hid;
    cbn [negb orb]; [|right; by eexists].
  destruct (Server.json_truthy (Server.bodyType body)) eqn:Hty;
    cbn [negb orb]; [|right; by eexists].
  destruct (List.find (λ item, Server.strictEq (Server.storedApplicationNumber item)
                                 (Server.bodyApplicationNumber body)) file)
    eqn:Hfind1; [right; by eexists|].
  destruct (List.find (λ item, Server.strictEq (Server.storedLawmaticsID item)
                                 (Server.bodyLawmaticsID body)) file)
    eqn:Hfind2; [right; by eexists|].
  left. split; [reflexivity|].
  apply find_strictEq_None in Hfind1, Hfind2. done.
Qed.

Lemma fmap_insert_same {A B} (key : A → B) (i : nat) (x y : A) (l : list A) :
  l !! i = Some x → key y = key x → key <$> <[i := y]> l = key <$> l.
Proof.
  revert i. induction l as [|z l IH]; intros [|i]; simpl; try done.
  - intros [= ->] Hk. by rewrite Hk.
  - intros Hi Hk. f_equal. by apply IH.
Qed.

Lemma alter_as_insert {A} (f : A → A) (i : nat) (x : A) (l : list A) :
  l !! i = Some x → alter f i l = <[i := f x]> l.
Proof.
  revert i. induction l as [|y l IH]; intros [|i]; simpl; try done.
  - by intros [= ->].
  - intros Hi. f_equal. by apply IH.
Qed.

(** The keys of the file after [PUT] has written it. *)
Lemma putMatter_keys (key : Server.Stored → Json) (file : list Server.Stored)
    (i : nat) (old new : Server.Stored) :
  (∀ entry, key (Server.stringifyStored entry) = Server.stringify (key entry)) →
  asWritten file →
  file !! i = Some old → key new = key old →
  key <$> Server.writeMapFile (<[i := new]> file) = key <$> file.
Proof.
  intros Hkey Hfile Hi Hnew. unfold Server.writeMapFile.
  rewrite <- list_fmap_compose.
  rewrite (list_fmap_ext (key ∘ Server.stringifyStored) (Server.stringify ∘ key)
             (<[i := new]> file)) by (intros ? entry _; apply Hkey).
  rewrite list_fmap_compose, (fmap_insert_same key i old new) by done.
  rewrite <- list_fmap_compose.
  rewrite <- (list_fmap_ext (key ∘ Server.stringifyStored) (Server.stringify ∘ key)
                file) by (intros ? entry _; apply Hkey).
  rewrite list_fmap_compose. f_equal. by apply writeMapFile_same.
Qed.

(** X16. The routes keep the keys of the registry unique.  Let the file be
    as the server writes it, with no two entries that share an application
    number or a CRM identifier under [===].  Then the same holds after a
    request to update or to delete a matter, whatever the request carries,
    and after a request to add a matter unless one of its keys is a number
    beyond the range of doubles.  A matter is added only with keys that are
    truthy and that no entry has, at the end of the registry. *)
Theorem registry_keys_unique (E : Env) (file : list Server.Stored) :
  asWritten file →
  uniqueKeys file →
  (∀ body,
     asWritten (Server.postMatter E body file).2 ∧
     (finiteKeys body → uniqueKeys (Server.postMatter E body file).2) ∧
     ∀ m, (Server.postMatter E body file).1 = Server.Added m →
       Server.json_truthy (Server.storedApplicationNumber m) = true ∧
       Server.json_truthy (Server.storedLawmaticsID m) = true ∧
       Forall (λ item, Server.strictEq (Server.storedApplicationNumber item)
                         (Server.storedApplicationNumber m) = false) file ∧
       Forall (λ item, Server.strictEq (Server.storedLawmaticsID item)
                         (Server.storedLawmaticsID m) = false) file ∧
       (Server.postMatter E body file).2 = file ++ [Server.stringifyStored m]) ∧
  (∀ param status,
     asWritten (Server.putMatter E param status file).2 ∧
     uniqueKeys (Server.putMatter E param status file).2) ∧
  (∀ param,
     asWritten (Server.deleteMatter param file).2 ∧
     uniqueKeys (Server.deleteMatter param file).2).
Proof.
  intros Hfile [Happs Hids]. split; [|split].
  - intros body. destruct (postMatter_run E body file)
      as [(-> & Happ & Hid & _ & Hfresh1 & Hfresh2)|[error ->]].
    + cbn [fst snd]. split; [apply writeMapFile_asWritten|].
      rewrite writeMapFile_snoc by done.
      split.
      * intros [Hfinite1 Hfinite2].
        split; rewrite fmap_app; cbn [fmap list_fmap Server.stringifyStored
          Server.storedApplicationNumber Server.storedLawmaticsID];
          apply distinct_snoc; (split; [done|]); apply Forall_fmap.
        -- by rewrite Hfinite1.
        -- by rewrite Hfinite2.
      * intros m [= <-]. done.
    + cbn [fst snd]. split; [done|]. split; [done|]. intros m [=].
  - intros param status. unfold Server.putMatter, Server.readMapFile.
    destruct (list_find _ file) as [[i m]|] eqn:Hfind; [|done].
    apply list_find_Some in Hfind as (Hi & _ & _).
    cbn [fst snd]. split; [apply writeMapFile_asWritten|].
    split.
    + by rewrite (putMatter_keys Server.storedApplicationNumber file i m).
    + by rewrite (putMatter_keys Server.storedLawmaticsID file i m).
  - intros param. unfold Server.deleteMatter, Server.readMapFile.
    destruct (_ =? _)%nat; [done|].
    cbn [fst snd]. split; [apply writeMapFile_asWritten|].
    rewrite writeMapFile_same by (by apply asWritten_filter).
    split; by apply distinct_fmap_filter.
Qed.

Lemma registry_keys_unique_witness :
  let file := Server.toStored <$> [trademarkMatter; patentMatter] in
  (∀ body,
     asWritten (Server.postMatter sampleEnv body file).2 ∧
     (finiteKeys body → uniqueKeys (Server.postMatter sampleEnv body file).2) ∧
     ∀ m, (Server.postMatter sampleEnv body file).1 = Server.Added m →
       Server.json_truthy (Server.storedApplicationNumber m) = true ∧
       Server.json_truthy (Server.storedLawmaticsID m) = true ∧
       Forall (λ item, Server.strictEq (Server.storedApplicationNumber item)
                         (Server.storedApplicationNumber m) = false) file ∧
       Forall (λ item, Server.strictEq (Server.storedLawmaticsID item)
                         (Server.storedLawmaticsID m) = false) file ∧
       (Server.postMatter sampleEnv body file).2
         = file ++ [Server.stringifyStored m]) ∧
  (∀ param status,
     asWritten (Server.putMatter sampleEnv param status file).2 ∧
     uniqueKeys (Server.putMatter sampleEnv param status file).2) ∧
  (∀ param,
     asWritten (Server.deleteMatter param file).2 ∧
     uniqueKeys (Server.deleteMatter param file).2).
Proof.
  apply (registry_keys_unique sampleEnv
           (Server.toStored <$> [trademarkMatter; patentMatter])).
  - apply asWritten_toStored.
  - split; cbn; repeat constructor.
Defined.

(** A key beyond the range of doubles is read as an infinity, passes for a
    new key every time and is written as [null]: two requests that carry
    the application number [1e999] leave two entries whose application
    number is [null]. *)
Example overflowing_key_twice :
  let file := Server.toStored <$> [trademarkMatter; patentMatter] in
  let first :=
    Server.postMatter sampleEnv
      (Server.mkMatterBody (JInfinity false) (JString "L-8") (JString "Patent"))
      file in
  let second :=
    Server.postMatter sampleEnv
      (Server.mkMatterBody (JInfinity false) (JString "L-9") (JString "Patent"))
      first.2 in
  Server.storedApplicationNumber <$> second.2
    = [JString "12345"; JString "17000001"; JNull; JNull] ∧
  ¬ uniqueKeys second.2.
Proof.
  split; [reflexivity|].
  intros [Happs _]. cbn in Happs.
  destruct Happs as (_ & _ & Hnull & _).
  apply Forall_cons in Hnull as [Hnull _]. discriminate.
Qed.

(** X17. A matter that was added with a string for its CRM identifier is
    removed again by the request to delete it by that identifier: the
    answer counts one deleted entry and the registry is what it was before
    the matter was added.  A matter that was added with an identifier that
    is not a string (the number 42, say) cannot be removed this way: the
    route compares with the text of the address by [!==], and no request to
    delete removes the entry. *)
Theorem post_then_delete (E : Env) (body : Server.MatterBody)
    (file file1 : list Server.Stored) (m : Server.Stored) :
  asWritten file →
  Server.postMatter E body file = (Server.Added m, file1) →
  Server.storedStatus m = JString "Pending Automation" ∧
  (∀ id, Server.bodyLawmaticsID body = JString id →
     Server.deleteMatter id file1 = (Server.Deleted 1, file)) ∧
  ((∀ id, Server.bodyLawmaticsID body ≠ JString id) →
   ∀ param, Server.stringifyStored m ∈ (Server.deleteMatter param file1).2).
Proof.
  intros Hfile Hpost.
  destruct (postMatter_run E body file)
    as [(Hrun & _ & _ & _ & _ & Hfresh)|[error Hrun]];
    rewrite Hrun in Hpost; [|done].
  injection Hpost as <- <-. split; [done|].
  rewrite writeMapFile_snoc by done. split.
  - intros id Hid. rewrite Hid in *.
    unfold Server.deleteMatter, Server.readMapFile.
    rewrite List.filter_app, (filter_strictEq_all Server.storedLawmaticsID) by done.
    cbn [List.filter Server.stringifyStored Server.storedLawmaticsID
         Server.stringify Server.strictEq].
    rewrite String.eqb_refl. cbn [negb].
    rewrite app_nil_r, length_app. cbn [length].
    replace (length file =? length file + 1)%nat with false
      by (symmetry; apply Nat.eqb_neq; lia).
    rewrite (writeMapFile_same file Hfile). do 2 f_equal. lia.
  - intros Hother param.
    unfold Server.deleteMatter, Server.readMapFile.
    rewrite List.filter_app.
    cbn [List.filter Server.stringifyStored Server.storedLawmaticsID].
    rewrite strictEq_not_string by done. cbn [negb].
    destruct (_ =? _)%nat; cbn [snd].
    + apply elem_of_app. right. apply list_elem_of_singleton. done.
    + unfold Server.writeMapFile. rewrite fmap_app. apply elem_of_app. right.
      cbn [fmap list_fmap]. rewrite stringifyStored_idemp.
      apply list_elem_of_singleton. done.
Qed.

Lemma post_then_delete_witness :
  let file := Server.toStored <$> [trademarkMatter; patentMatter] in
  let body :=
    Server.mkMatterBody (JString "90000001") (JString "L-3") (JString "Trademark") in
  let m :=
    Server.mkStored (JString "90000001") (JString "L-3") (JString "Trademark")
      (JString "Pending Automation") (Some (now sampleEnv)) in
  Server.storedStatus m = JString "Pending Automation" ∧
  (∀ id, Server.bodyLawmaticsID body = JString id →
     Server.deleteMatter id (file ++ [m]) = (Server.Deleted 1, file)) ∧
  ((∀ id, Server.bodyLawmaticsID body ≠ JString id) →
   ∀ param,
     Server.stringifyStored m ∈ (Server.deleteMatter param (file ++ [m])).2).
Proof.
  apply (post_then_delete sampleEnv
           (Server.mkMatterBody (JString "90000001") (JString "L-3")
              (JString "Trademark"))
           (Server.toStored <$> [trademarkMatter; patentMatter])).
  - apply asWritten_toStored.
  - reflexivity.
Defined.

(** The identifier sent as the number 42: the matter is added, and the
    request to delete [/api/matters/42] answers 404 and leaves it there. *)
Example delete_number_identifier :
  let file := Server.toStored <$> [trademarkMatter; patentMatter] in
  let m :=
    Server.mkStored (JString "90000001") (JNumber (Qc_of_Z 42)) (JString "Trademark")
      (JString "Pending Automation") (Some (now sampleEnv)) in
  Server.postMatter sampleEnv
    (Server.mkMatterBody (JString "90000001") (JNumber (Qc_of_Z 42))
       (JString "Trademark")) file
  = (Server.Added m, file ++ [m]) ∧
  Server.deleteMatter "42" (file ++ [m])
  = (Server.Failure 404 "Matter not found", file ++ [m]).
Proof. split; reflexivity. Qed.

Lemma list_find_toStored (id : string) (matters : list Matter) :
  list_find (λ item, Server.strictEq (Server.storedLawmaticsID item) (JString id) = true)
    (Server.toStored <$> matters)
  = prod_map (λ i, i) Server.toStored <$> list_find (λ m, lawmaticsID m = id) matters.
Proof.
  induction matters as [|m matters IH]; [done|].
  rewrite fmap_cons. cbn [list_find].
  destruct (decide (lawmaticsID m = id)) as [Heq|Hne].
  - rewrite decide_True by (by apply (proj2 (strictEq_string _ _))). done.
  - rewrite decide_False
      by (intros Heq; by apply (proj1 (strictEq_string _ _)) in Heq).
    rewrite IH. by destruct (list_find _ matters) as [[i found]|].
Qed.

Lemma toStored_insert (i : nat) (m : Matter) (matters : list Matter) :
  Server.toStored <$> <[i := m]> matters
  = <[i := Server.toStored m]> (Server.toStored <$> matters).
Proof. apply list_fmap_insert. Qed.

(** What [PUT /api/matters/:lawmaticsID] does to a registry of strings:
    with a string for the status, what [updateMatterStatus] does. *)
Lemma putMatter_run E id st (matters : list Matter) :
  ∃ answer,
    Server.putMatter E id (JString st) (Server.toStored <$> matters)
      = (answer, Server.toStored <$> setStatus E id st matters) ∧
    match answer with
    | Server.Updated m =>
        registered id matters = true ∧ Server.storedLawmaticsID m = JString id ∧
        Server.storedStatus m = JString st
    | Server.Failure code _ => code = 404%nat ∧ registered id matters = false
    | _ => False
    end.
Proof.
  unfold Server.putMatter, Server.readMapFile, setStatus, registered.
  rewrite list_find_toStored.
  destruct (list_find _ matters) as [[i m]|] eqn:Hfind; cbn [fmap option_fmap option_map prod_map fst snd].
  - apply list_find_Some in Hfind as (Hi & Hm & _).
    eexists. split.
    + rewrite (alter_as_insert _ _ _ _ Hi), toStored_insert.
      change (Server.mkStored _ _ _ (JString st) (Some (now E)))
        with (Server.toStored (Controller.withStatus E st m)).
      rewrite writeMapFile_same; [reflexivity|].
      rewrite <- toStored_insert. apply asWritten_toStored.
    + cbn. by rewrite Hm.
  - eexists. split; [reflexivity|done].
Qed.

(** X18. A request to set the status of a matter changes [map.json]
    exactly as [updateMatterStatus] of the controller does for the same
    identifier and status: the first entry with the identifier gets the
    status and the time of the update, the others stay; and it answers 404,
    changing nothing, exactly when [updateMatterStatus] returns false. *)
Theorem putMatter_as_updateMatterStatus (E : Env) (id st : string) (s : Store) :
  let file := Server.toStored <$> mapFile s in
  let put := Server.putMatter E id (JString st) file in
  let update := Controller.updateMatterStatus E id st s in
  put.2 = Server.toStored <$> mapFile update.2 ∧
  match put.1 with
  | Server.Updated m =>
      update.1 = Normal true ∧ Server.storedLawmaticsID m = JString id ∧
      Server.storedStatus m = JString st ∧
      displayStatus id (mapFile update.2) = Some st
  | Server.Failure code _ =>
      code = 404%nat ∧ update.1 = Normal false ∧ put.2 = file
  | _ => False
  end.
Proof.
  cbv zeta. rewrite updateMatterStatus_run.
  destruct (putMatter_run E id st (mapFile s)) as (answer & -> & Hanswer).
  cbn [fst snd mapFile set_mapFile log]. split; [done|].
  destruct answer as [| |m| |code error]; try done.
  - destruct Hanswer as (Hreg & Hid & Hst). rewrite Hreg.
    split; [done|]. split; [done|]. split; [done|].
    by apply displayStatus_setStatus.
  - destruct Hanswer as [-> Hreg]. rewrite Hreg. split; [done|]. split; [done|].
    by rewrite setStatus_unregistered.
Qed.

(** ** The report of latest dates *)

Lemma length_append (a b : string) :
  String.length (a +:+ b) = (String.length a + String.length b)%nat.
Proof.
  induction a as [|x a IH]; [done|].
  rewrite append_cons. cbn [String.length]. by rewrite IH.
Qed.

Lemma length_digits (w : nat) : ∀ n, String.length (digits w n) = w.
Proof.
  induction w as [|w IH]; intros n; [done|].
  cbn [digits]. rewrite length_append, IH. cbn [String.length]. lia.
Qed.

(** A date string has at least the ten characters of [YYYY-MM-DD]. *)
Lemma toISODate_length (t : Z) : (10 ≤ String.length (toISODate t))%nat.
Proof.
  unfold toISODate. destruct (civil (Day t)) as [[y m] d].
  rewrite !length_append, !length_digits. cbn [String.length].
  unfold isoYear. destruct ((0 <=? y) && (y <=? 9999)); [|destruct (y <? 0)];
    rewrite ?length_append, length_digits; cbn [String.length]; lia.
Qed.

(** The row of a matter, from what [fetchByType] of the monitor returns
    for it. *)
Lemma reportRow_run E m s :
  ∃ fetched,
    outcome (Monitor.fetchByType E m) = Normal fetched ∧
    let latestDoc := fetched ≫= head in
    let lastProcessedDate :=
      or_else (lastProcessedState s !! applicationNumber m) "Never" in
    let latestDocDate :=
      match latestDoc with
      | Some doc => toISODate (date doc)
      | None => "No documents"
      end in
    Report.reportRow E m s
    = (Normal (Report.mkRow (lawmaticsID m) (applicationNumber m) (type m)
                 latestDocDate lastProcessedDate
                 (match latestDoc with
                  | Some doc => description doc
                  | None => "N/A"
                  end)
                 (if String.eqb lastProcessedDate latestDocDate
                  then "Up to date" else "Update available")),
       log (emitted (Monitor.fetchByType E m)) s).
Proof.
  unfold Report.reportRow.
  rewrite monitor_fetchByType_emitted.
  unfold outcome, Monitor.fetchByType.
  destruct (fetchAllTrademarkDocs_run E (applicationNumber m) blank)
    as (tm & Htm & _).
  destruct (fetchAllPatentDocs_run E (applicationNumber m) blank)
    as (pt & Hpt & _).
  destruct (fetchAllTrademarkDocs_run E (applicationNumber m) s)
    as (tm' & Htm' & _).
  destruct (fetchAllPatentDocs_run E (applicationNumber m) s)
    as (pt' & Hpt' & _).
  assert (tm' = tm) as ->.
  { pose proof (observer_run _
      (MonitorFacts.monitor_observer_fetchAllTrademarkDocs E (applicationNumber m)))
      as Hobs.
    rewrite Hobs in Htm, Htm'. congruence. }
  assert (pt' = pt) as ->.
  { pose proof (observer_run _
      (MonitorFacts.monitor_observer_fetchAllPatentDocs E (applicationNumber m)))
      as Hobs.
    rewrite Hobs in Hpt, Hpt'. congruence. }
  destruct (String.eqb (type m) "Patent").
  - exists (Some pt). rewrite bind_run, Hpt. split; [done|]. cbv zeta.
    rewrite bind_run, bind_run, Hpt'. reflexivity.
  - destruct (String.eqb (type m) "Trademark").
    + exists (Some tm). rewrite bind_run, Htm. split; [done|]. cbv zeta.
      rewrite bind_run, bind_run, Htm'. reflexivity.
    + exists None. split; [done|]. cbv zeta.
      rewrite bind_run. cbn [ret fst snd bind gets]. by rewrite log_nil.
Qed.

(** X19. A row of the report that says "Up to date" means that a run of
    the monitor on the matter has nothing to do: [processMatter], on any
    day, reports that nothing was processed, makes the request to the
    registry and no other call and changes no marker.  The documents of
    the registry are dated from year 0000 to year 9999. *)
Theorem report_up_to_date (E : Env) (matter : Matter) (s s' : Store)
    (row : Report.Row) (todayDate : string) :
  (∀ allDocs, outcome (Monitor.fetchByType E matter) = Normal (Some allDocs) →
     Forall (λ doc, fourDigitYear (date doc)) allDocs) →
  Report.reportRow E matter s = (Normal row, s') →
  Report.rowStatus row = "Up to date" →
  ∃ r,
    Monitor.processMatter E matter todayDate s
      = (Normal r,
         log (EProcessing (applicationNumber matter)
                :: emitted (Monitor.fetchByType E matter)) s) ∧
    Monitor.processed r = false.
Proof.
  intros Hyears Hrow Hstatus.
  destruct (reportRow_run E matter s) as (fetched & Hfetch & Hrun).
  cbv zeta in Hrun. rewrite Hrun in Hrow. injection Hrow as <- _.
  cbn [Report.rowStatus] in Hstatus.
  destruct (monitor_processMatter_quiet E matter todayDate s fetched Hfetch)
    as (r & Hquiet & Hproc & _); [|by exists r].
  destruct fetched as [[|d rest]|]; [done| |done].
  cbn [mbind option_bind head] in Hstatus.
  destruct (String.eqb_spec
              (or_else (lastProcessedState s !! applicationNumber matter) "Never")
              (toISODate (date d))) as [Hsame|_]; [|done].
  pose proof (Hyears _ Hfetch) as Hall.
  pose proof (fetchByType_descending E matter _ Hfetch) as Hdesc.
  apply descending_head in Hdesc.
  unfold or_else in Hsame.
  destruct (truthy (lastProcessedState s !! applicationNumber matter)) eqn:Htruthy.
  - destruct (lastProcessedState s !! applicationNumber matter) as [marker|];
      [|done].
    cbn [default from_option id] in Hsame. subst marker. apply newDocsOf_nil.
    rewrite List.Forall_forall in Hall, Hdesc |- *. intros x Hx. cbn beta.
    destruct (isNewDocument_days (date x) (date d) todayDate) as [-> _].
    + by apply Hall.
    + apply Hall. by left.
    + apply Z.ltb_ge, Day_monotone. by apply Hdesc.
  - pose proof (toISODate_length (date d)) as Hlen.
    rewrite <- Hsame in Hlen. cbn [String.length] in Hlen. lia.
Qed.

Lemma report_up_to_date_witness :
  ∃ r,
    Monitor.processMatter sampleEnv trademarkMatter "2024-03-05"
      (set_lastProcessedState (λ _, {[ "12345" := "2024-03-01" ]}) sampleStore)
      = (Normal r,
         log (EProcessing "12345"
                :: emitted (Monitor.fetchByType sampleEnv trademarkMatter))
           (set_lastProcessedState (λ _, {[ "12345" := "2024-03-01" ]}) sampleStore)) ∧
    Monitor.processed r = false.
Proof.
  apply (report_up_to_date sampleEnv trademarkMatter
           (set_lastProcessedState (λ _, {[ "12345" := "2024-03-01" ]}) sampleStore)
           (Report.reportRow sampleEnv trademarkMatter
              (set_lastProcessedState (λ _, {[ "12345" := "2024-03-01" ]})
                 sampleStore)).2
           (Report.mkRow "L-1" "12345" "Trademark" "2024-03-01" "2024-03-01"
              "Notice" "Up to date")
           "2024-03-05").
  - intros allDocs Hfetch.
    assert (allDocs = [noticeDoc; actionDoc; applicationDoc]) as ->.
    { vm_compute in Hfetch. by injection Hfetch as <-. }
    repeat constructor; unfold fourDigitYear; simpl; lia.
  - vm_compute. reflexivity.
  - reflexivity.
Defined.

(** The rows of the sample world before anything was processed. *)
Example reportRows_sample :
  match (Report.reportRows sampleEnv sampleStore).1 with
  | Normal (Some rows) =>
      (λ row, (Report.rowLatestDocDate row, Report.rowLastProcessedDate row,
               Report.rowStatus row)) <$> rows
  | _ => []
  end
  = [("2024-03-01", "Never", "Update available");
     ("2024-03-02", "Never", "Update available")].
Proof. vm_compute. reflexivity. Qed.

(** ** The side-effect pipeline of the monitor *)

Lemma monitor_upload_run E app doc ty s :
  ∃ doc',
    Monitor.downloadAndUploadToDrive E app doc ty s
      = (Normal doc', log (if noLink doc then [] else [EUpload app doc]) s) ∧
    date doc' = date doc ∧ description doc' = description doc ∧
    link doc' = link doc.
Proof.
  unfold Monitor.downloadAndUploadToDrive, noLink.
  destruct (String.eqb (link doc) "" || String.eqb (link doc) "N/A").
  - exists doc. rewrite log_nil. unfold ret. repeat split.
  - unfold try_catch. rewrite bind_run. cbn [emit modify fst snd].
    destruct (drive E app doc) as [webViewLink|].
    + eexists. split; [reflexivity|]. repeat split.
    + exists doc. split; [reflexivity|]. repeat split.
Qed.

Lemma monitor_form_run E id app doc s :
  Monitor.submitFormWithPuppeteer E id app doc s
  = (match browser E id doc with
     | FormCloseFailed => Throw "Protocol error: Target closed"
     | _ => Normal tt
     end, log [EForm id app doc] s).
Proof.
  unfold Monitor.submitFormWithPuppeteer, try_finally, try_catch.
  rewrite bind_run. cbn [emit modify fst snd].
  by destruct (browser E id doc).
Qed.

(** X20. The side-effect pipeline of the monitor for one document makes
    its calls in one order: the upload (unless the document has no link),
    the notification, and then, only when the mail service accepted the
    notification, the update of the prospect, the reading of the prospect
    and, when the prospect is found, the form.  It throws in two cases and
    no other: the mail service rejected the notification, or the form was
    started and closing the browser failed.  A failed upload, a rejected
    update of the prospect, a browser that does not start and a failed
    form step do not make it throw. *)
Theorem monitor_pipeline (E : Env) (matter : Matter) (doc : Document)
    (type : string) (s : Store) :
  let app := applicationNumber matter in
  let id := lawmaticsID matter in
  ∃ doc',
    outcome (Monitor.downloadAndUploadToDrive E app doc type) = Normal doc' ∧
    date doc' = date doc ∧ link doc' = link doc ∧
    Monitor.processSingleDocument E matter doc type s
    = (if mailer E app doc'
       then match crm_get E id, browser E id doc' with
            | true, FormCloseFailed => Throw "Protocol error: Target closed"
            | _, _ => Normal tt
            end
       else Throw "sendMail failed",
       log ((if noLink doc then [] else [EUpload app doc])
              ++ EMail app doc'
              :: (if mailer E app doc'
                  then ECrmPut id app doc' :: ECrmGet id
                         :: (if crm_get E id then [EForm id app doc'] else [])
                  else [])) s).
Proof.
  intros app id.
  destruct (monitor_upload_run E app doc type blank)
    as (doc' & Hup & Hdate & _ & Hlink).
  exists doc'. split; [unfold outcome; by rewrite Hup|].
  split; [done|]. split; [done|].
  assert (outcome (Monitor.downloadAndUploadToDrive E app doc type) = Normal doc')
    as Hout by (unfold outcome; by rewrite Hup).
  assert (emitted (Monitor.downloadAndUploadToDrive E app doc type)
          = (if noLink doc then [] else [EUpload app doc])) as Hev
    by (unfold emitted; by rewrite Hup).
  unfold Monitor.processSingleDocument. fold app id.
  rewrite bind_run.
  rewrite (observer_run _
    (MonitorFacts.monitor_observer_downloadAndUploadToDrive E app doc type)).
  rewrite Hout, Hev.
  rewrite bind_run. unfold Monitor.sendEmailNotification.
  rewrite bind_run. cbn [emit modify fst snd]. rewrite log_log.
  destruct (mailer E app doc'); cbn [ret throw fst snd]; [|done].
  rewrite bind_run, updateLawmaticsProspect_run, log_log.
  rewrite bind_run, getProspect_run, log_log.
  destruct (crm_get E id).
  - rewrite monitor_form_run, log_log, <- !app_assoc. cbn [List.app].
    by destruct (browser E id doc').
  - cbn [ret]. rewrite <- !app_assoc. done.
Qed.

(** In the sample world with the mail service down the pipeline stops
    after the notification. *)
Example monitor_pipeline_sample :
  Monitor.processSingleDocument mailDownEnv trademarkMatter noticeDoc "Trademark"
    sampleStore
  = (Throw "sendMail failed",
     log [EUpload "12345" noticeDoc;
          EMail "12345"
            (mkDocument 1709305200000 "Notice" None None
               "https://tsdr.example/doc.xml" (Some "https://drive.example/view")
               (Some "xml"))] sampleStore).
Proof. vm_compute. reflexivity. Qed.

(** ** The trigger of a sweep over HTTP *)

(** X21. The handler of [api/monitor.js] starts a sweep only for a [POST]
    request that carries the configured API key, when one is configured:
    every other request is answered 200 (for [OPTIONS]), 405 or 401 and
    leaves the store as it was, nothing being called.  A request that
    passes runs [processAllMatters] of the monitor once and is answered
    with [success: true] and the result of the sweep as [data], also when
    the sweep itself reports a failure; status 500 is never answered. *)
Theorem monitor_api_gate (E : Env) (API_KEY : option string) (method : string)
    (apiKey : option string) (s : Store) :
  ∃ response s',
    MonitorApi.handler E API_KEY method apiKey s = (Normal response, s') ∧
    match response with
    | MonitorApi.Completed data =>
        method = "POST" ∧
        (truthy API_KEY = true → apiKey = API_KEY) ∧
        Monitor.processAllMatters E s = (Normal data, s')
    | MonitorApi.Refused statusCode _ =>
        s' = s ∧
        (statusCode = 405%nat ∧ method ≠ "POST" ∨
         statusCode = 401%nat ∧ truthy API_KEY = true ∧ apiKey ≠ API_KEY)
    | MonitorApi.Ended => s' = s ∧ method = "OPTIONS"
    end.
Proof.
  unfold MonitorApi.handler.
  destruct (String.eqb_spec method "OPTIONS") as [Hopt|_]; [by eexists _, _|].
  destruct (String.eqb_spec method "POST") as [Hpost|Hother]; cbn [negb];
    [|eexists _, _; split; [reflexivity|]; split; [done|]; by left].
  destruct (truthy API_KEY) eqn:Hkey; cbn [andb].
  - destruct (decide (apiKey = API_KEY)) as [Hsame|Hdiff].
    + rewrite bool_decide_eq_true_2 by done. cbn [negb].
      unfold try_catch, MonitorApi.runJob. rewrite bind_run, bind_run.
      destruct (monitor_sweep_run E s) as (r & s' & events & Hrun & _).
      rewrite Hrun. by eexists _, _.
    + rewrite bool_decide_eq_false_2 by done. cbn [negb].
      eexists _, _. split; [reflexivity|]. split; [done|]. by right.
  - unfold try_catch, MonitorApi.runJob. rewrite bind_run, bind_run.
    destruct (monitor_sweep_run E s) as (r & s' & events & Hrun & _).
    rewrite Hrun. by eexists _, _.
Qed.

(** A sweep that fails inside is still answered as a success. *)
Example monitor_api_sample :
  match (MonitorApi.handler mailDownEnv (Some "secret") "POST" (Some "secret")
           sampleStore).1 with
  | Normal (MonitorApi.Completed data) => Monitor.success data = false
  | _ => False
  end ∧
  (MonitorApi.handler mailDownEnv (Some "secret") "POST" None sampleStore).1
    = Normal (MonitorApi.Refused 401 "Unauthorized. Invalid API key.").
Proof. vm_compute. split; reflexivity. Qed.
